(** * EOS: a shallow embedding of the command-line front end [eos-scan-mc],
      of the B-meson light-cone distribution amplitudes, and of the sampling
      contracts of the statistics engine.

    C++ [double] values are IEEE-754 binary64 numbers, embedded as Rocq's
    primitive floats; the quantities of the statistics engine, which the
    specification states over real numbers, are embedded in [R]. *)

From Stdlib Require Import Bool List String Ascii ZArith NArith Lia DecimalString DecimalNat.
From Stdlib Require Import Floats.
From Stdlib Require Import Reals Lra.
Import ListNotations.

Set Implicit Arguments.
(* Decimal literals are rounded to the nearest binary64 value, as the C++
   compiler rounds them. *)
Set Warnings "-inexact-float".

(* ================================================================== *)
(** * Part I: definitions *)
(* ================================================================== *)

(** ** Double-precision helpers *)

Module Double.

Local Open Scope float_scope.

(** [std::max(a, b)] is [(a < b) ? b : a]. *)
Definition max (a b : float) : float := if a <? b then b else a.

(** [std::min(a, b)] is [(b < a) ? b : a]. *)
Definition min (a b : float) : float := if b <? a then b else a.

(** [std::numeric_limits<double>::max()]. *)
Definition numeric_limits_max : float := 0x1.fffffffffffffp+1023.

End Double.

(** ** The mathematical library the amplitudes call

    [std::exp], [std::log], [pow] and the two GSL special functions are
    external to the repository; the amplitudes are defined over any
    implementation of them. *)

Class Libm : Type := {
  std_exp : float -> float;
  std_log : float -> float;
  std_pow : float -> float -> float;
  gsl_sf_expint_Ei : float -> float;
  gsl_sf_gamma_inc : float -> float -> float
}.

(** ** [Implementation<BMesonLCDAs>] *)

Module BMesonLCDAs.

Local Open Scope float_scope.

(** The data members.  A [UsedParameter] converts to the [double] it
    currently holds; the record stores that value. *)
Record Implementation : Type := {
  opt_q : string;
  lambda_B_inv : float;
  lambda_E2 : float;
  lambda_H2 : float;
  opt_gminus : string;
  switch_gminus : float
}.

(** [const float debug_level_B = 1.0;]: the single-precision 1.0, which the
    comparison with the [double] literal promotes to binary64 unchanged. *)
Definition debug_level_B : float := 1.0.

Section Evaluation.

Context {M : Libm}.
Variable imp : Implementation.

Definition lambda_B : float := 1.0 / lambda_B_inv imp.

Definition phi_plus (omega : float) : float :=
  let omega_0 := lambda_B in
  omega / (omega_0 * omega_0) * std_exp (- omega / omega_0).

Definition phi_minus (omega : float) : float :=
  if debug_level_B <=? 1.0 then 0 else
  let omega_0 := lambda_B in
  let limitWW := 1.0 / omega_0 * std_exp (- omega / omega_0) in
  let nonWW := - (lambda_E2 imp - lambda_H2 imp) / (18.0 * std_pow omega_0 5) *
      (2.0 * omega_0 * omega_0 - 4.0 * omega_0 * omega + omega * omega) *
      std_exp (- omega / omega_0) in
  limitWW + nonWW.

Definition phi_bar (omega : float) : float :=
  if debug_level_B <=? 1.0 then 0 else
  let omega_0 := lambda_B in
  let limitWW := - omega / omega_0 * std_exp (- omega / omega_0) in
  let nonWW := (lambda_E2 imp - lambda_H2 imp) / (18.0 * std_pow omega_0 4)
      * (2.0 * omega_0 - omega) * omega * std_exp (- omega / omega_0) in
  limitWW + nonWW.

Definition phi_bar_d1 (omega : float) : float :=
  if debug_level_B <=? 1.0 then 0 else
  phi_plus omega - phi_minus omega.

Definition g_minusWW (omega : float) : float :=
  if debug_level_B <=? 1.0 then 0 else
  if omega <? 1.0e-5 then 0.0 else
  let omega_0 := lambda_B in
  let exp := std_exp (- omega / omega_0) in
  switch_gminus imp * (3.0 / 4.0) * omega * exp.

Definition g_minusWW_d1 (omega : float) : float :=
  if debug_level_B <=? 1.0 then 0 else
  let omega_0 := lambda_B in
  let exp := std_exp (- omega / omega_0) in
  switch_gminus imp * -1.0 * (3.0 / (4.0 * omega_0)) * (omega - omega_0) * exp.

Definition g_minusWW_d2 (omega : float) : float :=
  if debug_level_B <=? 1.0 then 0 else
  let omega_0 := lambda_B in
  let exp := std_exp (- omega / omega_0) in
  switch_gminus imp * (3.0 / (4.0 * omega_0 * omega_0)) * (omega - 2.0 * omega_0) * exp.

(** Euler-Mascheroni constant, [constexpr static double gamma_E]. *)
Definition gamma_E : float := 0.57721566490153286.

Definition g_plus (omega : float) : float :=
  if debug_level_B <=? 1.0 then 0 else
  if omega <? 1.0e-5 then 0.0 else
  let omega_0 := lambda_B in
  let Ei := gsl_sf_expint_Ei (- omega / omega_0) in
  let exp := std_exp (- omega / omega_0) in
  let termA := - lambda_E2 imp / (6.0 * std_pow omega_0 2) *
      ((omega - 2.0 * omega_0) * Ei
       + (omega + 2.0 * omega_0) * exp * (std_log (omega / omega_0) + gamma_E)
       - 2.0 * omega * exp) in
  let termB := exp / (2.0 * omega_0) * std_pow omega 2 *
      (1.0 - (lambda_E2 imp - lambda_H2 imp) / (36.0 * std_pow omega_0 2)) in
  termA + termB.

Definition g_plus_d1 (omega : float) : float :=
  if debug_level_B <=? 1.0 then 0 else
  if omega <? 1.0e-5 then 0.0 else
  let omega_0 := lambda_B in
  let Ei := gsl_sf_expint_Ei (- omega / omega_0) in
  let exp := std_exp (- omega / omega_0) in
  let termA := lambda_E2 imp / (6.0 * std_pow omega_0 3) *
      (- omega_0 * Ei
       + (omega + omega_0) * exp * (std_log (omega / omega_0) + gamma_E)
       - 2.0 * omega * exp) in
  let termB := exp / (2.0 * std_pow omega_0 2) * (2.0 * omega_0 - omega) * omega *
      (1.0 - (lambda_E2 imp - lambda_H2 imp) / (36.0 * std_pow omega_0 2)) in
  termA + termB.

Definition g_plus_d2 (omega : float) : float :=
  if debug_level_B <=? 1.0 then 0 else
  let omega_0 := lambda_B in
  let exp := std_exp (- omega / omega_0) in
  let termA := lambda_E2 imp / (6.0 * std_pow omega_0 4) * exp *
      (- omega_0
       - omega * (std_log (omega / omega_0) + gamma_E - 2.0)) in
  let termB := exp / (2.0 * std_pow omega_0 3) *
      (2.0 * std_pow omega_0 2 - 4.0 * omega_0 * omega + std_pow omega 2) *
      (1.0 - (lambda_E2 imp - lambda_H2 imp) / (36.0 * std_pow omega_0 2)) in
  termA + termB.

Definition g_bar (omega : float) : float :=
  if debug_level_B <=? 1.0 then 0 else
  if omega <? 1.0e-5 then 0.0 else
  let omega_0 := lambda_B in
  let Ei := gsl_sf_expint_Ei (- omega / omega_0) in
  let exp := std_exp (- omega / omega_0) in
  let exp_plus := std_exp (omega / omega_0) in
  let termA := - lambda_E2 imp / (12.0 * std_pow omega_0 2) *
      ((std_pow omega 2 - 4.0 * omega_0 * omega + 6.0 * std_pow omega_0 2) * Ei
       - omega_0 * exp * (std_log (omega / omega_0) + gamma_E) * 2.0 * (3.0 * omega_0 + omega)
       - omega_0 * exp * (omega_0 - 5.0 * omega)) in
  let termB := - exp / 2.0 *
      (2.0 * std_pow omega_0 2 + 2.0 * omega_0 * omega + std_pow omega 2) *
      (1.0 - (lambda_E2 imp - lambda_H2 imp) / (36.0 * std_pow omega_0 2)) in
  let int_glus := (termA - lambda_E2 imp / 12.0)
      + (termB + std_pow omega_0 2 - (lambda_E2 imp - lambda_H2 imp) / 36.0) in
  let int_gminusWW := (3.0 / 4.0) * exp * omega_0 * (exp_plus * omega_0 - omega - omega_0) in
  int_glus - switch_gminus imp * int_gminusWW.

Definition g_bar_d1 (omega : float) : float :=
  if debug_level_B <=? 1.0 then 0 else
  g_plus omega - g_minusWW omega.

Definition g_bar_d2 (omega : float) : float :=
  if debug_level_B <=? 1.0 then 0 else
  g_plus_d1 omega - g_minusWW_d1 omega.

Definition g_bar_d3 (omega : float) : float :=
  if debug_level_B <=? 1.0 then 0 else
  g_plus_d2 omega - g_minusWW_d2 omega.

Definition phi_3 (omega_1 omega_2 : float) : float :=
  if debug_level_B <=? 1.0 then 0 else
  let omega_0 := lambda_B in
  (lambda_E2 imp - lambda_H2 imp) / (6.0 * std_pow omega_0 5) * omega_1 *
    std_pow omega_2 2 * std_exp (- (omega_1 + omega_2) / omega_0).

Definition phi_4 (omega_1 omega_2 : float) : float :=
  if debug_level_B <=? 1.0 then 0 else
  let omega_0 := lambda_B in
  (lambda_E2 imp + lambda_H2 imp) / (6.0 * std_pow omega_0 4) *
    std_pow omega_2 2 * std_exp (- (omega_1 + omega_2) / omega_0).

Definition phi_bar_3 (omega_1 omega_2 : float) : float :=
  if debug_level_B <=? 1.0 then 0 else
  let omega_0 := lambda_B in
  let termA := - (lambda_E2 imp - lambda_H2 imp) / (6.0 * std_pow omega_0 4) *
      (omega_0 + omega_1) * omega_2 * omega_2 * std_exp (- (omega_1 + omega_2) / omega_0) in
  let termB := (lambda_E2 imp - lambda_H2 imp) / (6.0 * std_pow omega_0 3) *
      omega_2 * omega_2 * std_exp (- omega_2 / omega_0) in
  termA + termB.

Definition phi_bar_4 (omega_1 omega_2 : float) : float :=
  if debug_level_B <=? 1.0 then 0 else
  let omega_0 := lambda_B in
  let termA := - (lambda_E2 imp + lambda_H2 imp) / (6.0 * std_pow omega_0 3) *
      omega_2 * omega_2 * std_exp (- (omega_1 + omega_2) / omega_0) in
  let termB := (lambda_E2 imp + lambda_H2 imp) / (6.0 * std_pow omega_0 3) *
      omega_2 * omega_2 * std_exp (- omega_2 / omega_0) in
  termA + termB.

Definition phi_bar2_3 (omega_1 omega_2 : float) : float :=
  if debug_level_B <=? 1.0 then 0 else
  let omega_0 := lambda_B in
  let termA := - (lambda_E2 imp - lambda_H2 imp) / (6.0 * std_pow omega_0 4) * omega_1 *
      (2.0 * omega_0 * omega_0 + 2.0 * omega_0 * omega_2 + omega_2 * omega_2) * std_exp (- (omega_1 + omega_2) / omega_0) in
  let termB := (lambda_E2 imp - lambda_H2 imp) / (3.0 * std_pow omega_0 2) * omega_1 *
      std_exp (- omega_1 / omega_0) in
  termA + termB.

Definition phi_bar2_4 (omega_1 omega_2 : float) : float :=
  if debug_level_B <=? 1.0 then 0 else
  let omega_0 := lambda_B in
  let termA := - (lambda_E2 imp + lambda_H2 imp) / (6.0 * std_pow omega_0 3) *
      (2.0 * omega_0 * omega_0 + 2.0 * omega_0 * omega_2 + omega_2 * omega_2) * std_exp (- (omega_1 + omega_2) / omega_0) in
  let termB := (lambda_E2 imp + lambda_H2 imp) / (3.0 * omega_0) *
      std_exp (- omega_1 / omega_0) in
  termA + termB.

Definition phi_bar_bar_3 (omega_1 omega_2 : float) : float :=
  if debug_level_B <=? 1.0 then 0 else
  let omega_0 := lambda_B in
  let termA := (lambda_E2 imp - lambda_H2 imp) / (6.0 * std_pow omega_0 3) *
      (omega_0 + omega_1) * (2.0 * omega_0 * omega_0 + 2.0 * omega_0 * omega_2 + omega_2 * omega_2) *
      std_exp (- (omega_1 + omega_2) / omega_0) in
  let termB := - (lambda_E2 imp - lambda_H2 imp) / (3.0 * omega_0) * (omega_0 + omega_1) *
      std_exp (- omega_1 / omega_0) in
  let termC := - (lambda_E2 imp - lambda_H2 imp) / (6.0 * std_pow omega_0 2) *
      (2.0 * omega_0 * omega_0 + 2.0 * omega_0 * omega_2 + omega_2 * omega_2) * std_exp (- omega_2 / omega_0) in
  let termD := - 1.0 / 3.0 * (- lambda_E2 imp + lambda_H2 imp) in
  termA + termB + termC + termD.

Definition phi_bar_bar_4 (omega_1 omega_2 : float) : float :=
  if debug_level_B <=? 1.0 then 0 else
  let omega_0 := lambda_B in
  let termA := (lambda_E2 imp + lambda_H2 imp) / (6.0 * std_pow omega_0 2) *
      (2.0 * omega_0 * omega_0 + 2.0 * omega_0 * omega_2 + omega_2 * omega_2) * std_exp (- (omega_1 + omega_2) / omega_0) in
  let termB := - 1.0 / 3.0 * (lambda_E2 imp + lambda_H2 imp) *
      std_exp (- omega_1 / omega_0) in
  let termC := - (lambda_E2 imp + lambda_H2 imp) / (6.0 * std_pow omega_0 2) *
      (2.0 * omega_0 * omega_0 + 2.0 * omega_0 * omega_2 + omega_2 * omega_2) * std_exp (- omega_2 / omega_0) in
  let termD := - 1.0 / 3.0 * (- lambda_E2 imp - lambda_H2 imp) in
  termA + termB + termC + termD.

Definition psi_bar_4 (omega_1 omega_2 : float) : float :=
  if debug_level_B <=? 1.0 then 0 else
  let omega_0 := lambda_B in
  let termA := - lambda_E2 imp / (3.0 * std_pow omega_0 3) * (omega_0 + omega_1) * omega_2 *
      std_exp (- (omega_1 + omega_2) / omega_0) in
  let termB := lambda_E2 imp / (3.0 * std_pow omega_0 2) * omega_2 *
      std_exp (- omega_2 / omega_0) in
  termA + termB.

Definition psi_bar_bar_4 (omega_1 omega_2 : float) : float :=
  if debug_level_B <=? 1.0 then 0 else
  let omega_0 := lambda_B in
  let termA := - lambda_E2 imp / (3.0 * std_pow omega_0 2) *
      ((-1.0 + std_exp (omega_1 / omega_0)) * omega_0 - omega_1) * (omega_0 + omega_2) *
      std_exp (- (omega_1 + omega_2) / omega_0) in
  let termB := lambda_E2 imp / (3.0 * omega_0) *
      ((-1.0 + std_exp (omega_1 / omega_0)) * omega_0 - omega_1) *
      std_exp (- omega_1 / omega_0) in
  termA + termB.

Definition chi_bar_4 (omega_1 omega_2 : float) : float :=
  if debug_level_B <=? 1.0 then 0 else
  let omega_0 := lambda_B in
  let termA := - lambda_H2 imp / (3.0 * std_pow omega_0 3) * (omega_0 + omega_1) * omega_2 *
      std_exp (- (omega_1 + omega_2) / omega_0) in
  let termB := lambda_H2 imp / (3.0 * std_pow omega_0 2) * omega_2 *
      std_exp (- omega_2 / omega_0) in
  termA + termB.

Definition chi_bar_bar_4 (omega_1 omega_2 : float) : float :=
  if debug_level_B <=? 1.0 then 0 else
  let omega_0 := lambda_B in
  let termA := - lambda_H2 imp / (3.0 * std_pow omega_0 2) *
      ((-1.0 + std_exp (omega_1 / omega_0)) * omega_0 - omega_1) * (omega_0 + omega_2) *
      std_exp (- (omega_1 + omega_2) / omega_0) in
  let termB := lambda_H2 imp / (3.0 * omega_0) *
      ((-1.0 + std_exp (omega_1 / omega_0)) * omega_0 - omega_1) *
      std_exp (- omega_1 / omega_0) in
  termA + termB.

Definition psi_A (omega xi : float) : float :=
  if debug_level_B <=? 1.0 then 0 else
  let omega_0 := lambda_B in
  let omega_0_2 := omega_0 * omega_0 in
  let omega_0_4 := omega_0_2 * omega_0_2 in
  let lambda_E_2 := 3.0 / 2.0 * omega_0_2 in
  lambda_E_2 / (6.0 * omega_0_4) * xi * xi * std_exp (- (omega + xi) / omega_0).

Definition psi_V (omega xi : float) : float :=
  if debug_level_B <=? 1.0 then 0 else psi_A omega xi.

Definition X_A (omega xi : float) : float :=
  if debug_level_B <=? 1.0 then 0 else
  let omega_0 := lambda_B in
  let omega_0_2 := omega_0 * omega_0 in
  let omega_0_4 := omega_0_2 * omega_0_2 in
  let lambda_E_2 := 3.0 / 2.0 * omega_0_2 in
  lambda_E_2 / (6.0 * omega_0_4) * xi * (2.0 * omega - xi) *
    std_exp (- (omega + xi) / omega_0).

Definition Y_A (omega xi : float) : float :=
  if debug_level_B <=? 1.0 then 0 else
  let omega_0 := lambda_B in
  let omega_0_2 := omega_0 * omega_0 in
  let omega_0_4 := omega_0_2 * omega_0_2 in
  let lambda_E_2 := 3.0 / 2.0 * omega_0_2 in
  - lambda_E_2 / (24.0 * omega_0_4) * xi * (7.0 * omega_0 - 13.0 * omega + 3.0 * xi) *
    std_exp (- (omega + xi) / omega_0).

Definition Xbar_A (omega xi : float) : float :=
  if debug_level_B <=? 1.0 then 0 else
  let omega_0 := lambda_B in
  let omega_0_2 := omega_0 * omega_0 in
  let omega_0_3 := omega_0_2 * omega_0 in
  let lambda_E_2 := 3.0 / 2.0 * omega_0_2 in
  lambda_E_2 / (6.0 * omega_0_3) * xi * std_exp (- (xi + omega) / omega_0)
    * (xi - 2.0 * (omega + omega_0) + std_exp (omega / omega_0) * (2.0 * omega_0 - xi)).

Definition Ybar_A (omega xi : float) : float :=
  if debug_level_B <=? 1.0 then 0 else
  let omega_0 := lambda_B in
  let omega_0_2 := omega_0 * omega_0 in
  let omega_0_3 := omega_0_2 * omega_0 in
  let lambda_E_2 := 3.0 / 2.0 * omega_0_2 in
  - lambda_E_2 / (24.0 * omega_0_3) * xi * std_exp (- (xi + omega) / omega_0)
    * (- 3.0 * xi + 13.0 * omega + 6.0 * omega_0
       + 3.0 * std_exp (omega / omega_0) * (xi - 2.0 * omega_0)).

(** [BMesonLCDAs::inverse_lambda_plus], the one public method that is not a
    plain forward to the implementation. *)
Definition inverse_lambda_plus : float := 1.0 / lambda_B.

End Evaluation.

End BMesonLCDAs.

(** ** [Implementation<BcMesonLCDAs>] *)

Module BcMesonLCDAs.

Local Open Scope float_scope.

Record Implementation : Type := {
  opt_q : string;
  N0 : float;
  omega_0 : float;
  lambda_E2 : float;
  lambda_H2 : float;
  opt_gminus : string;
  switch_gminus : float
}.

Section Evaluation.

Context {M : Libm}.
Variable imp : Implementation.

(** Normalisation parameter. *)
Definition N1 : float := 1.0 - N0 imp.

Definition phi_plus (omega : float) : float :=
  let omega_0 := omega_0 imp in
  let N0 := N0 imp in
  let N1 := N1 in
  omega / std_pow omega_0 2
    * (N0 + N1 * omega / 2.0 / omega_0)
    * std_exp (- omega / omega_0).

Definition phi_minus (omega : float) : float :=
  let omega_0 := omega_0 imp in
  let N0 := N0 imp in
  let N1 := N1 in
  let m := 1.3 in
  std_exp (- omega / omega_0) / omega_0
    * (N0 * (m / omega_0 + 1)
       + 0.5 * N1 * (omega / omega_0 + 1) *
         ((m * (omega - omega_0)) / (omega_0 * (omega + omega_0)) + 1))
  - N0 * m / std_pow omega_0 2 * gsl_sf_gamma_inc 0 (omega / omega_0).

Definition phi_bar (omega : float) : float :=
  let omega_0 := omega_0 imp in
  let N0 := N0 imp in
  let N1 := N1 in
  let m := 1.3 in
  N0 * omega / std_pow omega_0 2 *
    (m * gsl_sf_gamma_inc 0 (omega / omega_0)
     - omega_0 * std_exp (- omega / omega_0))
  - N1 * omega / (2 * std_pow omega_0 2) *
    (std_exp (- omega / omega_0) * (omega + omega_0 - m)).

Definition phi_bar_d1 (omega : float) : float :=
  let omega_0 := omega_0 imp in
  let N0 := N0 imp in
  let N1 := N1 in
  let m := 1.3 in
  N0 / omega_0 *
    (std_exp (- omega / omega_0) * ((omega - m) / omega_0 - 1)
     + m / omega_0 * gsl_sf_gamma_inc 0 (omega / omega_0))
  + N1 / 2.0 / omega_0 * std_exp (- omega / omega_0) *
    (m / omega_0 * (1 - omega / omega_0)
     - omega / omega_0 * (1 - omega / omega_0)
     - 1).

(** The remaining amplitudes are stubs ([// TODO] in the source). *)
Definition g_minusWW (omega : float) : float := 0.
Definition g_minusWW_d1 (omega : float) : float := 0.
Definition g_minusWW_d2 (omega : float) : float := 0.
Definition g_plus (omega : float) : float := 0.
Definition g_plus_d1 (omega : float) : float := 0.
Definition g_plus_d2 (omega : float) : float := 0.
Definition g_bar (omega : float) : float := 0.
Definition g_bar_d1 (omega : float) : float := 0.
Definition g_bar_d2 (omega : float) : float := 0.
Definition g_bar_d3 (omega : float) : float := 0.
Definition phi_3 (omega_1 omega_2 : float) : float := 0.
Definition phi_4 (omega_1 omega_2 : float) : float := 0.
Definition phi_bar_3 (omega_1 omega_2 : float) : float := 0.
Definition phi_bar_4 (omega_1 omega_2 : float) : float := 0.
Definition phi_bar2_3 (omega_1 omega_2 : float) : float := 0.
Definition phi_bar2_4 (omega_1 omega_2 : float) : float := 0.
Definition phi_bar_bar_3 (omega_1 omega_2 : float) : float := 0.
Definition phi_bar_bar_4 (omega_1 omega_2 : float) : float := 0.
Definition psi_bar_4 (omega_1 omega_2 : float) : float := 0.
Definition psi_bar_bar_4 (omega_1 omega_2 : float) : float := 0.
Definition chi_bar_4 (omega_1 omega_2 : float) : float := 0.
Definition chi_bar_bar_4 (omega_1 omega_2 : float) : float := 0.
Definition psi_A (omega xi : float) : float := 0.
Definition psi_V (omega xi : float) : float := 0.
Definition X_A (omega xi : float) : float := 0.
Definition Y_A (omega xi : float) : float := 0.
Definition Xbar_A (omega xi : float) : float := 0.
Definition Ybar_A (omega xi : float) : float := 0.

(** [BcMesonLCDAs::inverse_lambda_plus], defined on the class itself. *)
Definition inverse_lambda_plus : float := 0.0.

End Evaluation.

End BcMesonLCDAs.

(** ** The sampler configurations

    Modelled from the spec: [MarkovChainSampler::Config] and
    [PopulationMonteCarloSampler::Config], the recognized options of
    sections 4.3 and 4.5.  Their declarations
    (eos/statistics/markov-chain-sampler.hh and
    population-monte-carlo-sampler.hh) are missing; the records hold the
    members [CommandLine] assigns, under the names it assigns them by and
    with the type of the value assigned ([unsigned] and [unsigned long] as
    [N], [long] as [Z], [double] as [float]). *)

Module MarkovChainSampler.

Record Config : Type := {
  number_of_chains : N;
  need_prerun : bool;
  chunk_size : N;
  parallelize : bool;
  use_strict_rvalue_definition : bool;
  chunks : N;
  output_file : string;
  prerun_iterations_max : N;
  prerun_iterations_min : N;
  prerun_iterations_update : N;
  store_prerun : bool;
  need_main_run : bool;
  proposal : string;
  student_t_degrees_of_freedom : float;
  seed : N
}.

Definition set_number_of_chains (v : N) (c : Config) : Config :=
  {| number_of_chains := v; need_prerun := need_prerun c; chunk_size := chunk_size c; parallelize
     := parallelize c; use_strict_rvalue_definition := use_strict_rvalue_definition c; chunks :=
     chunks c; output_file := output_file c; prerun_iterations_max := prerun_iterations_max c;
     prerun_iterations_min := prerun_iterations_min c; prerun_iterations_update :=
     prerun_iterations_update c; store_prerun := store_prerun c; need_main_run := need_main_run
     c; proposal := proposal c; student_t_degrees_of_freedom := student_t_degrees_of_freedom c;
     seed := seed c |}.

Definition set_need_prerun (v : bool) (c : Config) : Config :=
  {| number_of_chains := number_of_chains c; need_prerun := v; chunk_size := chunk_size c;
     parallelize := parallelize c; use_strict_rvalue_definition := use_strict_rvalue_definition
     c; chunks := chunks c; output_file := output_file c; prerun_iterations_max :=
     prerun_iterations_max c; prerun_iterations_min := prerun_iterations_min c;
     prerun_iterations_update := prerun_iterations_update c; store_prerun := store_prerun c;
     need_main_run := need_main_run c; proposal := proposal c; student_t_degrees_of_freedom :=
     student_t_degrees_of_freedom c; seed := seed c |}.

Definition set_chunk_size (v : N) (c : Config) : Config :=
  {| number_of_chains := number_of_chains c; need_prerun := need_prerun c; chunk_size := v;
     parallelize := parallelize c; use_strict_rvalue_definition := use_strict_rvalue_definition
     c; chunks := chunks c; output_file := output_file c; prerun_iterations_max :=
     prerun_iterations_max c; prerun_iterations_min := prerun_iterations_min c;
     prerun_iterations_update := prerun_iterations_update c; store_prerun := store_prerun c;
     need_main_run := need_main_run c; proposal := proposal c; student_t_degrees_of_freedom :=
     student_t_degrees_of_freedom c; seed := seed c |}.

Definition set_parallelize (v : bool) (c : Config) : Config :=
  {| number_of_chains := number_of_chains c; need_prerun := need_prerun c; chunk_size :=
     chunk_size c; parallelize := v; use_strict_rvalue_definition := use_strict_rvalue_definition
     c; chunks := chunks c; output_file := output_file c; prerun_iterations_max :=
     prerun_iterations_max c; prerun_iterations_min := prerun_iterations_min c;
     prerun_iterations_update := prerun_iterations_update c; store_prerun := store_prerun c;
     need_main_run := need_main_run c; proposal := proposal c; student_t_degrees_of_freedom :=
     student_t_degrees_of_freedom c; seed := seed c |}.

Definition set_use_strict_rvalue_definition (v : bool) (c : Config) : Config :=
  {| number_of_chains := number_of_chains c; need_prerun := need_prerun c; chunk_size :=
     chunk_size c; parallelize := parallelize c; use_strict_rvalue_definition := v; chunks :=
     chunks c; output_file := output_file c; prerun_iterations_max := prerun_iterations_max c;
     prerun_iterations_min := prerun_iterations_min c; prerun_iterations_update :=
     prerun_iterations_update c; store_prerun := store_prerun c; need_main_run := need_main_run
     c; proposal := proposal c; student_t_degrees_of_freedom := student_t_degrees_of_freedom c;
     seed := seed c |}.

Definition set_chunks (v : N) (c : Config) : Config :=
  {| number_of_chains := number_of_chains c; need_prerun := need_prerun c; chunk_size :=
     chunk_size c; parallelize := parallelize c; use_strict_rvalue_definition :=
     use_strict_rvalue_definition c; chunks := v; output_file := output_file c;
     prerun_iterations_max := prerun_iterations_max c; prerun_iterations_min :=
     prerun_iterations_min c; prerun_iterations_update := prerun_iterations_update c;
     store_prerun := store_prerun c; need_main_run := need_main_run c; proposal := proposal c;
     student_t_degrees_of_freedom := student_t_degrees_of_freedom c; seed := seed c |}.

Definition set_output_file (v : string) (c : Config) : Config :=
  {| number_of_chains := number_of_chains c; need_prerun := need_prerun c; chunk_size :=
     chunk_size c; parallelize := parallelize c; use_strict_rvalue_definition :=
     use_strict_rvalue_definition c; chunks := chunks c; output_file := v; prerun_iterations_max
     := prerun_iterations_max c; prerun_iterations_min := prerun_iterations_min c;
     prerun_iterations_update := prerun_iterations_update c; store_prerun := store_prerun c;
     need_main_run := need_main_run c; proposal := proposal c; student_t_degrees_of_freedom :=
     student_t_degrees_of_freedom c; seed := seed c |}.

Definition set_prerun_iterations_max (v : N) (c : Config) : Config :=
  {| number_of_chains := number_of_chains c; need_prerun := need_prerun c; chunk_size :=
     chunk_size c; parallelize := parallelize c; use_strict_rvalue_definition :=
     use_strict_rvalue_definition c; chunks := chunks c; output_file := output_file c;
     prerun_iterations_max := v; prerun_iterations_min := prerun_iterations_min c;
     prerun_iterations_update := prerun_iterations_update c; store_prerun := store_prerun c;
     need_main_run := need_main_run c; proposal := proposal c; student_t_degrees_of_freedom :=
     student_t_degrees_of_freedom c; seed := seed c |}.

Definition set_prerun_iterations_min (v : N) (c : Config) : Config :=
  {| number_of_chains := number_of_chains c; need_prerun := need_prerun c; chunk_size :=
     chunk_size c; parallelize := parallelize c; use_strict_rvalue_definition :=
     use_strict_rvalue_definition c; chunks := chunks c; output_file := output_file c;
     prerun_iterations_max := prerun_iterations_max c; prerun_iterations_min := v;
     prerun_iterations_update := prerun_iterations_update c; store_prerun := store_prerun c;
     need_main_run := need_main_run c; proposal := proposal c; student_t_degrees_of_freedom :=
     student_t_degrees_of_freedom c; seed := seed c |}.

Definition set_prerun_iterations_update (v : N) (c : Config) : Config :=
  {| number_of_chains := number_of_chains c; need_prerun := need_prerun c; chunk_size :=
     chunk_size c; parallelize := parallelize c; use_strict_rvalue_definition :=
     use_strict_rvalue_definition c; chunks := chunks c; output_file := output_file c;
     prerun_iterations_max := prerun_iterations_max c; prerun_iterations_min :=
     prerun_iterations_min c; prerun_iterations_update := v; store_prerun := store_prerun c;
     need_main_run := need_main_run c; proposal := proposal c; student_t_degrees_of_freedom :=
     student_t_degrees_of_freedom c; seed := seed c |}.

Definition set_store_prerun (v : bool) (c : Config) : Config :=
  {| number_of_chains := number_of_chains c; need_prerun := need_prerun c; chunk_size :=
     chunk_size c; parallelize := parallelize c; use_strict_rvalue_definition :=
     use_strict_rvalue_definition c; chunks := chunks c; output_file := output_file c;
     prerun_iterations_max := prerun_iterations_max c; prerun_iterations_min :=
     prerun_iterations_min c; prerun_iterations_update := prerun_iterations_update c;
     store_prerun := v; need_main_run := need_main_run c; proposal := proposal c;
     student_t_degrees_of_freedom := student_t_degrees_of_freedom c; seed := seed c |}.

Definition set_need_main_run (v : bool) (c : Config) : Config :=
  {| number_of_chains := number_of_chains c; need_prerun := need_prerun c; chunk_size :=
     chunk_size c; parallelize := parallelize c; use_strict_rvalue_definition :=
     use_strict_rvalue_definition c; chunks := chunks c; output_file := output_file c;
     prerun_iterations_max := prerun_iterations_max c; prerun_iterations_min :=
     prerun_iterations_min c; prerun_iterations_update := prerun_iterations_update c;
     store_prerun := store_prerun c; need_main_run := v; proposal := proposal c;
     student_t_degrees_of_freedom := student_t_degrees_of_freedom c; seed := seed c |}.

Definition set_proposal (v : string) (c : Config) : Config :=
  {| number_of_chains := number_of_chains c; need_prerun := need_prerun c; chunk_size :=
     chunk_size c; parallelize := parallelize c; use_strict_rvalue_definition :=
     use_strict_rvalue_definition c; chunks := chunks c; output_file := output_file c;
     prerun_iterations_max := prerun_iterations_max c; prerun_iterations_min :=
     prerun_iterations_min c; prerun_iterations_update := prerun_iterations_update c;
     store_prerun := store_prerun c; need_main_run := need_main_run c; proposal := v;
     student_t_degrees_of_freedom := student_t_degrees_of_freedom c; seed := seed c |}.

Definition set_student_t_degrees_of_freedom (v : float) (c : Config) : Config :=
  {| number_of_chains := number_of_chains c; need_prerun := need_prerun c; chunk_size :=
     chunk_size c; parallelize := parallelize c; use_strict_rvalue_definition :=
     use_strict_rvalue_definition c; chunks := chunks c; output_file := output_file c;
     prerun_iterations_max := prerun_iterations_max c; prerun_iterations_min :=
     prerun_iterations_min c; prerun_iterations_update := prerun_iterations_update c;
     store_prerun := store_prerun c; need_main_run := need_main_run c; proposal := proposal c;
     student_t_degrees_of_freedom := v; seed := seed c |}.

Definition set_seed (v : N) (c : Config) : Config :=
  {| number_of_chains := number_of_chains c; need_prerun := need_prerun c; chunk_size :=
     chunk_size c; parallelize := parallelize c; use_strict_rvalue_definition :=
     use_strict_rvalue_definition c; chunks := chunks c; output_file := output_file c;
     prerun_iterations_max := prerun_iterations_max c; prerun_iterations_min :=
     prerun_iterations_min c; prerun_iterations_update := prerun_iterations_update c;
     store_prerun := store_prerun c; need_main_run := need_main_run c; proposal := proposal c;
     student_t_degrees_of_freedom := student_t_degrees_of_freedom c; seed := v |}.

End MarkovChainSampler.

Module PopulationMonteCarloSampler.

Record Config : Type := {
  patch_length : float;
  skip_initial : float;
  target_ncomponents : N;
  output_file : string;
  parallelize : bool;
  adjust_sample_size : N;
  crop_highest_weights : N;
  degrees_of_freedom : Z;
  ignore_groups : list N;
  group_by_r_value : float;
  r_value_no_nuisance : N;
  final_samples : N;
  ignore_eff_sample_size : N;
  max_updates : N;
  maximum_relative_std_deviation : float;
  minimum_steps : N;
  samples_per_component : N;
  seed : N
}.

Definition set_patch_length (v : float) (c : Config) : Config :=
  {| patch_length := v; skip_initial := skip_initial c; target_ncomponents := target_ncomponents
     c; output_file := output_file c; parallelize := parallelize c; adjust_sample_size :=
     adjust_sample_size c; crop_highest_weights := crop_highest_weights c; degrees_of_freedom :=
     degrees_of_freedom c; ignore_groups := ignore_groups c; group_by_r_value := group_by_r_value
     c; r_value_no_nuisance := r_value_no_nuisance c; final_samples := final_samples c;
     ignore_eff_sample_size := ignore_eff_sample_size c; max_updates := max_updates c;
     maximum_relative_std_deviation := maximum_relative_std_deviation c; minimum_steps :=
     minimum_steps c; samples_per_component := samples_per_component c; seed := seed c |}.

Definition set_skip_initial (v : float) (c : Config) : Config :=
  {| patch_length := patch_length c; skip_initial := v; target_ncomponents := target_ncomponents
     c; output_file := output_file c; parallelize := parallelize c; adjust_sample_size :=
     adjust_sample_size c; crop_highest_weights := crop_highest_weights c; degrees_of_freedom :=
     degrees_of_freedom c; ignore_groups := ignore_groups c; group_by_r_value := group_by_r_value
     c; r_value_no_nuisance := r_value_no_nuisance c; final_samples := final_samples c;
     ignore_eff_sample_size := ignore_eff_sample_size c; max_updates := max_updates c;
     maximum_relative_std_deviation := maximum_relative_std_deviation c; minimum_steps :=
     minimum_steps c; samples_per_component := samples_per_component c; seed := seed c |}.

Definition set_target_ncomponents (v : N) (c : Config) : Config :=
  {| patch_length := patch_length c; skip_initial := skip_initial c; target_ncomponents := v;
     output_file := output_file c; parallelize := parallelize c; adjust_sample_size :=
     adjust_sample_size c; crop_highest_weights := crop_highest_weights c; degrees_of_freedom :=
     degrees_of_freedom c; ignore_groups := ignore_groups c; group_by_r_value := group_by_r_value
     c; r_value_no_nuisance := r_value_no_nuisance c; final_samples := final_samples c;
     ignore_eff_sample_size := ignore_eff_sample_size c; max_updates := max_updates c;
     maximum_relative_std_deviation := maximum_relative_std_deviation c; minimum_steps :=
     minimum_steps c; samples_per_component := samples_per_component c; seed := seed c |}.

Definition set_output_file (v : string) (c : Config) : Config :=
  {| patch_length := patch_length c; skip_initial := skip_initial c; target_ncomponents :=
     target_ncomponents c; output_file := v; parallelize := parallelize c; adjust_sample_size :=
     adjust_sample_size c; crop_highest_weights := crop_highest_weights c; degrees_of_freedom :=
     degrees_of_freedom c; ignore_groups := ignore_groups c; group_by_r_value := group_by_r_value
     c; r_value_no_nuisance := r_value_no_nuisance c; final_samples := final_samples c;
     ignore_eff_sample_size := ignore_eff_sample_size c; max_updates := max_updates c;
     maximum_relative_std_deviation := maximum_relative_std_deviation c; minimum_steps :=
     minimum_steps c; samples_per_component := samples_per_component c; seed := seed c |}.

Definition set_parallelize (v : bool) (c : Config) : Config :=
  {| patch_length := patch_length c; skip_initial := skip_initial c; target_ncomponents :=
     target_ncomponents c; output_file := output_file c; parallelize := v; adjust_sample_size :=
     adjust_sample_size c; crop_highest_weights := crop_highest_weights c; degrees_of_freedom :=
     degrees_of_freedom c; ignore_groups := ignore_groups c; group_by_r_value := group_by_r_value
     c; r_value_no_nuisance := r_value_no_nuisance c; final_samples := final_samples c;
     ignore_eff_sample_size := ignore_eff_sample_size c; max_updates := max_updates c;
     maximum_relative_std_deviation := maximum_relative_std_deviation c; minimum_steps :=
     minimum_steps c; samples_per_component := samples_per_component c; seed := seed c |}.

Definition set_adjust_sample_size (v : N) (c : Config) : Config :=
  {| patch_length := patch_length c; skip_initial := skip_initial c; target_ncomponents :=
     target_ncomponents c; output_file := output_file c; parallelize := parallelize c;
     adjust_sample_size := v; crop_highest_weights := crop_highest_weights c; degrees_of_freedom
     := degrees_of_freedom c; ignore_groups := ignore_groups c; group_by_r_value :=
     group_by_r_value c; r_value_no_nuisance := r_value_no_nuisance c; final_samples :=
     final_samples c; ignore_eff_sample_size := ignore_eff_sample_size c; max_updates :=
     max_updates c; maximum_relative_std_deviation := maximum_relative_std_deviation c;
     minimum_steps := minimum_steps c; samples_per_component := samples_per_component c; seed :=
     seed c |}.

Definition set_crop_highest_weights (v : N) (c : Config) : Config :=
  {| patch_length := patch_length c; skip_initial := skip_initial c; target_ncomponents :=
     target_ncomponents c; output_file := output_file c; parallelize := parallelize c;
     adjust_sample_size := adjust_sample_size c; crop_highest_weights := v; degrees_of_freedom :=
     degrees_of_freedom c; ignore_groups := ignore_groups c; group_by_r_value := group_by_r_value
     c; r_value_no_nuisance := r_value_no_nuisance c; final_samples := final_samples c;
     ignore_eff_sample_size := ignore_eff_sample_size c; max_updates := max_updates c;
     maximum_relative_std_deviation := maximum_relative_std_deviation c; minimum_steps :=
     minimum_steps c; samples_per_component := samples_per_component c; seed := seed c |}.

Definition set_degrees_of_freedom (v : Z) (c : Config) : Config :=
  {| patch_length := patch_length c; skip_initial := skip_initial c; target_ncomponents :=
     target_ncomponents c; output_file := output_file c; parallelize := parallelize c;
     adjust_sample_size := adjust_sample_size c; crop_highest_weights := crop_highest_weights c;
     degrees_of_freedom := v; ignore_groups := ignore_groups c; group_by_r_value :=
     group_by_r_value c; r_value_no_nuisance := r_value_no_nuisance c; final_samples :=
     final_samples c; ignore_eff_sample_size := ignore_eff_sample_size c; max_updates :=
     max_updates c; maximum_relative_std_deviation := maximum_relative_std_deviation c;
     minimum_steps := minimum_steps c; samples_per_component := samples_per_component c; seed :=
     seed c |}.

Definition set_ignore_groups (v : list N) (c : Config) : Config :=
  {| patch_length := patch_length c; skip_initial := skip_initial c; target_ncomponents :=
     target_ncomponents c; output_file := output_file c; parallelize := parallelize c;
     adjust_sample_size := adjust_sample_size c; crop_highest_weights := crop_highest_weights c;
     degrees_of_freedom := degrees_of_freedom c; ignore_groups := v; group_by_r_value :=
     group_by_r_value c; r_value_no_nuisance := r_value_no_nuisance c; final_samples :=
     final_samples c; ignore_eff_sample_size := ignore_eff_sample_size c; max_updates :=
     max_updates c; maximum_relative_std_deviation := maximum_relative_std_deviation c;
     minimum_steps := minimum_steps c; samples_per_component := samples_per_component c; seed :=
     seed c |}.

Definition set_group_by_r_value (v : float) (c : Config) : Config :=
  {| patch_length := patch_length c; skip_initial := skip_initial c; target_ncomponents :=
     target_ncomponents c; output_file := output_file c; parallelize := parallelize c;
     adjust_sample_size := adjust_sample_size c; crop_highest_weights := crop_highest_weights c;
     degrees_of_freedom := degrees_of_freedom c; ignore_groups := ignore_groups c;
     group_by_r_value := v; r_value_no_nuisance := r_value_no_nuisance c; final_samples :=
     final_samples c; ignore_eff_sample_size := ignore_eff_sample_size c; max_updates :=
     max_updates c; maximum_relative_std_deviation := maximum_relative_std_deviation c;
     minimum_steps := minimum_steps c; samples_per_component := samples_per_component c; seed :=
     seed c |}.

Definition set_r_value_no_nuisance (v : N) (c : Config) : Config :=
  {| patch_length := patch_length c; skip_initial := skip_initial c; target_ncomponents :=
     target_ncomponents c; output_file := output_file c; parallelize := parallelize c;
     adjust_sample_size := adjust_sample_size c; crop_highest_weights := crop_highest_weights c;
     degrees_of_freedom := degrees_of_freedom c; ignore_groups := ignore_groups c;
     group_by_r_value := group_by_r_value c; r_value_no_nuisance := v; final_samples :=
     final_samples c; ignore_eff_sample_size := ignore_eff_sample_size c; max_updates :=
     max_updates c; maximum_relative_std_deviation := maximum_relative_std_deviation c;
     minimum_steps := minimum_steps c; samples_per_component := samples_per_component c; seed :=
     seed c |}.

Definition set_final_samples (v : N) (c : Config) : Config :=
  {| patch_length := patch_length c; skip_initial := skip_initial c; target_ncomponents :=
     target_ncomponents c; output_file := output_file c; parallelize := parallelize c;
     adjust_sample_size := adjust_sample_size c; crop_highest_weights := crop_highest_weights c;
     degrees_of_freedom := degrees_of_freedom c; ignore_groups := ignore_groups c;
     group_by_r_value := group_by_r_value c; r_value_no_nuisance := r_value_no_nuisance c;
     final_samples := v; ignore_eff_sample_size := ignore_eff_sample_size c; max_updates :=
     max_updates c; maximum_relative_std_deviation := maximum_relative_std_deviation c;
     minimum_steps := minimum_steps c; samples_per_component := samples_per_component c; seed :=
     seed c |}.

Definition set_ignore_eff_sample_size (v : N) (c : Config) : Config :=
  {| patch_length := patch_length c; skip_initial := skip_initial c; target_ncomponents :=
     target_ncomponents c; output_file := output_file c; parallelize := parallelize c;
     adjust_sample_size := adjust_sample_size c; crop_highest_weights := crop_highest_weights c;
     degrees_of_freedom := degrees_of_freedom c; ignore_groups := ignore_groups c;
     group_by_r_value := group_by_r_value c; r_value_no_nuisance := r_value_no_nuisance c;
     final_samples := final_samples c; ignore_eff_sample_size := v; max_updates := max_updates c;
     maximum_relative_std_deviation := maximum_relative_std_deviation c; minimum_steps :=
     minimum_steps c; samples_per_component := samples_per_component c; seed := seed c |}.

Definition set_max_updates (v : N) (c : Config) : Config :=
  {| patch_length := patch_length c; skip_initial := skip_initial c; target_ncomponents :=
     target_ncomponents c; output_file := output_file c; parallelize := parallelize c;
     adjust_sample_size := adjust_sample_size c; crop_highest_weights := crop_highest_weights c;
     degrees_of_freedom := degrees_of_freedom c; ignore_groups := ignore_groups c;
     group_by_r_value := group_by_r_value c; r_value_no_nuisance := r_value_no_nuisance c;
     final_samples := final_samples c; ignore_eff_sample_size := ignore_eff_sample_size c;
     max_updates := v; maximum_relative_std_deviation := maximum_relative_std_deviation c;
     minimum_steps := minimum_steps c; samples_per_component := samples_per_component c; seed :=
     seed c |}.

Definition set_maximum_relative_std_deviation (v : float) (c : Config) : Config :=
  {| patch_length := patch_length c; skip_initial := skip_initial c; target_ncomponents :=
     target_ncomponents c; output_file := output_file c; parallelize := parallelize c;
     adjust_sample_size := adjust_sample_size c; crop_highest_weights := crop_highest_weights c;
     degrees_of_freedom := degrees_of_freedom c; ignore_groups := ignore_groups c;
     group_by_r_value := group_by_r_value c; r_value_no_nuisance := r_value_no_nuisance c;
     final_samples := final_samples c; ignore_eff_sample_size := ignore_eff_sample_size c;
     max_updates := max_updates c; maximum_relative_std_deviation := v; minimum_steps :=
     minimum_steps c; samples_per_component := samples_per_component c; seed := seed c |}.

Definition set_minimum_steps (v : N) (c : Config) : Config :=
  {| patch_length := patch_length c; skip_initial := skip_initial c; target_ncomponents :=
     target_ncomponents c; output_file := output_file c; parallelize := parallelize c;
     adjust_sample_size := adjust_sample_size c; crop_highest_weights := crop_highest_weights c;
     degrees_of_freedom := degrees_of_freedom c; ignore_groups := ignore_groups c;
     group_by_r_value := group_by_r_value c; r_value_no_nuisance := r_value_no_nuisance c;
     final_samples := final_samples c; ignore_eff_sample_size := ignore_eff_sample_size c;
     max_updates := max_updates c; maximum_relative_std_deviation :=
     maximum_relative_std_deviation c; minimum_steps := v; samples_per_component :=
     samples_per_component c; seed := seed c |}.

Definition set_samples_per_component (v : N) (c : Config) : Config :=
  {| patch_length := patch_length c; skip_initial := skip_initial c; target_ncomponents :=
     target_ncomponents c; output_file := output_file c; parallelize := parallelize c;
     adjust_sample_size := adjust_sample_size c; crop_highest_weights := crop_highest_weights c;
     degrees_of_freedom := degrees_of_freedom c; ignore_groups := ignore_groups c;
     group_by_r_value := group_by_r_value c; r_value_no_nuisance := r_value_no_nuisance c;
     final_samples := final_samples c; ignore_eff_sample_size := ignore_eff_sample_size c;
     max_updates := max_updates c; maximum_relative_std_deviation :=
     maximum_relative_std_deviation c; minimum_steps := minimum_steps c; samples_per_component :=
     v; seed := seed c |}.

Definition set_seed (v : N) (c : Config) : Config :=
  {| patch_length := patch_length c; skip_initial := skip_initial c; target_ncomponents :=
     target_ncomponents c; output_file := output_file c; parallelize := parallelize c;
     adjust_sample_size := adjust_sample_size c; crop_highest_weights := crop_highest_weights c;
     degrees_of_freedom := degrees_of_freedom c; ignore_groups := ignore_groups c;
     group_by_r_value := group_by_r_value c; r_value_no_nuisance := r_value_no_nuisance c;
     final_samples := final_samples c; ignore_eff_sample_size := ignore_eff_sample_size c;
     max_updates := max_updates c; maximum_relative_std_deviation :=
     maximum_relative_std_deviation c; minimum_steps := minimum_steps c; samples_per_component :=
     samples_per_component c; seed := v |}.

End PopulationMonteCarloSampler.

(** ** [eos-scan-mc]: the command line *)

Module ScanMC.

Local Open Scope string_scope.

(** *** Outcomes

    [CommandLine::parse] either runs to its end or leaves through one of
    the exits below. *)
Inductive Outcome (A : Type) : Type :=
| Return (a : A)
| ThrowDoUsage (what : string)      (* [throw DoUsage(what)] *)
| ThrowException (what : string)    (* an [eos::Exception] raised by a library call *)
| Aborted                           (* [abort()] *)
| ArgvExhausted                     (* [*(++a)] read at or past [argv + argc] *)
| OutOfFuel.                        (* the loop bound of the embedding ran out *)

Arguments Return {A} a.
Arguments ThrowDoUsage {A} what.
Arguments ThrowException {A} what.
Arguments Aborted {A}.
Arguments ArgvExhausted {A}.
Arguments OutOfFuel {A}.

Definition bind {A B : Type} (c : Outcome A) (k : A -> Outcome B) : Outcome B :=
  match c with
  | Return a => k a
  | ThrowDoUsage what => ThrowDoUsage what
  | ThrowException what => ThrowException what
  | Aborted => Aborted
  | ArgvExhausted => ArgvExhausted
  | OutOfFuel => OutOfFuel
  end.

(** A call into the library either returns or throws an [eos::Exception]. *)
Inductive Throwing (A : Type) : Type :=
| Returns (a : A)
| Throws (what : string).

Arguments Returns {A} a.
Arguments Throws {A} what.

Definition call {A : Type} (c : Throwing A) : Outcome A :=
  match c with
  | Returns a => Return a
  | Throws what => ThrowException what
  end.

Notation "'let*' x ':=' c 'in' k" := (bind c (fun x => k))
  (at level 10, x pattern, c at level 100, k at level 200).

(** [std::vector::push_back]. *)
Definition push_back {A : Type} (v : list A) (x : A) : list A := (v ++ [x])%list.

(** *** Plain data of the front end *)

(** Modelled from the spec: the valid range [[min, max]] of a parameter
    (section 3).  The declaration of [ParameterRange] is missing; [parse]
    builds it as [ParameterRange{ min, max }] and reads [.min] and [.max]. *)
Record ParameterRange : Type := { range_min : float; range_max : float }.

(** Modelled from the spec: a [Parameter], by its identity, the name
    (section 3).  The class is missing (eos/utils/parameters.hh). *)
Definition ParameterHandle : Type := string.

(** [struct ParameterData]. *)
Record ParameterData : Type := {
  parameter : ParameterHandle;
  min : float;
  max : float;
  prior : string
}.

(** Modelled from the spec: the shared parameter space of section 3, as
    far as the front end changes it: the values assigned through
    [Parameters::operator[]], latest first.  The class is missing. *)
Definition Parameters : Type := list (string * float).

(** Modelled from the spec: [Options] (eos/utils/options.hh, missing), as
    the key/value pairs [set] so far, latest first. *)
Definition Options : Type := list (string * string).

(** Modelled from the spec: [Kinematics] (eos/utils/kinematic.hh,
    missing), as the variables declared and set so far, latest first. *)
Definition Kinematics : Type := list (string * float).

(** Modelled from the spec: [LogPrior], the tagged variant of sections 3
    and 9 (eos/statistics/log-prior.hh is missing).  A prior is represented
    by the arguments of the factory call that creates it:
    [LogPrior::Flat(parameters, name, range)] or
    [LogPrior::Gauss(parameters, name, range, lower, central, upper)]. *)
Inductive LogPrior : Type :=
| Flat (name : string) (range : ParameterRange)
| Gauss (name : string) (range : ParameterRange) (lower central upper : float).

Definition LogPrior_name (p : LogPrior) : string :=
  match p with Flat n _ => n | Gauss n _ _ _ _ => n end.

Definition LogPrior_range (p : LogPrior) : ParameterRange :=
  match p with Flat _ r => r | Gauss _ r _ _ _ => r end.

(** Modelled from the spec: [ParameterDescription] of section 3, a
    parameter with its role flag; [main] reads [d->parameter] and
    [d->nuisance].  The declaration is missing. *)
Record ParameterDescription : Type := {
  description_parameter : ParameterHandle;
  nuisance : bool
}.

(** Modelled from the spec: [LogPosterior], the posterior evaluator of
    section 2, as the front end observes it: the parameter descriptions
    [main] iterates over and the priors it looks up by name.  The class is
    missing (eos/statistics/log-posterior.hh). *)
Record LogPosterior : Type := {
  parameter_descriptions : list ParameterDescription;
  log_priors : list LogPrior
}.

Definition declared_names (lp : LogPosterior) : list string :=
  map description_parameter (parameter_descriptions lp).

(** Modelled from the spec: the log levels [parse] sets
    (eos/utils/log.hh is missing). *)
Inductive LogLevel : Type := ll_informational | ll_debug.

(** The one message [parse] logs: the warning of [--global-option]. *)
Record LogMessage : Type := {
  warned_option : string;
  warned_value : string;
  previously_defined_constraints : nat
}.

(** Modelled from the spec: the [Log] singleton (eos/utils/log.hh is
    missing), as far as [parse] writes to it. *)
Record Log : Type := {
  log_level : LogLevel;
  program_name : string;
  messages : list LogMessage
}.

(** Modelled from the spec: an observable and a constraint, the opaque
    collaborators of section 1, each identified by the name it was made
    under ([name()] in [main]).  Their classes are missing. *)
Definition ObservablePtr : Type := string.
Definition Constraint : Type := string.

(** *** What the front end calls and does not define

    The build flag [EOS_ENABLE_PMC], the [destringify] conversions, the
    [VerifiedRange] constructor (which may throw), parameter lookup, the
    factories of observables and constraints, [LogPosterior::add], the
    default configurations and the clock are taken as parameters: the
    front end is defined, and its properties hold, for every
    implementation of them. *)
Class Eos : Type := {
  EOS_ENABLE_PMC : bool;
  destringify_double : string -> float;
  destringify_unsigned : string -> N;
  destringify_unsigned_long : string -> N;
  destringify_long : string -> Z;
  (* [VerifiedRange<double>(min, max, value)]: the value held, or a throw *)
  VerifiedRange_double : float -> float -> float -> Throwing float;
  (* [parameters[name]]: the handle of a known parameter, or a throw *)
  Parameters_subscript : string -> Throwing ParameterHandle;
  (* [Observable::make]: [None] is the null pointer *)
  Observable_make : string -> Parameters -> Kinematics -> Options -> Throwing (option ObservablePtr);
  Constraint_make : string -> Options -> Throwing Constraint;
  (* [LogPosterior::add(prior, nuisance)]: its result and the posterior after the call *)
  LogPosterior_add : LogPosterior -> LogPrior -> bool -> bool * LogPosterior;
  MarkovChainSampler_Config_Quick : MarkovChainSampler.Config;
  PopulationMonteCarloSampler_Config_Default : PopulationMonteCarloSampler.Config;
  (* [::time(0)] while the command line is parsed *)
  time_0 : N
}.

(** [struct ObservableInput]. *)
Record ObservableInput : Type := {
  observable : ObservablePtr;
  kinematics : Kinematics;
  input_min : float;
  input_central : float;
  input_max : float
}.

(** What [likelihood.add] received, in order. *)
Inductive LikelihoodEntry : Type :=
| AddConstraint (c : Constraint)
| AddObservable (o : ObservablePtr) (min central max : float) (number_of_observations : option N).

Definition LogLikelihood : Type := list LikelihoodEntry.

Record CommandLine : Type := {
  parameters : Parameters;
  global_options : Options;
  likelihood : LogLikelihood;
  log_posterior : LogPosterior;
  mcmc_config : MarkovChainSampler.Config;
  config_pmc : PopulationMonteCarloSampler.Config;
  scan_parameters : list ParameterData;
  nuisance_parameters : list ParameterData;
  inputs : list ObservableInput;
  constraints : list Constraint;
  creator : string;
  scale_reduction : float;
  pmc_initialization_file : string;
  pmc_sample_file : string;
  pmc_calculate_posterior : bool;
  pmc_calculate_posterior_min : N;
  pmc_calculate_posterior_max : N;
  pmc_draw_samples : bool;
  pmc_final : bool;
  pmc_update : bool;
  optimize : bool;
  starting_point : list float;
  goodness_of_fit : bool;
  best_fit_point : list float;
  use_pmc : bool
}.

Definition set_parameters (v : Parameters) (self : CommandLine) : CommandLine :=
  {| parameters := v; global_options := global_options self; likelihood := likelihood self;
     log_posterior := log_posterior self; mcmc_config := mcmc_config self; config_pmc :=
     config_pmc self; scan_parameters := scan_parameters self; nuisance_parameters :=
     nuisance_parameters self; inputs := inputs self; constraints := constraints self; creator :=
     creator self; scale_reduction := scale_reduction self; pmc_initialization_file :=
     pmc_initialization_file self; pmc_sample_file := pmc_sample_file self;
     pmc_calculate_posterior := pmc_calculate_posterior self; pmc_calculate_posterior_min :=
     pmc_calculate_posterior_min self; pmc_calculate_posterior_max := pmc_calculate_posterior_max
     self; pmc_draw_samples := pmc_draw_samples self; pmc_final := pmc_final self; pmc_update :=
     pmc_update self; optimize := optimize self; starting_point := starting_point self;
     goodness_of_fit := goodness_of_fit self; best_fit_point := best_fit_point self; use_pmc :=
     use_pmc self |}.

Definition set_global_options (v : Options) (self : CommandLine) : CommandLine :=
  {| parameters := parameters self; global_options := v; likelihood := likelihood self;
     log_posterior := log_posterior self; mcmc_config := mcmc_config self; config_pmc :=
     config_pmc self; scan_parameters := scan_parameters self; nuisance_parameters :=
     nuisance_parameters self; inputs := inputs self; constraints := constraints self; creator :=
     creator self; scale_reduction := scale_reduction self; pmc_initialization_file :=
     pmc_initialization_file self; pmc_sample_file := pmc_sample_file self;
     pmc_calculate_posterior := pmc_calculate_posterior self; pmc_calculate_posterior_min :=
     pmc_calculate_posterior_min self; pmc_calculate_posterior_max := pmc_calculate_posterior_max
     self; pmc_draw_samples := pmc_draw_samples self; pmc_final := pmc_final self; pmc_update :=
     pmc_update self; optimize := optimize self; starting_point := starting_point self;
     goodness_of_fit := goodness_of_fit self; best_fit_point := best_fit_point self; use_pmc :=
     use_pmc self |}.

Definition set_likelihood (v : LogLikelihood) (self : CommandLine) : CommandLine :=
  {| parameters := parameters self; global_options := global_options self; likelihood := v;
     log_posterior := log_posterior self; mcmc_config := mcmc_config self; config_pmc :=
     config_pmc self; scan_parameters := scan_parameters self; nuisance_parameters :=
     nuisance_parameters self; inputs := inputs self; constraints := constraints self; creator :=
     creator self; scale_reduction := scale_reduction self; pmc_initialization_file :=
     pmc_initialization_file self; pmc_sample_file := pmc_sample_file self;
     pmc_calculate_posterior := pmc_calculate_posterior self; pmc_calculate_posterior_min :=
     pmc_calculate_posterior_min self; pmc_calculate_posterior_max := pmc_calculate_posterior_max
     self; pmc_draw_samples := pmc_draw_samples self; pmc_final := pmc_final self; pmc_update :=
     pmc_update self; optimize := optimize self; starting_point := starting_point self;
     goodness_of_fit := goodness_of_fit self; best_fit_point := best_fit_point self; use_pmc :=
     use_pmc self |}.

Definition set_log_posterior (v : LogPosterior) (self : CommandLine) : CommandLine :=
  {| parameters := parameters self; global_options := global_options self; likelihood :=
     likelihood self; log_posterior := v; mcmc_config := mcmc_config self; config_pmc :=
     config_pmc self; scan_parameters := scan_parameters self; nuisance_parameters :=
     nuisance_parameters self; inputs := inputs self; constraints := constraints self; creator :=
     creator self; scale_reduction := scale_reduction self; pmc_initialization_file :=
     pmc_initialization_file self; pmc_sample_file := pmc_sample_file self;
     pmc_calculate_posterior := pmc_calculate_posterior self; pmc_calculate_posterior_min :=
     pmc_calculate_posterior_min self; pmc_calculate_posterior_max := pmc_calculate_posterior_max
     self; pmc_draw_samples := pmc_draw_samples self; pmc_final := pmc_final self; pmc_update :=
     pmc_update self; optimize := optimize self; starting_point := starting_point self;
     goodness_of_fit := goodness_of_fit self; best_fit_point := best_fit_point self; use_pmc :=
     use_pmc self |}.

Definition set_mcmc_config (v : MarkovChainSampler.Config) (self : CommandLine) : CommandLine :=
  {| parameters := parameters self; global_options := global_options self; likelihood :=
     likelihood self; log_posterior := log_posterior self; mcmc_config := v; config_pmc :=
     config_pmc self; scan_parameters := scan_parameters self; nuisance_parameters :=
     nuisance_parameters self; inputs := inputs self; constraints := constraints self; creator :=
     creator self; scale_reduction := scale_reduction self; pmc_initialization_file :=
     pmc_initialization_file self; pmc_sample_file := pmc_sample_file self;
     pmc_calculate_posterior := pmc_calculate_posterior self; pmc_calculate_posterior_min :=
     pmc_calculate_posterior_min self; pmc_calculate_posterior_max := pmc_calculate_posterior_max
     self; pmc_draw_samples := pmc_draw_samples self; pmc_final := pmc_final self; pmc_update :=
     pmc_update self; optimize := optimize self; starting_point := starting_point self;
     goodness_of_fit := goodness_of_fit self; best_fit_point := best_fit_point self; use_pmc :=
     use_pmc self |}.

Definition set_config_pmc (v : PopulationMonteCarloSampler.Config) (self : CommandLine) : CommandLine :=
  {| parameters := parameters self; global_options := global_options self; likelihood :=
     likelihood self; log_posterior := log_posterior self; mcmc_config := mcmc_config self;
     config_pmc := v; scan_parameters := scan_parameters self; nuisance_parameters :=
     nuisance_parameters self; inputs := inputs self; constraints := constraints self; creator :=
     creator self; scale_reduction := scale_reduction self; pmc_initialization_file :=
     pmc_initialization_file self; pmc_sample_file := pmc_sample_file self;
     pmc_calculate_posterior := pmc_calculate_posterior self; pmc_calculate_posterior_min :=
     pmc_calculate_posterior_min self; pmc_calculate_posterior_max := pmc_calculate_posterior_max
     self; pmc_draw_samples := pmc_draw_samples self; pmc_final := pmc_final self; pmc_update :=
     pmc_update self; optimize := optimize self; starting_point := starting_point self;
     goodness_of_fit := goodness_of_fit self; best_fit_point := best_fit_point self; use_pmc :=
     use_pmc self |}.

Definition set_scan_parameters (v : list ParameterData) (self : CommandLine) : CommandLine :=
  {| parameters := parameters self; global_options := global_options self; likelihood :=
     likelihood self; log_posterior := log_posterior self; mcmc_config := mcmc_config self;
     config_pmc := config_pmc self; scan_parameters := v; nuisance_parameters :=
     nuisance_parameters self; inputs := inputs self; constraints := constraints self; creator :=
     creator self; scale_reduction := scale_reduction self; pmc_initialization_file :=
     pmc_initialization_file self; pmc_sample_file := pmc_sample_file self;
     pmc_calculate_posterior := pmc_calculate_posterior self; pmc_calculate_posterior_min :=
     pmc_calculate_posterior_min self; pmc_calculate_posterior_max := pmc_calculate_posterior_max
     self; pmc_draw_samples := pmc_draw_samples self; pmc_final := pmc_final self; pmc_update :=
     pmc_update self; optimize := optimize self; starting_point := starting_point self;
     goodness_of_fit := goodness_of_fit self; best_fit_point := best_fit_point self; use_pmc :=
     use_pmc self |}.

Definition set_nuisance_parameters (v : list ParameterData) (self : CommandLine) : CommandLine :=
  {| parameters := parameters self; global_options := global_options self; likelihood :=
     likelihood self; log_posterior := log_posterior self; mcmc_config := mcmc_config self;
     config_pmc := config_pmc self; scan_parameters := scan_parameters self; nuisance_parameters
     := v; inputs := inputs self; constraints := constraints self; creator := creator self;
     scale_reduction := scale_reduction self; pmc_initialization_file := pmc_initialization_file
     self; pmc_sample_file := pmc_sample_file self; pmc_calculate_posterior :=
     pmc_calculate_posterior self; pmc_calculate_posterior_min := pmc_calculate_posterior_min
     self; pmc_calculate_posterior_max := pmc_calculate_posterior_max self; pmc_draw_samples :=
     pmc_draw_samples self; pmc_final := pmc_final self; pmc_update := pmc_update self; optimize
     := optimize self; starting_point := starting_point self; goodness_of_fit := goodness_of_fit
     self; best_fit_point := best_fit_point self; use_pmc := use_pmc self |}.

Definition set_inputs (v : list ObservableInput) (self : CommandLine) : CommandLine :=
  {| parameters := parameters self; global_options := global_options self; likelihood :=
     likelihood self; log_posterior := log_posterior self; mcmc_config := mcmc_config self;
     config_pmc := config_pmc self; scan_parameters := scan_parameters self; nuisance_parameters
     := nuisance_parameters self; inputs := v; constraints := constraints self; creator :=
     creator self; scale_reduction := scale_reduction self; pmc_initialization_file :=
     pmc_initialization_file self; pmc_sample_file := pmc_sample_file self;
     pmc_calculate_posterior := pmc_calculate_posterior self; pmc_calculate_posterior_min :=
     pmc_calculate_posterior_min self; pmc_calculate_posterior_max := pmc_calculate_posterior_max
     self; pmc_draw_samples := pmc_draw_samples self; pmc_final := pmc_final self; pmc_update :=
     pmc_update self; optimize := optimize self; starting_point := starting_point self;
     goodness_of_fit := goodness_of_fit self; best_fit_point := best_fit_point self; use_pmc :=
     use_pmc self |}.

Definition set_constraints (v : list Constraint) (self : CommandLine) : CommandLine :=
  {| parameters := parameters self; global_options := global_options self; likelihood :=
     likelihood self; log_posterior := log_posterior self; mcmc_config := mcmc_config self;
     config_pmc := config_pmc self; scan_parameters := scan_parameters self; nuisance_parameters
     := nuisance_parameters self; inputs := inputs self; constraints := v; creator := creator
     self; scale_reduction := scale_reduction self; pmc_initialization_file :=
     pmc_initialization_file self; pmc_sample_file := pmc_sample_file self;
     pmc_calculate_posterior := pmc_calculate_posterior self; pmc_calculate_posterior_min :=
     pmc_calculate_posterior_min self; pmc_calculate_posterior_max := pmc_calculate_posterior_max
     self; pmc_draw_samples := pmc_draw_samples self; pmc_final := pmc_final self; pmc_update :=
     pmc_update self; optimize := optimize self; starting_point := starting_point self;
     goodness_of_fit := goodness_of_fit self; best_fit_point := best_fit_point self; use_pmc :=
     use_pmc self |}.

Definition set_creator (v : string) (self : CommandLine) : CommandLine :=
  {| parameters := parameters self; global_options := global_options self; likelihood :=
     likelihood self; log_posterior := log_posterior self; mcmc_config := mcmc_config self;
     config_pmc := config_pmc self; scan_parameters := scan_parameters self; nuisance_parameters
     := nuisance_parameters self; inputs := inputs self; constraints := constraints self; creator
     := v; scale_reduction := scale_reduction self; pmc_initialization_file :=
     pmc_initialization_file self; pmc_sample_file := pmc_sample_file self;
     pmc_calculate_posterior := pmc_calculate_posterior self; pmc_calculate_posterior_min :=
     pmc_calculate_posterior_min self; pmc_calculate_posterior_max := pmc_calculate_posterior_max
     self; pmc_draw_samples := pmc_draw_samples self; pmc_final := pmc_final self; pmc_update :=
     pmc_update self; optimize := optimize self; starting_point := starting_point self;
     goodness_of_fit := goodness_of_fit self; best_fit_point := best_fit_point self; use_pmc :=
     use_pmc self |}.

Definition set_scale_reduction (v : float) (self : CommandLine) : CommandLine :=
  {| parameters := parameters self; global_options := global_options self; likelihood :=
     likelihood self; log_posterior := log_posterior self; mcmc_config := mcmc_config self;
     config_pmc := config_pmc self; scan_parameters := scan_parameters self; nuisance_parameters
     := nuisance_parameters self; inputs := inputs self; constraints := constraints self; creator
     := creator self; scale_reduction := v; pmc_initialization_file := pmc_initialization_file
     self; pmc_sample_file := pmc_sample_file self; pmc_calculate_posterior :=
     pmc_calculate_posterior self; pmc_calculate_posterior_min := pmc_calculate_posterior_min
     self; pmc_calculate_posterior_max := pmc_calculate_posterior_max self; pmc_draw_samples :=
     pmc_draw_samples self; pmc_final := pmc_final self; pmc_update := pmc_update self; optimize
     := optimize self; starting_point := starting_point self; goodness_of_fit := goodness_of_fit
     self; best_fit_point := best_fit_point self; use_pmc := use_pmc self |}.

Definition set_pmc_initialization_file (v : string) (self : CommandLine) : CommandLine :=
  {| parameters := parameters self; global_options := global_options self; likelihood :=
     likelihood self; log_posterior := log_posterior self; mcmc_config := mcmc_config self;
     config_pmc := config_pmc self; scan_parameters := scan_parameters self; nuisance_parameters
     := nuisance_parameters self; inputs := inputs self; constraints := constraints self; creator
     := creator self; scale_reduction := scale_reduction self; pmc_initialization_file := v;
     pmc_sample_file := pmc_sample_file self; pmc_calculate_posterior := pmc_calculate_posterior
     self; pmc_calculate_posterior_min := pmc_calculate_posterior_min self;
     pmc_calculate_posterior_max := pmc_calculate_posterior_max self; pmc_draw_samples :=
     pmc_draw_samples self; pmc_final := pmc_final self; pmc_update := pmc_update self; optimize
     := optimize self; starting_point := starting_point self; goodness_of_fit := goodness_of_fit
     self; best_fit_point := best_fit_point self; use_pmc := use_pmc self |}.

Definition set_pmc_sample_file (v : string) (self : CommandLine) : CommandLine :=
  {| parameters := parameters self; global_options := global_options self; likelihood :=
     likelihood self; log_posterior := log_posterior self; mcmc_config := mcmc_config self;
     config_pmc := config_pmc self; scan_parameters := scan_parameters self; nuisance_parameters
     := nuisance_parameters self; inputs := inputs self; constraints := constraints self; creator
     := creator self; scale_reduction := scale_reduction self; pmc_initialization_file :=
     pmc_initialization_file self; pmc_sample_file := v; pmc_calculate_posterior :=
     pmc_calculate_posterior self; pmc_calculate_posterior_min := pmc_calculate_posterior_min
     self; pmc_calculate_posterior_max := pmc_calculate_posterior_max self; pmc_draw_samples :=
     pmc_draw_samples self; pmc_final := pmc_final self; pmc_update := pmc_update self; optimize
     := optimize self; starting_point := starting_point self; goodness_of_fit := goodness_of_fit
     self; best_fit_point := best_fit_point self; use_pmc := use_pmc self |}.

Definition set_pmc_calculate_posterior (v : bool) (self : CommandLine) : CommandLine :=
  {| parameters := parameters self; global_options := global_options self; likelihood :=
     likelihood self; log_posterior := log_posterior self; mcmc_config := mcmc_config self;
     config_pmc := config_pmc self; scan_parameters := scan_parameters self; nuisance_parameters
     := nuisance_parameters self; inputs := inputs self; constraints := constraints self; creator
     := creator self; scale_reduction := scale_reduction self; pmc_initialization_file :=
     pmc_initialization_file self; pmc_sample_file := pmc_sample_file self;
     pmc_calculate_posterior := v; pmc_calculate_posterior_min := pmc_calculate_posterior_min
     self; pmc_calculate_posterior_max := pmc_calculate_posterior_max self; pmc_draw_samples :=
     pmc_draw_samples self; pmc_final := pmc_final self; pmc_update := pmc_update self; optimize
     := optimize self; starting_point := starting_point self; goodness_of_fit := goodness_of_fit
     self; best_fit_point := best_fit_point self; use_pmc := use_pmc self |}.

Definition set_pmc_calculate_posterior_min (v : N) (self : CommandLine) : CommandLine :=
  {| parameters := parameters self; global_options := global_options self; likelihood :=
     likelihood self; log_posterior := log_posterior self; mcmc_config := mcmc_config self;
     config_pmc := config_pmc self; scan_parameters := scan_parameters self; nuisance_parameters
     := nuisance_parameters self; inputs := inputs self; constraints := constraints self; creator
     := creator self; scale_reduction := scale_reduction self; pmc_initialization_file :=
     pmc_initialization_file self; pmc_sample_file := pmc_sample_file self;
     pmc_calculate_posterior := pmc_calculate_posterior self; pmc_calculate_posterior_min := v;
     pmc_calculate_posterior_max := pmc_calculate_posterior_max self; pmc_draw_samples :=
     pmc_draw_samples self; pmc_final := pmc_final self; pmc_update := pmc_update self; optimize
     := optimize self; starting_point := starting_point self; goodness_of_fit := goodness_of_fit
     self; best_fit_point := best_fit_point self; use_pmc := use_pmc self |}.

Definition set_pmc_calculate_posterior_max (v : N) (self : CommandLine) : CommandLine :=
  {| parameters := parameters self; global_options := global_options self; likelihood :=
     likelihood self; log_posterior := log_posterior self; mcmc_config := mcmc_config self;
     config_pmc := config_pmc self; scan_parameters := scan_parameters self; nuisance_parameters
     := nuisance_parameters self; inputs := inputs self; constraints := constraints self; creator
     := creator self; scale_reduction := scale_reduction self; pmc_initialization_file :=
     pmc_initialization_file self; pmc_sample_file := pmc_sample_file self;
     pmc_calculate_posterior := pmc_calculate_posterior self; pmc_calculate_posterior_min :=
     pmc_calculate_posterior_min self; pmc_calculate_posterior_max := v; pmc_draw_samples :=
     pmc_draw_samples self; pmc_final := pmc_final self; pmc_update := pmc_update self; optimize
     := optimize self; starting_point := starting_point self; goodness_of_fit := goodness_of_fit
     self; best_fit_point := best_fit_point self; use_pmc := use_pmc self |}.

Definition set_pmc_draw_samples (v : bool) (self : CommandLine) : CommandLine :=
  {| parameters := parameters self; global_options := global_options self; likelihood :=
     likelihood self; log_posterior := log_posterior self; mcmc_config := mcmc_config self;
     config_pmc := config_pmc self; scan_parameters := scan_parameters self; nuisance_parameters
     := nuisance_parameters self; inputs := inputs self; constraints := constraints self; creator
     := creator self; scale_reduction := scale_reduction self; pmc_initialization_file :=
     pmc_initialization_file self; pmc_sample_file := pmc_sample_file self;
     pmc_calculate_posterior := pmc_calculate_posterior self; pmc_calculate_posterior_min :=
     pmc_calculate_posterior_min self; pmc_calculate_posterior_max := pmc_calculate_posterior_max
     self; pmc_draw_samples := v; pmc_final := pmc_final self; pmc_update := pmc_update self;
     optimize := optimize self; starting_point := starting_point self; goodness_of_fit :=
     goodness_of_fit self; best_fit_point := best_fit_point self; use_pmc := use_pmc self |}.

Definition set_pmc_final (v : bool) (self : CommandLine) : CommandLine :=
  {| parameters := parameters self; global_options := global_options self; likelihood :=
     likelihood self; log_posterior := log_posterior self; mcmc_config := mcmc_config self;
     config_pmc := config_pmc self; scan_parameters := scan_parameters self; nuisance_parameters
     := nuisance_parameters self; inputs := inputs self; constraints := constraints self; creator
     := creator self; scale_reduction := scale_reduction self; pmc_initialization_file :=
     pmc_initialization_file self; pmc_sample_file := pmc_sample_file self;
     pmc_calculate_posterior := pmc_calculate_posterior self; pmc_calculate_posterior_min :=
     pmc_calculate_posterior_min self; pmc_calculate_posterior_max := pmc_calculate_posterior_max
     self; pmc_draw_samples := pmc_draw_samples self; pmc_final := v; pmc_update := pmc_update
     self; optimize := optimize self; starting_point := starting_point self; goodness_of_fit :=
     goodness_of_fit self; best_fit_point := best_fit_point self; use_pmc := use_pmc self |}.

Definition set_pmc_update (v : bool) (self : CommandLine) : CommandLine :=
  {| parameters := parameters self; global_options := global_options self; likelihood :=
     likelihood self; log_posterior := log_posterior self; mcmc_config := mcmc_config self;
     config_pmc := config_pmc self; scan_parameters := scan_parameters self; nuisance_parameters
     := nuisance_parameters self; inputs := inputs self; constraints := constraints self; creator
     := creator self; scale_reduction := scale_reduction self; pmc_initialization_file :=
     pmc_initialization_file self; pmc_sample_file := pmc_sample_file self;
     pmc_calculate_posterior := pmc_calculate_posterior self; pmc_calculate_posterior_min :=
     pmc_calculate_posterior_min self; pmc_calculate_posterior_max := pmc_calculate_posterior_max
     self; pmc_draw_samples := pmc_draw_samples self; pmc_final := pmc_final self; pmc_update :=
     v; optimize := optimize self; starting_point := starting_point self; goodness_of_fit :=
     goodness_of_fit self; best_fit_point := best_fit_point self; use_pmc := use_pmc self |}.

Definition set_optimize (v : bool) (self : CommandLine) : CommandLine :=
  {| parameters := parameters self; global_options := global_options self; likelihood :=
     likelihood self; log_posterior := log_posterior self; mcmc_config := mcmc_config self;
     config_pmc := config_pmc self; scan_parameters := scan_parameters self; nuisance_parameters
     := nuisance_parameters self; inputs := inputs self; constraints := constraints self; creator
     := creator self; scale_reduction := scale_reduction self; pmc_initialization_file :=
     pmc_initialization_file self; pmc_sample_file := pmc_sample_file self;
     pmc_calculate_posterior := pmc_calculate_posterior self; pmc_calculate_posterior_min :=
     pmc_calculate_posterior_min self; pmc_calculate_posterior_max := pmc_calculate_posterior_max
     self; pmc_draw_samples := pmc_draw_samples self; pmc_final := pmc_final self; pmc_update :=
     pmc_update self; optimize := v; starting_point := starting_point self; goodness_of_fit :=
     goodness_of_fit self; best_fit_point := best_fit_point self; use_pmc := use_pmc self |}.

Definition set_starting_point (v : list float) (self : CommandLine) : CommandLine :=
  {| parameters := parameters self; global_options := global_options self; likelihood :=
     likelihood self; log_posterior := log_posterior self; mcmc_config := mcmc_config self;
     config_pmc := config_pmc self; scan_parameters := scan_parameters self; nuisance_parameters
     := nuisance_parameters self; inputs := inputs self; constraints := constraints self; creator
     := creator self; scale_reduction := scale_reduction self; pmc_initialization_file :=
     pmc_initialization_file self; pmc_sample_file := pmc_sample_file self;
     pmc_calculate_posterior := pmc_calculate_posterior self; pmc_calculate_posterior_min :=
     pmc_calculate_posterior_min self; pmc_calculate_posterior_max := pmc_calculate_posterior_max
     self; pmc_draw_samples := pmc_draw_samples self; pmc_final := pmc_final self; pmc_update :=
     pmc_update self; optimize := optimize self; starting_point := v; goodness_of_fit :=
     goodness_of_fit self; best_fit_point := best_fit_point self; use_pmc := use_pmc self |}.

Definition set_goodness_of_fit (v : bool) (self : CommandLine) : CommandLine :=
  {| parameters := parameters self; global_options := global_options self; likelihood :=
     likelihood self; log_posterior := log_posterior self; mcmc_config := mcmc_config self;
     config_pmc := config_pmc self; scan_parameters := scan_parameters self; nuisance_parameters
     := nuisance_parameters self; inputs := inputs self; constraints := constraints self; creator
     := creator self; scale_reduction := scale_reduction self; pmc_initialization_file :=
     pmc_initialization_file self; pmc_sample_file := pmc_sample_file self;
     pmc_calculate_posterior := pmc_calculate_posterior self; pmc_calculate_posterior_min :=
     pmc_calculate_posterior_min self; pmc_calculate_posterior_max := pmc_calculate_posterior_max
     self; pmc_draw_samples := pmc_draw_samples self; pmc_final := pmc_final self; pmc_update :=
     pmc_update self; optimize := optimize self; starting_point := starting_point self;
     goodness_of_fit := v; best_fit_point := best_fit_point self; use_pmc := use_pmc self |}.

Definition set_best_fit_point (v : list float) (self : CommandLine) : CommandLine :=
  {| parameters := parameters self; global_options := global_options self; likelihood :=
     likelihood self; log_posterior := log_posterior self; mcmc_config := mcmc_config self;
     config_pmc := config_pmc self; scan_parameters := scan_parameters self; nuisance_parameters
     := nuisance_parameters self; inputs := inputs self; constraints := constraints self; creator
     := creator self; scale_reduction := scale_reduction self; pmc_initialization_file :=
     pmc_initialization_file self; pmc_sample_file := pmc_sample_file self;
     pmc_calculate_posterior := pmc_calculate_posterior self; pmc_calculate_posterior_min :=
     pmc_calculate_posterior_min self; pmc_calculate_posterior_max := pmc_calculate_posterior_max
     self; pmc_draw_samples := pmc_draw_samples self; pmc_final := pmc_final self; pmc_update :=
     pmc_update self; optimize := optimize self; starting_point := starting_point self;
     goodness_of_fit := goodness_of_fit self; best_fit_point := v; use_pmc := use_pmc self |}.

Definition set_use_pmc (v : bool) (self : CommandLine) : CommandLine :=
  {| parameters := parameters self; global_options := global_options self; likelihood :=
     likelihood self; log_posterior := log_posterior self; mcmc_config := mcmc_config self;
     config_pmc := config_pmc self; scan_parameters := scan_parameters self; nuisance_parameters
     := nuisance_parameters self; inputs := inputs self; constraints := constraints self; creator
     := creator self; scale_reduction := scale_reduction self; pmc_initialization_file :=
     pmc_initialization_file self; pmc_sample_file := pmc_sample_file self;
     pmc_calculate_posterior := pmc_calculate_posterior self; pmc_calculate_posterior_min :=
     pmc_calculate_posterior_min self; pmc_calculate_posterior_max := pmc_calculate_posterior_max
     self; pmc_draw_samples := pmc_draw_samples self; pmc_final := pmc_final self; pmc_update :=
     pmc_update self; optimize := optimize self; starting_point := starting_point self;
     goodness_of_fit := goodness_of_fit self; best_fit_point := best_fit_point self; use_pmc := v |}.

Definition on_mcmc_config (f : MarkovChainSampler.Config -> MarkovChainSampler.Config)
    (self : CommandLine) : CommandLine :=
  set_mcmc_config (f (mcmc_config self)) self.

Definition on_config_pmc
    (f : PopulationMonteCarloSampler.Config -> PopulationMonteCarloSampler.Config)
    (self : CommandLine) : CommandLine :=
  set_config_pmc (f (config_pmc self)) self.

(** The state the loop of [parse] works on: the object, the local
    [kinematics] and the [Log] singleton. *)
Record State : Type := {
  self : CommandLine;
  local_kinematics : Kinematics;
  log : Log
}.

Definition on_self (f : CommandLine -> CommandLine) (s : State) : State :=
  {| self := f (self s); local_kinematics := local_kinematics s; log := log s |}.

Definition set_local_kinematics (k : Kinematics) (s : State) : State :=
  {| self := self s; local_kinematics := k; log := log s |}.

Definition set_log (l : Log) (s : State) : State :=
  {| self := self s; local_kinematics := local_kinematics s; log := l |}.

Section CommandLine.

Context {E : Eos}.

(** The constructor [CommandLine()]. *)
Definition CommandLine_new : CommandLine :=
  let mcmc_config :=
    MarkovChainSampler.set_use_strict_rvalue_definition true
      (MarkovChainSampler.set_parallelize false
        (MarkovChainSampler.set_chunk_size 1000%N
          (MarkovChainSampler.set_need_prerun true
            (MarkovChainSampler.set_number_of_chains 4%N
              MarkovChainSampler_Config_Quick)))) in
  {| parameters := [];
     global_options := [];
     likelihood := [];
     log_posterior := {| parameter_descriptions := []; log_priors := [] |};
     mcmc_config := mcmc_config;
     config_pmc := PopulationMonteCarloSampler_Config_Default;
     scan_parameters := [];
     nuisance_parameters := [];
     inputs := [];
     constraints := [];
     creator := "";
     scale_reduction := 1%float;
     pmc_initialization_file := "";
     pmc_sample_file := "";
     pmc_calculate_posterior := false;
     pmc_calculate_posterior_min := 0%N;
     pmc_calculate_posterior_max := 0%N;
     pmc_draw_samples := false;
     pmc_final := false;
     pmc_update := false;
     optimize := false;
     starting_point := [];
     goodness_of_fit := false;
     best_fit_point := [];
     use_pmc := false |}.

(** *** Reading words

    [*(++a)]: the next word of [argv].  Past the last word the C++ program
    reads [argv[argc]], a null pointer, into a [std::string]. *)
Definition next (a : list string) : Outcome (string * list string) :=
  match a with
  | [] => ArgvExhausted
  | w :: a' => Return (w, a')
  end.

(** The loop [do { word = *(++a); if ("}" == word) break; ... } while (true)]
    of [--goodness-of-fit] and [--optimize]. *)
Fixpoint read_point (a : list string) (point : list float)
    : Outcome (list float * list string) :=
  match a with
  | [] => ArgvExhausted
  | word :: a' =>
      if word =? "}" then Return (point, a')
      else read_point a' (push_back point (destringify_double word))
  end.

(** [X = destringify<unsigned>(w); continue;], [w] the next word. *)
Definition assign_unsigned (assign : N -> CommandLine -> CommandLine)
    (a : list string) (s : State) : Outcome (list string * State) :=
  let* (w, a) := next a in
  Return (a, on_self (assign (destringify_unsigned w)) s).

(** [X = destringify<double>(w); continue;], [w] the next word. *)
Definition assign_double (assign : float -> CommandLine -> CommandLine)
    (a : list string) (s : State) : Outcome (list string * State) :=
  let* (w, a) := next a in
  Return (a, on_self (assign (destringify_double w)) s).

(** *** [--scan] and [--nuisance]

    What one group of words specifies, up to and including the
    construction of the prior. *)
Record ScanSpec : Type := {
  spec_name : string;
  spec_range : ParameterRange;
  spec_prior_type : string;
  spec_prior : LogPrior
}.

Definition scan_spec (a : list string) : Outcome (ScanSpec * list string) :=
  let* (name, a) := next a in
  let min := (- Double.numeric_limits_max)%float in
  let max := Double.numeric_limits_max in
  (* first word has to be a number *)
  let* (w, a) := next a in
  let number := destringify_double w in
  let* (keyword, a) := next a in
  let* n_sigmas := call (VerifiedRange_double 0 10 0) in
  let* (min, max, n_sigmas, keyword, a) :=
    if keyword =? "--prior" then
      (* case a) *)
      let* n_sigmas := call (VerifiedRange_double 0 10 number) in
      if (n_sigmas =? 0)%float
      then ThrowDoUsage "number of sigmas: number expected"
      else Return (min, max, n_sigmas, keyword, a)
    else
      (* case b), c) *)
      let min := number in
      let max := destringify_double keyword in
      let* (keyword, a) := next a in
      (* watch for case c) *)
      if negb (keyword =? "--prior") then
        let* n_sigmas := call (VerifiedRange_double 0 10 (destringify_double keyword)) in
        if (n_sigmas =? 0)%float
        then ThrowDoUsage "number of sigmas: number expected"
        else
          let* (keyword, a) := next a in
          Return (min, max, n_sigmas, keyword, a)
      else Return (min, max, n_sigmas, keyword, a) in
  if negb (keyword =? "--prior")
  then ThrowDoUsage ("Missing correct prior specification for '" ++ name ++ "'!")
  else
  let* (prior_type, a) := next a in
  let range := {| range_min := min; range_max := max |} in
  if prior_type =? "gaussian" then
    let* (w, a) := next a in
    let lower := destringify_double w in
    let* (w, a) := next a in
    let central := destringify_double w in
    let* (w, a) := next a in
    let upper := destringify_double w in
    (* adjust range, but always stay within hard bound supplied by the user *)
    let range :=
      if (0 <? n_sigmas)%float then
        {| range_min := Double.max (range_min range)
                          (central - n_sigmas * (central - lower))%float;
           range_max := Double.min (range_max range)
                          (central + n_sigmas * (upper - central))%float |}
      else range in
    Return ({| spec_name := name; spec_range := range; spec_prior_type := prior_type;
               spec_prior := Gauss name range lower central upper |}, a)
  else if prior_type =? "flat" then
    if (0 <? n_sigmas)%float
    then ThrowDoUsage "Can't specify number of sigmas for flat prior"
    else Return ({| spec_name := name; spec_range := range; spec_prior_type := prior_type;
                    spec_prior := Flat name range |}, a)
  else ThrowDoUsage ("Unknown prior distribution: " ++ prior_type).

(** The message of the usage error that follows a refused [add]. *)
Definition assignment_error (prior_type name : string) : string :=
  "Error in assigning " ++ prior_type ++ " prior distribution to '" ++ name ++
  "'. Perhaps '" ++ name ++ "' appears twice in the list of parameters?".

Definition scan_or_nuisance (argument : string) (a : list string) (s : State)
    : Outcome (list string * State) :=
  let* (spec, a) := scan_spec a in
  let name := spec_name spec in
  let range := spec_range spec in
  let prior_type := spec_prior_type spec in
  let is_nuisance := if "--nuisance" =? argument then true else false in
  let* handle := call (Parameters_subscript name) in
  let data := {| parameter := handle; min := range_min range; max := range_max range;
                 prior := prior_type |} in
  let s :=
    if is_nuisance
    then on_self (fun c => set_nuisance_parameters (push_back (nuisance_parameters c) data) c) s
    else on_self (fun c => set_scan_parameters (push_back (scan_parameters c) data) c) s in
  (* check for error in setting the prior and adding the parameter *)
  let '(added, posterior) := LogPosterior_add (log_posterior (self s)) (spec_prior spec) is_nuisance in
  let s := on_self (set_log_posterior posterior) s in
  if negb added
  then ThrowDoUsage (assignment_error prior_type name)
  else Return (a, s).

(** *** [--observable] and [--observable-prior] *)
Definition observable_input (number_of_observations : option N)
    (a : list string) (s : State) : Outcome (list string * State) :=
  let* (observable_name, a) := next a in
  let* made := call (Observable_make observable_name (parameters (self s))
                         (local_kinematics s) (global_options (self s))) in
  match made with
  | None => ThrowDoUsage ("Unknown observable '" ++ observable_name ++ "'")
  | Some o =>
      let* (w, a) := next a in
      let input_min := destringify_double w in
      let* (w, a) := next a in
      let input_central := destringify_double w in
      let* (w, a) := next a in
      let input_max := destringify_double w in
      let input := {| observable := o; kinematics := local_kinematics s;
                      input_min := input_min; input_central := input_central;
                      input_max := input_max |} in
      let s := on_self (fun c =>
                 set_inputs (push_back (inputs c) input)
                   (set_likelihood
                      (push_back (likelihood c)
                        (AddObservable o input_min input_central input_max
                           number_of_observations)) c)) s in
      Return (a, set_local_kinematics [] s)
  end.

(** *** The optional point of [--goodness-of-fit] and [--optimize] *)
Definition optional_point (store : list float -> CommandLine -> CommandLine)
    (current : CommandLine -> list float)
    (a : list string) (s : State) : Outcome (list string * State) :=
  let* (lbrace, a') := next a in
  if negb ("{" =? lbrace) then Return (a, s) (* [--a; continue;] *)
  else
    let* (point, a') := read_point a' (current (self s)) in
    Return (a', on_self (store point) s).

(** *** One turn of the loop of [parse]

    [argument] is [*a]; [a] holds the words after it. *)
Definition parse_argument (argument : string) (a : list string) (s : State)
    : Outcome (list string * State) :=
  if ("--scan" =? argument) || ("--nuisance" =? argument) then
    scan_or_nuisance argument a s
  else if "--chains" =? argument then
    assign_unsigned (fun v => on_mcmc_config (MarkovChainSampler.set_number_of_chains v)) a s
  else if "--chunk-size" =? argument then
    assign_unsigned (fun v => on_mcmc_config (MarkovChainSampler.set_chunk_size v)) a s
  else if "--chunks" =? argument then
    assign_unsigned (fun v => on_mcmc_config (MarkovChainSampler.set_chunks v)) a s
  else if "--constraint" =? argument then
    let* (constraint_name, a) := next a in
    let* c := call (Constraint_make constraint_name (global_options (self s))) in
    Return (a, on_self (fun self =>
                 set_constraints (push_back (constraints self) c)
                   (set_likelihood (push_back (likelihood self) (AddConstraint c)) self)) s)
  else if "--debug" =? argument then
    Return (a, set_log {| log_level := ll_debug; program_name := program_name (log s);
                          messages := messages (log s) |} s)
  else if "--fix" =? argument then
    let* (par_name, a) := next a in
    let* (w, a) := next a in
    let value := destringify_double w in
    let* handle := call (Parameters_subscript par_name) in
    Return (a, on_self (fun c => set_parameters ((handle, value) :: parameters c) c) s)
  else if "--kinematics" =? argument then
    let* (name, a) := next a in
    let* (w, a) := next a in
    let value := destringify_double w in
    Return (a, set_local_kinematics ((name, value) :: local_kinematics s) s)
  else if "--global-option" =? argument then
    let* (name, a) := next a in
    let* (value, a) := next a in
    let s :=
      match constraints (self s) with
      | [] => s
      | _ :: _ =>
          set_log {| log_level := log_level (log s); program_name := program_name (log s);
                     messages := push_back (messages (log s))
                       {| warned_option := name; warned_value := value;
                          previously_defined_constraints := List.length (constraints (self s)) |} |} s
      end in
    Return (a, on_self (fun c => set_global_options ((name, value) :: global_options c) c) s)
  else if "--goodness-of-fit" =? argument then
    (* best-fit point is optional *)
    optional_point set_best_fit_point best_fit_point a (on_self (set_goodness_of_fit true) s)
  else if EOS_ENABLE_PMC && ("--hc-patch-length" =? argument) then
    assign_double (fun v => on_config_pmc (PopulationMonteCarloSampler.set_patch_length v)) a s
  else if EOS_ENABLE_PMC && ("--hc-skip-initial" =? argument) then
    assign_double (fun v => on_config_pmc (PopulationMonteCarloSampler.set_skip_initial v)) a s
  else if EOS_ENABLE_PMC && ("--hc-target-ncomponents" =? argument) then
    assign_unsigned (fun v => on_config_pmc (PopulationMonteCarloSampler.set_target_ncomponents v)) a s
  else if "--no-prerun" =? argument then
    Return (a, on_self (on_mcmc_config (MarkovChainSampler.set_need_prerun false)) s)
  else if "--observable" =? argument then
    observable_input None a s
  else if "--observable-prior" =? argument then
    observable_input (Some 0%N) a s
  else if "--optimize" =? argument then
    (* starting point is optional *)
    optional_point set_starting_point starting_point a (on_self (set_optimize true) s)
  else if "--output" =? argument then
    let* (filename, a) := next a in
    let s := on_self (on_mcmc_config (MarkovChainSampler.set_output_file filename)) s in
    let s := if EOS_ENABLE_PMC
             then on_self (on_config_pmc (PopulationMonteCarloSampler.set_output_file filename)) s
             else s in
    Return (a, s)
  else if "--parallel" =? argument then
    let s := on_self (on_mcmc_config (MarkovChainSampler.set_parallelize false)) s in
    let s := if EOS_ENABLE_PMC
             then on_self (fun c => on_config_pmc
                    (PopulationMonteCarloSampler.set_parallelize
                       (MarkovChainSampler.parallelize (mcmc_config c))) c) s
             else s in
    Return (a, s)
  else if "--use-pmc" =? argument then
    Return (a, on_self (set_use_pmc true) s)
  else if EOS_ENABLE_PMC && ("--pmc-adjust-sample-size" =? argument) then
    assign_unsigned (fun v => on_config_pmc (PopulationMonteCarloSampler.set_adjust_sample_size v)) a s
  else if EOS_ENABLE_PMC && ("--pmc-crop-highest-weights" =? argument) then
    assign_unsigned (fun v => on_config_pmc (PopulationMonteCarloSampler.set_crop_highest_weights v)) a s
  else if EOS_ENABLE_PMC && ("--pmc-dof" =? argument) then
    let* (w, a) := next a in
    Return (a, on_self (on_config_pmc
                 (PopulationMonteCarloSampler.set_degrees_of_freedom (destringify_long w))) s)
  else if EOS_ENABLE_PMC && ("--pmc-calculate-posterior" =? argument) then
    (* read samples from this file *)
    let* (file, a) := next a in
    let* (w, a) := next a in
    let lowest := destringify_unsigned w in
    let* (w, a) := next a in
    let highest := destringify_unsigned w in
    (* read components from this file *)
    Return (a, on_self (fun c =>
                 set_pmc_initialization_file file
                   (set_pmc_calculate_posterior_max highest
                     (set_pmc_calculate_posterior_min lowest
                       (set_pmc_sample_file file
                         (set_pmc_calculate_posterior true c))))) s)
  else if EOS_ENABLE_PMC && ("--pmc-draw-samples" =? argument) then
    Return (a, on_self (set_pmc_draw_samples true) s)
  else if EOS_ENABLE_PMC && ("--pmc-final" =? argument) then
    (* an [unsigned] assigned to a [bool] *)
    assign_unsigned (fun v => set_pmc_final (negb (N.eqb v 0))) a s
  else if EOS_ENABLE_PMC && ("--pmc-ignore-group" =? argument) then
    assign_unsigned (fun v => on_config_pmc (fun p =>
      PopulationMonteCarloSampler.set_ignore_groups
        (push_back (PopulationMonteCarloSampler.ignore_groups p) v) p)) a s
  else if EOS_ENABLE_PMC && ("--pmc-initialize-from-file" =? argument) then
    let* (file, a) := next a in
    Return (a, on_self (set_pmc_initialization_file file) s)
  else if EOS_ENABLE_PMC && ("--pmc-group-by-r-value" =? argument) then
    assign_double (fun v => on_config_pmc (PopulationMonteCarloSampler.set_group_by_r_value v)) a s
  else if EOS_ENABLE_PMC && ("--pmc-r-value-no-nuisance" =? argument) then
    assign_unsigned (fun v => on_config_pmc (PopulationMonteCarloSampler.set_r_value_no_nuisance v)) a s
  else if EOS_ENABLE_PMC && ("--pmc-final-samples" =? argument) then
    assign_unsigned (fun v => on_config_pmc (PopulationMonteCarloSampler.set_final_samples v)) a s
  else if EOS_ENABLE_PMC && ("--pmc-ignore-ess" =? argument) then
    assign_unsigned (fun v => on_config_pmc (PopulationMonteCarloSampler.set_ignore_eff_sample_size v)) a s
  else if EOS_ENABLE_PMC && ("--pmc-max-updates" =? argument) then
    assign_unsigned (fun v => on_config_pmc (PopulationMonteCarloSampler.set_max_updates v)) a s
  else if EOS_ENABLE_PMC && ("--pmc-relative-std-deviation-over-last-steps" =? argument) then
    let* (w, a) := next a in
    let deviation := destringify_double w in
    let* (w, a) := next a in
    let steps := destringify_unsigned w in
    Return (a, on_self (on_config_pmc (fun p =>
                 PopulationMonteCarloSampler.set_minimum_steps steps
                   (PopulationMonteCarloSampler.set_maximum_relative_std_deviation deviation p))) s)
  else if EOS_ENABLE_PMC && ("--pmc-samples-per-component" =? argument) then
    assign_unsigned (fun v => on_config_pmc (PopulationMonteCarloSampler.set_samples_per_component v)) a s
  else if EOS_ENABLE_PMC && ("--pmc-update" =? argument) then
    let* (file, a) := next a in
    Return (a, on_self (fun c => set_pmc_initialization_file file (set_pmc_update true c)) s)
  else if "--prerun-chains-per-partition" =? argument then
    assign_unsigned (fun v => on_mcmc_config (MarkovChainSampler.set_number_of_chains v)) a s
  else if "--prerun-max" =? argument then
    assign_unsigned (fun v => on_mcmc_config (MarkovChainSampler.set_prerun_iterations_max v)) a s
  else if "--prerun-min" =? argument then
    assign_unsigned (fun v => on_mcmc_config (MarkovChainSampler.set_prerun_iterations_min v)) a s
  else if "--prerun-only" =? argument then
    Return (a, on_self (on_mcmc_config (fun m =>
                 MarkovChainSampler.set_need_main_run false
                   (MarkovChainSampler.set_store_prerun true
                     (MarkovChainSampler.set_need_prerun true m)))) s)
  else if "--prerun-update" =? argument then
    assign_unsigned (fun v => on_mcmc_config (MarkovChainSampler.set_prerun_iterations_update v)) a s
  else if "--print-args" =? argument then
    (* print arguments and quit *)
    Aborted
  else if "--proposal" =? argument then
    let* (proposal, a) := next a in
    let s := on_self (on_mcmc_config (MarkovChainSampler.set_proposal proposal)) s in
    if proposal =? "MultivariateStudentT" then
      let* (w, a) := next a in
      let dof := destringify_double w in
      if (dof <=? 0)%float
      then ThrowDoUsage "No (or non-positive) degree of freedom for MultivariateStudentT specified"
      else Return (a, on_self (on_mcmc_config
                        (MarkovChainSampler.set_student_t_degrees_of_freedom dof)) s)
    else Return (a, s)
  else if "--seed" =? argument then
    let* (value, a) := next a in
    let seed := if "time" =? value then time_0 else destringify_unsigned_long value in
    let s := on_self (on_mcmc_config (MarkovChainSampler.set_seed seed)) s in
    let s := if EOS_ENABLE_PMC
             then on_self (on_config_pmc (PopulationMonteCarloSampler.set_seed seed)) s
             else s in
    Return (a, s)
  else if "--scale-reduction" =? argument then
    assign_double set_scale_reduction a s
  else if "--store-prerun" =? argument then
    Return (a, on_self (on_mcmc_config (MarkovChainSampler.set_store_prerun true)) s)
  else ThrowDoUsage ("Unknown command line argument: " ++ argument).

(** The loop [for (a = argv + 1; a != a_end; ++a)].  Every turn consumes
    at least one word, so [length a] turns are enough ([parse_loop_total]
    below). *)
Fixpoint parse_loop (fuel : nat) (a : list string) (s : State) : Outcome State :=
  match a with
  | [] => Return s
  | argument :: a' =>
      match fuel with
      | O => OutOfFuel
      | S fuel' =>
          let* (a'', s') := parse_argument argument a' s in
          parse_loop fuel' a'' s'
      end
  end.

(** The state in which the loop starts. *)
Definition parse_start (argv0 : string) (a : list string) (this : CommandLine) : State :=
  {| self := set_creator (fold_left (fun creator w => creator ++ " " ++ w) a argv0) this;
     local_kinematics := [];
     log := {| log_level := ll_informational; program_name := "eos-scan-mc";
               messages := [] |} |}.

(** [CommandLine::parse(argc, argv)]. *)
Definition parse (argv : list string) (this : CommandLine) : Outcome State :=
  match argv with
  | [] => ArgvExhausted
  | argv0 :: a => parse_loop (List.length a) a (parse_start argv0 a this)
  end.

(** *** [main] *)

(** What [main] goes on to do once the command line is accepted. *)
Inductive Run : Type :=
| Optimize (this : CommandLine)
| GoodnessOfFit (this : CommandLine)
| PopulationMonteCarlo (this : CommandLine)
| MarkovChainMonteCarlo (posterior : LogPosterior) (config : MarkovChainSampler.Config).

Inductive Exit : Type :=
| UsageError (what : string)        (* [catch (DoUsage & e)]: usage printed, [EXIT_FAILURE] *)
| CaughtException (what : string)   (* [catch (Exception & e)]: [EXIT_FAILURE] *)
| ProcessAborted                    (* [abort()] *)
| Undefined                         (* a read past the end of [argv] *)
| Diverged
| Runs (r : Run).

Definition stringify (n : nat) : string :=
  NilEmpty.string_of_uint (Nat.to_uint n).

Definition dispatch (this : CommandLine) : Exit :=
  match inputs this, constraints this with
  | [], [] => UsageError "Neither inputs nor constraints specified"
  | _, _ =>
  match nuisance_parameters this, scan_parameters this with
  | [], [] => UsageError "Neither scan nor nuisance parameters defined"
  | _, _ =>
  if optimize this then
    let descriptions := parameter_descriptions (log_posterior this) in
    match starting_point this with
    | [] => Runs (Optimize this) (* the starting point is sampled from the priors *)
    | _ :: _ =>
        if negb (Nat.eqb (List.length (starting_point this)) (List.length descriptions))
        then UsageError ("Starting point size of" ++ stringify (List.length (starting_point this))
                         ++ " doesn't match with analysis size of "
                         ++ stringify (List.length descriptions))
        else Runs (Optimize this)
    end
  else if goodness_of_fit this then Runs (GoodnessOfFit this)
  else if EOS_ENABLE_PMC && use_pmc this then Runs (PopulationMonteCarlo this)
  else Runs (MarkovChainMonteCarlo (log_posterior this) (mcmc_config this))
  end
  end.

Definition main (argv : list string) : Exit :=
  match parse argv CommandLine_new with
  | Return s => dispatch (self s)
  | ThrowDoUsage what => UsageError what
  | ThrowException what => CaughtException what
  | Aborted => ProcessAborted
  | ArgvExhausted => Undefined
  | OutOfFuel => Diverged
  end.

(** Whether an exit of [main] has started a sampler. *)
Definition starts_sampling (e : Exit) : bool :=
  match e with
  | Runs (PopulationMonteCarlo _) | Runs (MarkovChainMonteCarlo _ _) => true
  | _ => false
  end.

(** *** Runs of the loop

    [reaches (a, s) (b, t)]: started with the words [a] in state [s], the
    loop of [parse] gets, turn by turn and without leaving, to the words
    [b] in state [t]. *)
Inductive reaches : list string * State -> list string * State -> Prop :=
| reaches_here (x : list string * State) : reaches x x
| reaches_turn (argument : string) (a : list string) (s : State)
    (a' : list string) (s' : State) (y : list string * State) :
    parse_argument argument a s = Return (a', s') ->
    reaches (a', s') y ->
    reaches (argument :: a, s) y.

(** The words [--scan] and [--nuisance]. *)
Definition is_scan_flag (argument : string) : bool :=
  ("--scan" =? argument) || ("--nuisance" =? argument).

(** What the front end relies on when it calls [LogPosterior::add]
    (a parameter of the model): the call is refused, returning [false],
    for a parameter that already has a prior, and a call that returns
    [true] declares the parameter of the prior and keeps the parameters
    declared before. *)
Record LogPosterior_add_contract : Prop := {
  add_refuses_declared :
    forall lp p is_nuisance,
      In (LogPrior_name p) (declared_names lp) ->
      fst (LogPosterior_add lp p is_nuisance) = false;
  add_declares :
    forall lp p is_nuisance lp' n,
      LogPosterior_add lp p is_nuisance = (true, lp') ->
      n = LogPrior_name p \/ In n (declared_names lp) ->
      In n (declared_names lp')
}.

(** The command line [argv0 :: a] assigns a prior to the parameter [name]
    twice: the loop gets to a [--scan] or [--nuisance] group for [name]
    and accepts it, and later gets to a second well-formed group for
    [name], whose prior is of type [prior_type]. *)
Definition assigns_prior_twice (argv0 : string) (a : list string) (this : CommandLine)
    (name prior_type : string) : Prop :=
  exists flag1 g1 s1 spec1 g1' s1' flag2 g2 s2 spec2 g2',
    reaches (a, parse_start argv0 a this) (flag1 :: g1, s1) /\
    is_scan_flag flag1 = true /\
    scan_spec g1 = Return (spec1, g1') /\
    parse_argument flag1 g1 s1 = Return (g1', s1') /\
    reaches (g1', s1') (flag2 :: g2, s2) /\
    is_scan_flag flag2 = true /\
    scan_spec g2 = Return (spec2, g2') /\
    spec_name spec1 = name /\
    spec_name spec2 = name /\
    spec_prior_type spec2 = prior_type.

(** The command line [argv0 :: a] specifies a non-positive number of
    degrees of freedom for the MultivariateStudentT proposal: the loop gets
    to [--proposal MultivariateStudentT w] where [w] reads as a number that
    is at most zero. *)
Definition specifies_nonpositive_dof (argv0 : string) (a : list string)
    (this : CommandLine) : Prop :=
  exists w rest s,
    reaches (a, parse_start argv0 a this)
            ("--proposal" :: "MultivariateStudentT" :: w :: rest, s) /\
    (destringify_double w <=? 0)%float = true.

End CommandLine.

End ScanMC.

(** ** The Markov chain of the sampling engine (specification, section 4.1) *)

Module MarkovChain.

Local Open Scope R_scope.

(** Modelled from the spec: a [Point] of section 3, a sequence of numbers,
    one per varied parameter. *)
Definition Point : Type := list R.

(** Modelled from the spec: a log-posterior value, a real number or the
    minus infinity of sections 4.1 and 7. *)
Inductive LogValue : Type :=
| NegInfinity
| Finite (x : R).

(** Modelled from the spec: what evaluating the posterior at a point
    yields, a value or a domain error (sections 4.1 and 6: the posterior
    is undefined there). *)
Inductive Evaluation : Type :=
| DomainError
| Value (x : R).

(** Modelled from the spec: the chain state of section 3 (current point,
    current log-posterior value, acceptance, rejection and iteration
    counters) with the history buffer of section 2; the chain itself
    (eos/statistics/markov-chain.cc) is missing. *)
Record ChainState : Type := {
  current : Point;
  current_log_posterior : LogValue;
  accepted : nat;
  rejected : nat;
  iterations : nat;
  history : list Point
}.

(** Modelled from the spec: a proposal density, by the logarithm of the
    density with which it proposes [y] from [x] (section 4.1: symmetric or
    asymmetric). *)
Record ProposalDensity : Type := {
  log_density : Point -> Point -> R
}.

Definition symmetric (q : ProposalDensity) : Prop :=
  forall x y, log_density q x y = log_density q y x.

(** Modelled from the spec: the Hastings correction that section 4.1 adds
    to the log-posterior difference for an asymmetric proposal: the
    logarithm of the ratio of the reverse to the forward proposal density. *)
Definition hastings_correction (q : ProposalDensity) (current candidate : Point) : R :=
  log_density q candidate current - log_density q current candidate.

(** Modelled from the spec: the acceptance probability of section 4.1,
    [min(1, exp(log_posterior_candidate - log_posterior_current +
    hastings_correction))], with [exp] of minus infinity being 0 and of
    plus infinity exceeding 1. *)
Definition acceptance_probability
    (log_posterior_candidate log_posterior_current : LogValue)
    (hastings_correction : R) : R :=
  match log_posterior_candidate, log_posterior_current with
  | NegInfinity, _ => Rmin 1 0
  | Finite c, Finite p => Rmin 1 (exp (c - p + hastings_correction))
  | Finite _, NegInfinity => 1
  end.

(** Modelled from the spec: [accept_or_reject] of section 4.1.  [u] is the
    uniform draw from [0, 1) that decides: the candidate is accepted when
    [u] lies below the acceptance probability.  On accept the state
    advances to the candidate; on reject the current point is recorded
    again; either way the counters advance. *)
Definition accept_or_reject (hastings_correction u : R) (candidate : Point)
    (log_posterior_candidate : LogValue) (chain : ChainState) : ChainState :=
  if Rlt_dec u (acceptance_probability log_posterior_candidate
                  (current_log_posterior chain) hastings_correction)
  then {| current := candidate;
          current_log_posterior := log_posterior_candidate;
          accepted := S (accepted chain);
          rejected := rejected chain;
          iterations := S (iterations chain);
          history := history chain ++ [candidate] |}
  else {| current := current chain;
          current_log_posterior := current_log_posterior chain;
          accepted := accepted chain;
          rejected := S (rejected chain);
          iterations := S (iterations chain);
          history := history chain ++ [current chain] |}.

(** Modelled from the spec: sections 4.1 and 7, a domain error at a point
    is taken as a log-posterior of minus infinity. *)
Definition log_posterior_at (log_posterior : Point -> Evaluation) (x : Point) : LogValue :=
  match log_posterior x with
  | DomainError => NegInfinity
  | Value v => Finite v
  end.

(** Modelled from the spec: what the random source supplies for one
    iteration, the candidate that [propose] drew and the uniform number
    that decides on it. *)
Record Draw : Type := {
  proposed : Point;
  uniform : R
}.

(** Modelled from the spec: one iteration of the chain, evaluation of the
    candidate followed by [accept_or_reject]. *)
Definition iterate (log_posterior : Point -> Evaluation) (q : ProposalDensity)
    (d : Draw) (chain : ChainState) : ChainState :=
  accept_or_reject (hastings_correction q (current chain) (proposed d)) (uniform d)
    (proposed d) (log_posterior_at log_posterior (proposed d)) chain.

(** Modelled from the spec: a run of the chain over the draws of the
    random source, one iteration after the other. *)
Definition run (log_posterior : Point -> Evaluation) (q : ProposalDensity)
    (draws : list Draw) (chain : ChainState) : ChainState :=
  fold_left (fun c d => iterate log_posterior q d c) draws chain.

(** Modelled from the spec: the state a rejection leaves behind (section
    4.1: the current point is recorded again, the rejection and iteration
    counters advance). *)
Definition rejection (chain : ChainState) : ChainState :=
  {| current := current chain;
     current_log_posterior := current_log_posterior chain;
     accepted := accepted chain;
     rejected := S (rejected chain);
     iterations := S (iterations chain);
     history := history chain ++ [current chain] |}.

End MarkovChain.

(** ** The convergence diagnostic of the chain group (specification, section 4.2) *)

Module RValue.

Local Open Scope R_scope.

Definition sum (xs : list R) : R := fold_right Rplus 0 xs.

(** [numpy.mean], as [cmd_find_clusters] takes it of each chain. *)
Definition mean (xs : list R) : R := sum xs / INR (List.length xs).

(** [numpy.var], as [cmd_find_clusters] takes it of each chain: the mean
    squared deviation from the mean. *)
Definition variance (xs : list R) : R :=
  mean (map (fun x => (x - mean xs) ^ 2) xs).

(** Modelled from the spec: [B] of section 4.2, the variance between the
    means of [K >= 2] chains, with [K - 1] in the denominator. *)
Definition variance_between (means : list R) : R :=
  sum (map (fun m => (m - mean means) ^ 2) means) / (INR (List.length means) - 1).

(** Modelled from the spec: the statistic of section 4.2,
    [R = sqrt(((n-1)/n) + (B/W)/n)], [n] the block length, [B] the
    between-chain variance of the chain means, [W] the mean within-chain
    variance; the C++ [compute_r_value] is missing. *)
Definition gelman_rubin (n B W : R) : R :=
  sqrt ((n - 1) / n + (B / W) / n).

(** Modelled from the spec: [compute_r_value] for one parameter, from the
    values each chain recorded for it during the block. *)
Definition compute_r_value (chains : list (list R)) : R :=
  let n := INR (List.length (hd [] chains)) in
  let B := variance_between (map mean chains) in
  let W := mean (map variance chains) in
  gelman_rubin n B W.

End RValue.

(** ** A concrete library, for running the front end

    An implementation of what [Eos] leaves open, simple enough to compute
    with: numbers are read as plain decimals, every parameter, observable
    and constraint is known, and [VerifiedRange] checks its bounds. *)

Module Concrete.

Import ScanMC.

Local Open Scope string_scope.

Definition digit (c : ascii) : option Z :=
  let n := (Z.of_nat (nat_of_ascii c) - 48)%Z in
  if ((0 <=? n) && (n <=? 9))%Z then Some n else None.

(** The digits at the head of [s]: their value on top of [acc], how many
    there are, and what follows them. *)
Fixpoint digits (s : string) (acc : Z) (count : nat) : Z * nat * string :=
  match s with
  | String c s' =>
      match digit c with
      | Some d => digits s' (10 * acc + d)%Z (S count)
      | None => (acc, count, s)
      end
  | EmptyString => (acc, count, s)
  end.

Definition of_Z (z : Z) : float := PrimFloat.of_uint63 (Uint63.of_Z z).

(** An optional sign, digits, and optionally a point and more digits; a
    word that does not start like a number reads as zero. *)
Definition destringify_double (s : string) : float :=
  let '(negative, s) :=
    match s with
    | String "-" s' => (true, s')
    | _ => (false, s)
    end in
  let '(whole, _, s) := digits s 0%Z 0 in
  let '(mantissa, places) :=
    match s with
    | String "." s' => let '(m, k, _) := digits s' whole 0 in (m, k)
    | _ => (whole, O)
    end in
  let magnitude := (of_Z mantissa / of_Z (10 ^ Z.of_nat places))%float in
  if negative then (- magnitude)%float else magnitude.

Definition destringify_unsigned (s : string) : N :=
  let '(n, _, _) := digits s 0%Z 0 in Z.to_N n.

Definition destringify_long (s : string) : Z :=
  match s with
  | String "-" s' => let '(n, _, _) := digits s' 0%Z 0 in (- n)%Z
  | _ => let '(n, _, _) := digits s 0%Z 0 in n
  end.

Definition VerifiedRange_double (min max value : float) : Throwing float :=
  if (value <? min)%float then Throws "VerifiedRangeUnderflow"
  else if (max <? value)%float then Throws "VerifiedRangeOverflow"
  else Returns value.

(** Modelled from the spec: [LogPosterior::add], which section 7 has
    refuse a second prior for a parameter (a configuration error) and
    which otherwise appends the description of the parameter and its
    prior; the C++ function is missing. *)
Definition LogPosterior_add (lp : LogPosterior) (p : LogPrior) (is_nuisance : bool)
    : bool * LogPosterior :=
  if existsb (String.eqb (LogPrior_name p)) (declared_names lp)
  then (false, lp)
  else (true,
        {| parameter_descriptions :=
             push_back (parameter_descriptions lp)
               {| description_parameter := LogPrior_name p; nuisance := is_nuisance |};
           log_priors := push_back (log_priors lp) p |}).

(** Stand-ins for [Config::Quick()] and [Config::Default()]. *)
Definition Quick : MarkovChainSampler.Config :=
  {| MarkovChainSampler.number_of_chains := 1;
     MarkovChainSampler.need_prerun := true;
     MarkovChainSampler.chunk_size := 100;
     MarkovChainSampler.parallelize := true;
     MarkovChainSampler.use_strict_rvalue_definition := false;
     MarkovChainSampler.chunks := 10;
     MarkovChainSampler.output_file := "";
     MarkovChainSampler.prerun_iterations_max := 1000;
     MarkovChainSampler.prerun_iterations_min := 100;
     MarkovChainSampler.prerun_iterations_update := 100;
     MarkovChainSampler.store_prerun := false;
     MarkovChainSampler.need_main_run := true;
     MarkovChainSampler.proposal := "MultivariateGaussian";
     MarkovChainSampler.student_t_degrees_of_freedom := 1%float;
     MarkovChainSampler.seed := 0 |}.

Definition Default : PopulationMonteCarloSampler.Config :=
  {| PopulationMonteCarloSampler.patch_length := 1000%float;
     PopulationMonteCarloSampler.skip_initial := 0.1%float;
     PopulationMonteCarloSampler.target_ncomponents := 0;
     PopulationMonteCarloSampler.output_file := "";
     PopulationMonteCarloSampler.parallelize := true;
     PopulationMonteCarloSampler.adjust_sample_size := 0;
     PopulationMonteCarloSampler.crop_highest_weights := 0;
     PopulationMonteCarloSampler.degrees_of_freedom := (-1)%Z;
     PopulationMonteCarloSampler.ignore_groups := [];
     PopulationMonteCarloSampler.group_by_r_value := 1.5%float;
     PopulationMonteCarloSampler.r_value_no_nuisance := 1;
     PopulationMonteCarloSampler.final_samples := 20000;
     PopulationMonteCarloSampler.ignore_eff_sample_size := 0;
     PopulationMonteCarloSampler.max_updates := 10;
     PopulationMonteCarloSampler.maximum_relative_std_deviation := 0.01%float;
     PopulationMonteCarloSampler.minimum_steps := 2;
     PopulationMonteCarloSampler.samples_per_component := 2000;
     PopulationMonteCarloSampler.seed := 0 |}.

Definition eos : Eos :=
  {| EOS_ENABLE_PMC := true;
     ScanMC.destringify_double := destringify_double;
     ScanMC.destringify_unsigned := destringify_unsigned;
     ScanMC.destringify_unsigned_long := destringify_unsigned;
     ScanMC.destringify_long := destringify_long;
     ScanMC.VerifiedRange_double := VerifiedRange_double;
     Parameters_subscript := fun name => Returns name;
     Observable_make := fun name _ _ _ => Returns (Some name);
     Constraint_make := fun name _ => Returns name;
     ScanMC.LogPosterior_add := LogPosterior_add;
     MarkovChainSampler_Config_Quick := Quick;
     PopulationMonteCarloSampler_Config_Default := Default;
     time_0 := 1604361600 |}.

(** The nuisance parameter of the usage example, with a hard range and a
    number of standard deviations. *)
Definition gaussian_group : list string :=
  ["mass::b(MSbar)"; "3.8"; "5.0"; "2"; "--prior"; "gaussian"; "4.14"; "4.27"; "4.37"].

(** The same with hard bounds that two standard deviations reach
    beyond. *)
Definition narrow_gaussian_group : list string :=
  ["mass::b(MSbar)"; "4.1"; "4.4"; "2"; "--prior"; "gaussian"; "4.14"; "4.27"; "4.37"].

(** A command line that names [Abs{c9}] twice. *)
Definition duplicate_scan : list string :=
  ["--scan"; "Abs{c9}"; "0.0"; "15.0"; "--prior"; "flat";
   "--nuisance"; "Abs{c9}"; "0.0"; "15.0"; "--prior"; "flat"].

(** A command line that asks for a Student-t proposal with zero degrees
    of freedom. *)
Definition student_t_zero : list string :=
  ["--proposal"; "MultivariateStudentT"; "0"].

End Concrete.

(** ** The words of the command line, by what [parse] does with them *)

Module Words.

Local Open Scope string_scope.

(** The flags that [parse] compares [argument] with in every build. *)
Definition common_flags : list string :=
  ["--scan"; "--nuisance"; "--chains"; "--chunk-size"; "--chunks"; "--constraint";
   "--debug"; "--fix"; "--kinematics"; "--global-option"; "--goodness-of-fit";
   "--no-prerun"; "--observable"; "--observable-prior"; "--optimize"; "--output";
   "--parallel"; "--use-pmc"; "--prerun-chains-per-partition"; "--prerun-max";
   "--prerun-min"; "--prerun-only"; "--prerun-update"; "--print-args"; "--proposal";
   "--seed"; "--scale-reduction"; "--store-prerun"].

(** The flags compared with only under [#if EOS_ENABLE_PMC]. *)
Definition pmc_flags : list string :=
  ["--hc-patch-length"; "--hc-skip-initial"; "--hc-target-ncomponents";
   "--pmc-adjust-sample-size"; "--pmc-crop-highest-weights"; "--pmc-dof";
   "--pmc-calculate-posterior"; "--pmc-draw-samples"; "--pmc-final";
   "--pmc-ignore-group"; "--pmc-initialize-from-file"; "--pmc-group-by-r-value";
   "--pmc-r-value-no-nuisance"; "--pmc-final-samples"; "--pmc-ignore-ess";
   "--pmc-max-updates"; "--pmc-relative-std-deviation-over-last-steps";
   "--pmc-samples-per-component"; "--pmc-update"].

(** The flags of every build whose branch starts by reading the next
    word. *)
Definition common_flags_with_value : list string :=
  ["--scan"; "--nuisance"; "--chains"; "--chunk-size"; "--chunks"; "--constraint";
   "--fix"; "--kinematics"; "--global-option"; "--goodness-of-fit"; "--observable";
   "--observable-prior"; "--optimize"; "--output"; "--prerun-chains-per-partition";
   "--prerun-max"; "--prerun-min"; "--prerun-update"; "--proposal"; "--seed";
   "--scale-reduction"].

(** The same among the flags of a build with PMC. *)
Definition pmc_flags_with_value : list string :=
  ["--hc-patch-length"; "--hc-skip-initial"; "--hc-target-ncomponents";
   "--pmc-adjust-sample-size"; "--pmc-crop-highest-weights"; "--pmc-dof";
   "--pmc-calculate-posterior"; "--pmc-final"; "--pmc-ignore-group";
   "--pmc-initialize-from-file"; "--pmc-group-by-r-value"; "--pmc-r-value-no-nuisance";
   "--pmc-final-samples"; "--pmc-ignore-ess"; "--pmc-max-updates";
   "--pmc-relative-std-deviation-over-last-steps"; "--pmc-samples-per-component";
   "--pmc-update"].

(** The double quote and the backslash, two characters of the usage
    text. *)
Definition double_quote : string := String (ascii_of_nat 34) EmptyString.

Definition backslash : string := String (ascii_of_nat 92) EmptyString.

(** What the [DoUsage] handler of [main] prints after the message of the
    exception, line by line. *)
Definition usage : list string :=
  ["Usage: eos-scan-mc";
   "  [ [--kinematics NAME VALUE]* --observable NAME LOWER CENTRAL UPPER]+";
   "  [--constraint NAME]+";
   "  [ [ [--scan PARAMETER MIN MAX] | [--nuisance PARAMETER MIN MAX] ] --prior [flat | [gaussian LOWER CENTRAL UPPER] ] ]+";
   "  [--chains VALUE]";
   "  [--chunks VALUE]";
   "  [--chunksize VALUE]";
   "  [--debug]";
   "  [--fix PARAMETER VALUE]+";
   "  [--goodness_of_fit [{ PAR_VALUE1 PAR_VALUE2 ... PAR_VALUEN }]]";
   "  [--no-prerun]";
   "  [--optimize [{ PAR_VALUE1 PAR_VALUE2 ... PAR_VALUEN }]]";
   "  [--output FILENAME]";
   "  [--scale VALUE]";
   "  [--seed LONG_VALUE]";
   "  [--store-prerun]";
   EmptyString;
   "Example:";
   "  eos-scan-mc --kinematics s_min 14.18 --kinematics s_max 16.00 " ++ backslash;
   "      --observable " ++ double_quote ++ "B->K^*ll::BR@LowRecoil" ++ double_quote
     ++ " 0.5e-7 1.25e-7 2.0e-7 " ++ backslash;
   "      --constraint " ++ double_quote ++ "B^0->K^*0gamma::BR@BaBar-2009" ++ double_quote
     ++ " " ++ backslash;
   "      --scan     " ++ double_quote ++ "Abs{c9}" ++ double_quote
     ++ "        0.0 15.0     --prior flat" ++ backslash;
   "      --scan     " ++ double_quote ++ "Arg{c9}" ++ double_quote
     ++ "        0.0  6.28319 --prior flat" ++ backslash;
   "      --nuisance " ++ double_quote ++ "mass::b(MSbar)" ++ double_quote
     ++ " 3.8  5.0     --prior gaussian 4.14 4.27 4.37"].

(** The characters that the flags of [parse] are made of: small letters,
    the dash and the underscore. *)
Definition is_flag_character (c : ascii) : bool :=
  let n := nat_of_ascii c in
  (Nat.leb 97 n && Nat.leb n 122) || Nat.eqb n 45 || Nat.eqb n 95.

(** The runs of such characters in a line, [run] being the one under
    way. *)
Fixpoint flag_runs (line run : string) : list string :=
  match line with
  | EmptyString => [run]
  | String c line' =>
      if is_flag_character c
      then flag_runs line' (run ++ String c EmptyString)
      else run :: flag_runs line' EmptyString
  end.

Definition starts_with_two_dashes (word : string) : bool :=
  match word with
  | String "-" (String "-" _) => true
  | _ => false
  end.

(** The words of a line that look like flags. *)
Definition dashed_words (line : string) : list string :=
  filter starts_with_two_dashes (flag_runs line EmptyString).

(** The words of the usage text that look like flags, in the order and
    as often as they are printed. *)
Definition usage_flags : list string := flat_map dashed_words usage.

(** The words that set the kinematic variables [variables], each a name
    with the word for its value: [--kinematics NAME VALUE] for each, in
    order. *)
Fixpoint kinematics_flags (variables : list (string * string)) : list string :=
  match variables with
  | [] => []
  | (name, value) :: variables' => "--kinematics" :: name :: value :: kinematics_flags variables'
  end.

(** [rest] is what is left of [words] once some words at its front are
    consumed. *)
Definition is_suffix (rest words : list string) : Prop :=
  exists consumed, words = (consumed ++ rest)%list.

End Words.

(** ** What the likelihood has received *)

Module Entries.

Import ScanMC.

(** The constraints among the entries, in order. *)
Definition constraints_of (l : LogLikelihood) : list Constraint :=
  flat_map (fun e => match e with
                     | AddConstraint c => [c]
                     | AddObservable _ _ _ _ _ => []
                     end) l.

(** The observables among the entries with their three values, in
    order. *)
Definition observables_of (l : LogLikelihood)
    : list (ObservablePtr * float * float * float) :=
  flat_map (fun e => match e with
                     | AddConstraint _ => []
                     | AddObservable o min central max _ => [(o, min, central, max)]
                     end) l.

(** What [main] prints of a manual input. *)
Definition measurement (i : ObservableInput) : ObservablePtr * float * float * float :=
  (observable i, input_min i, input_central i, input_max i).

(** The vectors [constraints] and [inputs] list what the likelihood has
    received. *)
Definition records_likelihood (this : CommandLine) : Prop :=
  constraints_of (likelihood this) = constraints this /\
  observables_of (likelihood this) = map measurement (inputs this).

End Entries.

(** ** What the turns of the loop leave alone *)

Module Frames.

Import ScanMC.
Import Words.
Import Entries.

Local Open Scope string_scope.

(** What a turn of the loop can change: the frame of every flag. *)
Record turn_frame (argument : string) (a : list string) (s : State)
    (a' : list string) (s' : State) : Prop := {
  frame_words : is_suffix a' a;
  frame_creator : creator (self s') = creator (self s);
  frame_inputs :
    inputs (self s') = inputs (self s) \/
    argument = "--observable" \/ argument = "--observable-prior";
  frame_constraints :
    constraints (self s') = constraints (self s) \/ argument = "--constraint";
  frame_scan :
    scan_parameters (self s') = scan_parameters (self s) \/ argument = "--scan";
  frame_nuisance :
    nuisance_parameters (self s') = nuisance_parameters (self s) \/
    argument = "--nuisance";
  frame_kinematics :
    local_kinematics s' = local_kinematics s \/
    argument = "--kinematics" \/ argument = "--observable" \/
    argument = "--observable-prior";
  frame_use_pmc : use_pmc (self s') = use_pmc (self s) \/ argument = "--use-pmc";
  frame_optimize : optimize (self s) = true -> optimize (self s') = true;
  frame_goodness_of_fit :
    goodness_of_fit (self s) = true -> goodness_of_fit (self s') = true;
  frame_likelihood : records_likelihood (self s) -> records_likelihood (self s')
}.

(** The same for a run of turns. *)
Record run_frame (a : list string) (s : State) (b : list string) (t : State) : Prop := {
  run_words : is_suffix b a;
  run_creator : creator (self t) = creator (self s);
  run_inputs :
    inputs (self t) = inputs (self s) \/
    In "--observable" a \/ In "--observable-prior" a;
  run_constraints :
    constraints (self t) = constraints (self s) \/ In "--constraint" a;
  run_scan :
    scan_parameters (self t) = scan_parameters (self s) \/ In "--scan" a;
  run_nuisance :
    nuisance_parameters (self t) = nuisance_parameters (self s) \/ In "--nuisance" a;
  run_use_pmc : use_pmc (self t) = use_pmc (self s) \/ In "--use-pmc" a;
  run_optimize : optimize (self s) = true -> optimize (self t) = true;
  run_goodness_of_fit :
    goodness_of_fit (self s) = true -> goodness_of_fit (self t) = true;
  run_likelihood : records_likelihood (self s) -> records_likelihood (self t)
}.

End Frames.

(** ** Command lines to run the front end on *)

Module CommandLines.

Import ScanMC.

Local Open Scope string_scope.

(** The state in which the loop starts on the words [a], in the build
    [Concrete.eos]. *)
Definition start (a : list string) : State :=
  parse_start "eos-scan-mc" a (@CommandLine_new Concrete.eos).

(** A scan of one parameter against one constraint. *)
Definition scan_with_constraint : list string :=
  ["--scan"; "Abs{c9}"; "0.0"; "15.0"; "--prior"; "flat";
   "--constraint"; "B^0->K^*0gamma::BR@BaBar-2009"].

(** The same with the Population Monte Carlo sampler asked for. *)
Definition scan_with_pmc : list string :=
  ["--use-pmc"; "--scan"; "Abs{c9}"; "0.0"; "15.0"; "--prior"; "flat";
   "--constraint"; "B^0->K^*0gamma::BR@BaBar-2009"].

(** An observable at a kinematic point, after a constraint. *)
Definition observable_at_a_point : list string :=
  ["--constraint"; "B^0->K^*0gamma::BR@BaBar-2009";
   "--kinematics"; "s_min"; "1.0"; "--kinematics"; "s_max"; "6.0";
   "--observable"; "B->K^*ll::BR@LargeRecoil"; "1.0"; "1.5"; "2.0";
   "--nuisance"; "Abs{c9}"; "0.0"; "15.0"; "--prior"; "flat"].

End CommandLines.

(** ** The parameter names of the B-meson amplitudes *)

Module LCDAParameters.

Local Open Scope string_scope.

(** Modelled from the spec: a [QualifiedName] built from a [qnp::Prefix]
    and a [qnp::Name] (eos/utils/qualified-name.hh is missing), as the pair
    of the two. *)
Record QualifiedName : Type := {
  prefix : string;
  name : string
}.

(** [Implementation<BMesonLCDAs>::parameter]: the switch over
    [opt_q.value()[0]], the first character of the option's value (the
    terminating null character when the value is empty).  [InternalError]
    is an [eos::Exception]. *)
Definition BMesonLCDAs_parameter (opt_q _name : string) : ScanMC.Throwing QualifiedName :=
  match opt_q with
  | String "s" _ => ScanMC.Returns {| prefix := "B_s"; name := _name |}
  | String "c" _ => ScanMC.Returns {| prefix := "B_c"; name := _name |}
  | String "u" _ => ScanMC.Returns {| prefix := "B"; name := _name |}
  | String "d" _ => ScanMC.Returns {| prefix := "B"; name := _name |}
  | _ => ScanMC.Throws ("Unsupported spectator quark flavour in BMesonLCDAs: q=" ++ opt_q)
  end.

(** [Implementation<BcMesonLCDAs>::parameter]. *)
Definition BcMesonLCDAs_parameter (_name : string) : QualifiedName :=
  {| prefix := "B_c"; name := _name |}.

(** The values the [SwitchOption] [opt_q] is declared with. *)
Definition opt_q_values : list string := ["u"; "d"; "s"; "c"].

End LCDAParameters.

(** ** The analysis script (Python) *)

Module EosAnalysis.

Local Open Scope string_scope.

(** The levels of the [logging] module that [main] maps to. *)
Inductive Level : Type := ERROR | WARNING | INFO | DEBUG.

(** The dictionary [levels] of [main]. *)
Definition levels : list (nat * Level) :=
  [(0, ERROR); (1, WARNING); (2, INFO); (3, DEBUG)].

(** [d[k]] on a dictionary: [None] is a [KeyError]. *)
Fixpoint subscript {V : Type} (d : list (nat * V)) (k : nat) : option V :=
  match d with
  | [] => None
  | (k', v) :: d' => if Nat.eqb k' k then Some v else subscript d' k
  end.

(** [if args.verbose > 3: args.verbose = 3] followed by
    [levels[args.verbose]].  [verbose] is the value of [args.verbose] as
    [parser.parse_args()] returned it, a count that is never negative
    (the option has [action = 'count'] and [default = 0]); how the [-v]
    flags of a command line add up to it is the business of [argparse],
    which is not modelled. *)
Definition log_level (verbose : nat) : option Level :=
  let verbose := if Nat.ltb 3 verbose then 3 else verbose in
  subscript levels verbose.

(** The digits of a natural number. *)
Definition digits (n : nat) : string :=
  NilEmpty.string_of_uint (Nat.to_uint n).

(** [count] zeros in front of [s]. *)
Fixpoint zeros (count : nat) (s : string) : string :=
  match count with
  | O => s
  | S count' => String "0" (zeros count' s)
  end.

(** [width] characters at least, zeros in front. *)
Definition zero_padded (width : nat) (s : string) : string :=
  zeros (width - String.length s) s.

(** ['{:04}'.format(n)] for an integer: four characters at least, the
    sign first and zeros after it. *)
Definition format_04 (n : Z) : string :=
  if (n <? 0)%Z
  then "-" ++ zero_padded 3 (digits (Z.abs_nat n))
  else zero_padded 4 (digits (Z.abs_nat n)).

(** [cmd_sample_mcmc]: the seed of the random number generator and the
    last component of the output path, for the chain index [int(args.chain)]. *)
Definition mcmc_seed (chain : Z) : Z := (chain + 1701)%Z.

Definition mcmc_directory (chain : Z) : string := "mcmc-" ++ format_04 chain.

(** [cmd_sample_pmc]: the seed. *)
Definition pmc_seed : Z := 1701%Z.

End EosAnalysis.

(* ================================================================== *)
(** * Part II: theorems *)
(* ================================================================== *)

(** ** The light-cone distribution amplitudes *)

Section LCDAs.

Context {M : Libm}.

Local Open Scope float_scope.

(** The guard [debug_level_B <= 1.0] holds: the constant is 1.0. *)
Lemma debug_level_B_guard : (BMesonLCDAs.debug_level_B <=? 1.0) = true.
Proof. reflexivity. Qed.

(** Claim C3.  Whatever the parameters and the arguments, every evaluation
    method of [BMesonLCDAs] other than [phi_plus] and [inverse_lambda_plus]
    returns exactly (positive) zero: [debug_level_B] is the constant 1.0,
    the guard [debug_level_B <= 1.0] that opens each body holds, and the
    formula after it is never evaluated; the result depends neither on the
    implementation's members nor on the mathematical library. *)
Theorem BMesonLCDAs_guarded_methods_return_zero
    (imp : BMesonLCDAs.Implementation) (omega omega_1 omega_2 xi : float) :
  BMesonLCDAs.debug_level_B = 1.0 /\
  BMesonLCDAs.phi_minus imp omega = 0 /\
  BMesonLCDAs.phi_bar imp omega = 0 /\
  BMesonLCDAs.phi_bar_d1 imp omega = 0 /\
  BMesonLCDAs.g_plus imp omega = 0 /\
  BMesonLCDAs.g_plus_d1 imp omega = 0 /\
  BMesonLCDAs.g_plus_d2 imp omega = 0 /\
  BMesonLCDAs.g_minusWW imp omega = 0 /\
  BMesonLCDAs.g_minusWW_d1 imp omega = 0 /\
  BMesonLCDAs.g_minusWW_d2 imp omega = 0 /\
  BMesonLCDAs.g_bar imp omega = 0 /\
  BMesonLCDAs.g_bar_d1 imp omega = 0 /\
  BMesonLCDAs.g_bar_d2 imp omega = 0 /\
  BMesonLCDAs.g_bar_d3 imp omega = 0 /\
  BMesonLCDAs.phi_3 imp omega_1 omega_2 = 0 /\
  BMesonLCDAs.phi_4 imp omega_1 omega_2 = 0 /\
  BMesonLCDAs.phi_bar_3 imp omega_1 omega_2 = 0 /\
  BMesonLCDAs.phi_bar_4 imp omega_1 omega_2 = 0 /\
  BMesonLCDAs.phi_bar2_3 imp omega_1 omega_2 = 0 /\
  BMesonLCDAs.phi_bar2_4 imp omega_1 omega_2 = 0 /\
  BMesonLCDAs.phi_bar_bar_3 imp omega_1 omega_2 = 0 /\
  BMesonLCDAs.phi_bar_bar_4 imp omega_1 omega_2 = 0 /\
  BMesonLCDAs.psi_bar_4 imp omega_1 omega_2 = 0 /\
  BMesonLCDAs.psi_bar_bar_4 imp omega_1 omega_2 = 0 /\
  BMesonLCDAs.chi_bar_4 imp omega_1 omega_2 = 0 /\
  BMesonLCDAs.chi_bar_bar_4 imp omega_1 omega_2 = 0 /\
  BMesonLCDAs.psi_A imp omega xi = 0 /\
  BMesonLCDAs.psi_V imp omega xi = 0 /\
  BMesonLCDAs.X_A imp omega xi = 0 /\
  BMesonLCDAs.Y_A imp omega xi = 0 /\
  BMesonLCDAs.Xbar_A imp omega xi = 0 /\
  BMesonLCDAs.Ybar_A imp omega xi = 0.
Proof.
  pose proof debug_level_B_guard as guard.
  split; [reflexivity|].
  unfold BMesonLCDAs.phi_minus, BMesonLCDAs.phi_bar, BMesonLCDAs.phi_bar_d1,
    BMesonLCDAs.g_plus, BMesonLCDAs.g_plus_d1, BMesonLCDAs.g_plus_d2,
    BMesonLCDAs.g_minusWW, BMesonLCDAs.g_minusWW_d1, BMesonLCDAs.g_minusWW_d2,
    BMesonLCDAs.g_bar, BMesonLCDAs.g_bar_d1, BMesonLCDAs.g_bar_d2, BMesonLCDAs.g_bar_d3,
    BMesonLCDAs.phi_3, BMesonLCDAs.phi_4, BMesonLCDAs.phi_bar_3, BMesonLCDAs.phi_bar_4,
    BMesonLCDAs.phi_bar2_3, BMesonLCDAs.phi_bar2_4, BMesonLCDAs.phi_bar_bar_3,
    BMesonLCDAs.phi_bar_bar_4, BMesonLCDAs.psi_bar_4, BMesonLCDAs.psi_bar_bar_4,
    BMesonLCDAs.chi_bar_4, BMesonLCDAs.chi_bar_bar_4, BMesonLCDAs.psi_A,
    BMesonLCDAs.psi_V, BMesonLCDAs.X_A, BMesonLCDAs.Y_A, BMesonLCDAs.Xbar_A,
    BMesonLCDAs.Ybar_A.
  rewrite guard.
  repeat split.
Qed.

(** Claim C9.  Every evaluation method of [BcMesonLCDAs] other than
    [phi_plus], [phi_minus], [phi_bar] and [phi_bar_d1] returns exactly
    zero for every argument, and [inverse_lambda_plus] returns 0.0. *)
Theorem BcMesonLCDAs_stub_methods_return_zero
    (imp : BcMesonLCDAs.Implementation) (omega omega_1 omega_2 xi : float) :
  BcMesonLCDAs.g_plus omega = 0 /\
  BcMesonLCDAs.g_plus_d1 omega = 0 /\
  BcMesonLCDAs.g_plus_d2 omega = 0 /\
  BcMesonLCDAs.g_minusWW omega = 0 /\
  BcMesonLCDAs.g_minusWW_d1 omega = 0 /\
  BcMesonLCDAs.g_minusWW_d2 omega = 0 /\
  BcMesonLCDAs.g_bar omega = 0 /\
  BcMesonLCDAs.g_bar_d1 omega = 0 /\
  BcMesonLCDAs.g_bar_d2 omega = 0 /\
  BcMesonLCDAs.g_bar_d3 omega = 0 /\
  BcMesonLCDAs.phi_3 omega_1 omega_2 = 0 /\
  BcMesonLCDAs.phi_4 omega_1 omega_2 = 0 /\
  BcMesonLCDAs.phi_bar_3 omega_1 omega_2 = 0 /\
  BcMesonLCDAs.phi_bar_4 omega_1 omega_2 = 0 /\
  BcMesonLCDAs.phi_bar2_3 omega_1 omega_2 = 0 /\
  BcMesonLCDAs.phi_bar2_4 omega_1 omega_2 = 0 /\
  BcMesonLCDAs.phi_bar_bar_3 omega_1 omega_2 = 0 /\
  BcMesonLCDAs.phi_bar_bar_4 omega_1 omega_2 = 0 /\
  BcMesonLCDAs.psi_bar_4 omega_1 omega_2 = 0 /\
  BcMesonLCDAs.psi_bar_bar_4 omega_1 omega_2 = 0 /\
  BcMesonLCDAs.chi_bar_4 omega_1 omega_2 = 0 /\
  BcMesonLCDAs.chi_bar_bar_4 omega_1 omega_2 = 0 /\
  BcMesonLCDAs.psi_A omega xi = 0 /\
  BcMesonLCDAs.psi_V omega xi = 0 /\
  BcMesonLCDAs.X_A omega xi = 0 /\
  BcMesonLCDAs.Y_A omega xi = 0 /\
  BcMesonLCDAs.Xbar_A omega xi = 0 /\
  BcMesonLCDAs.Ybar_A omega xi = 0 /\
  BcMesonLCDAs.inverse_lambda_plus = 0.0.
Proof.
  repeat split.
Qed.

End LCDAs.

(** ** Comparisons of doubles *)

Section DoubleFacts.

Local Open Scope float_scope.

(** Swapping the operands of the IEEE comparison mirrors its result. *)
Lemma SFcompare_antisym (x y : spec_float) :
  SFcompare y x = option_map CompOpp (SFcompare x y).
Proof.
  destruct x as [sx|sx| |sx mx ex], y as [sy|sy| |sy my ey]; simpl; try reflexivity;
    try (destruct sx; reflexivity); try (destruct sy; reflexivity);
    try (destruct sx, sy; reflexivity).
  destruct sx, sy; simpl; try reflexivity;
    rewrite (Z.compare_antisym ex ey); destruct (ex ?= ey)%Z; simpl; try reflexivity;
    fold (Pos.compare my mx); fold (Pos.compare mx my);
    rewrite (Pos.compare_antisym mx my); reflexivity.
Qed.

(** [<] on doubles is asymmetric. *)
Lemma ltb_asym (x y : float) : (x <? y) = true -> (y <? x) = false.
Proof.
  rewrite !ltb_spec. unfold SFltb. rewrite (SFcompare_antisym (Prim2SF x) (Prim2SF y)).
  destruct (SFcompare (Prim2SF x) (Prim2SF y)) as [[| |]|]; simpl; congruence.
Qed.

(** [<] on doubles is irreflexive. *)
Lemma ltb_irrefl (x : float) : (x <? x) = false.
Proof.
  destruct (x <? x) eqn:H; [|reflexivity].
  assert (H' := H). apply ltb_asym in H'. congruence.
Qed.

(** A double above zero does not compare equal to zero. *)
Lemma ltb_zero_not_eqb (x : float) : (0 <? x) = true -> (x =? 0) = false.
Proof.
  rewrite ltb_spec, eqb_spec. unfold SFltb, SFeqb.
  rewrite (SFcompare_antisym (Prim2SF 0) (Prim2SF x)).
  destruct (SFcompare (Prim2SF 0) (Prim2SF x)) as [[| |]|]; simpl; congruence.
Qed.

(** [std::max(a, b)] is never below [a], whatever the doubles. *)
Lemma max_not_below (a b : float) : (Double.max a b <? a) = false.
Proof.
  unfold Double.max. destruct (a <? b) eqn:H.
  - apply ltb_asym. exact H.
  - apply ltb_irrefl.
Qed.

(** [std::min(a, b)] is never above [a], whatever the doubles. *)
Lemma min_not_above (a b : float) : (a <? Double.min a b) = false.
Proof.
  unfold Double.min. destruct (b <? a) eqn:H.
  - apply ltb_asym. exact H.
  - apply ltb_irrefl.
Qed.

End DoubleFacts.

(** ** The command line of [eos-scan-mc] *)

Section ParseFacts.

Import ScanMC.
Local Open Scope string_scope.

Context {E : Eos}.

Lemma bind_Return_inv {A B : Type} (c : Outcome A) (k : A -> Outcome B) (b : B) :
  bind c k = Return b -> exists x, c = Return x /\ k x = Return b.
Proof. destruct c; simpl; intros H; try discriminate. eauto. Qed.

Lemma call_Return_inv {A : Type} (c : Throwing A) (x : A) :
  call c = Return x -> c = Returns x.
Proof. destruct c; simpl; intros H; inversion H; reflexivity. Qed.

Lemma next_Return_inv (a : list string) (w : string) (a' : list string) :
  next a = Return (w, a') -> a = w :: a'.
Proof. destruct a; simpl; intros H; inversion H; reflexivity. Qed.

(** Takes apart a hypothesis saying that a piece of [parse] returned. *)
Ltac invert_run :=
  repeat (cbv beta iota zeta in *;
  match goal with
  | H : bind _ _ = Return _ |- _ =>
      let x := fresh "x" in let Hx := fresh "Hx" in
      apply bind_Return_inv in H; destruct H as (x & Hx & H)
  | H : call _ = Return _ |- _ => apply call_Return_inv in H
  | H : next _ = Return (_, _) |- _ => apply next_Return_inv in H; subst
  | H : next _ = Return ?p |- _ => destruct p
  | H : @Return _ _ = Return _ |- _ => inversion H; subst; clear H
  | H : ThrowDoUsage _ = Return _ |- _ => discriminate H
  | H : ThrowException _ = Return _ |- _ => discriminate H
  | H : Aborted = Return _ |- _ => discriminate H
  | H : ArgvExhausted = Return _ |- _ => discriminate H
  | H : (if ?b then _ else _) = Return _ |- _ => destruct b eqn:?
  | H : (let (_, _) := ?x in _) = Return _ |- _ => destruct x eqn:?
  | H : match ?x with _ => _ end = Return _ |- _ => destruct x eqn:?
  end).

(** The counts of chains and chunks and the chunk size are assigned by the
    flags named after them. *)
Lemma count_flags_assign_their_options (w : string) (a : list string) (s : State) :
  parse_argument "--chains" (w :: a) s =
    Return (a, on_self (on_mcmc_config
                 (MarkovChainSampler.set_number_of_chains (destringify_unsigned w))) s) /\
  parse_argument "--chunk-size" (w :: a) s =
    Return (a, on_self (on_mcmc_config
                 (MarkovChainSampler.set_chunk_size (destringify_unsigned w))) s) /\
  parse_argument "--chunks" (w :: a) s =
    Return (a, on_self (on_mcmc_config
                 (MarkovChainSampler.set_chunks (destringify_unsigned w))) s).
Proof. repeat split. Qed.

(** [--seed VALUE] assigns the value read from the command line, unless
    the value is the word [time]. *)
Lemma seed_flag_assigns_the_seed (value : string) (a : list string) (s : State) :
  ("time" =? value) = false ->
  exists s', parse_argument "--seed" (value :: a) s = Return (a, s') /\
    MarkovChainSampler.seed (mcmc_config (self s')) = destringify_unsigned_long value.
Proof.
  intros Hvalue. unfold parse_argument.
  destruct EOS_ENABLE_PMC; cbn -[String.eqb]; rewrite Hvalue; eexists; split; reflexivity.
Qed.

(** Claim C1, where the code departs from it.  [--parallel] assigns
    [false] to [mcmc_config.parallelize], in whatever state the loop meets
    it; on the command line [argv0 --parallel] the parse returns with
    parallel execution switched off and with the very configuration the
    constructor set up, so the flag enables nothing. *)
Theorem parallel_flag_assigns_false (argv0 : string) :
  (forall a s, exists s',
     parse_argument "--parallel" a s = Return (a, s') /\
     MarkovChainSampler.parallelize (mcmc_config (self s')) = false) /\
  (exists s,
     parse [argv0; "--parallel"] CommandLine_new = Return s /\
     MarkovChainSampler.parallelize (mcmc_config (self s)) = false /\
     mcmc_config (self s) = mcmc_config CommandLine_new).
Proof.
  split.
  - intros a s. unfold parse_argument. destruct EOS_ENABLE_PMC; eexists; split; reflexivity.
  - unfold parse, parse_loop, parse_argument.
    destruct EOS_ENABLE_PMC; eexists; repeat split.
Qed.

(** Every reader consumes words. *)
Lemma scan_spec_shrinks (a : list string) (spec : ScanSpec) (a' : list string) :
  scan_spec a = Return (spec, a') -> (List.length a' < List.length a)%nat.
Proof.
  unfold scan_spec. intros H. invert_run; simpl; lia.
Qed.

Lemma read_point_shrinks (a : list string) :
  forall point point' a',
    read_point a point = Return (point', a') -> (List.length a' < List.length a)%nat.
Proof.
  induction a as [|w a IH]; simpl; intros point point' a' H; [discriminate|].
  destruct (w =? "}").
  - inversion H; subst. lia.
  - apply IH in H. lia.
Qed.

(** [--scan] and [--nuisance] are handled by [scan_or_nuisance]. *)
Lemma parse_argument_scan (argument : string) (a : list string) (s : State) :
  is_scan_flag argument = true ->
  parse_argument argument a s = scan_or_nuisance argument a s.
Proof.
  unfold is_scan_flag, parse_argument. intros ->. reflexivity.
Qed.

(** What an accepted group has gone through. *)
Lemma scan_or_nuisance_Return (argument : string) (a : list string) (s : State)
    (a' : list string) (s' : State) :
  scan_or_nuisance argument a s = Return (a', s') ->
  exists spec handle,
    scan_spec a = Return (spec, a') /\
    Parameters_subscript (spec_name spec) = Returns handle /\
    LogPosterior_add (log_posterior (self s)) (spec_prior spec)
      (if "--nuisance" =? argument then true else false)
    = (true, log_posterior (self s')).
Proof.
  unfold scan_or_nuisance. intros H.
  apply bind_Return_inv in H. destruct H as ([spec a0] & Hspec & H).
  cbv beta iota zeta in H.
  apply bind_Return_inv in H. destruct H as (handle & Hh & H).
  apply call_Return_inv in Hh.
  exists spec, handle.
  destruct ("--nuisance" =? argument); cbn [self on_self log_posterior set_nuisance_parameters set_scan_parameters] in H;
  destruct (LogPosterior_add _ _ _) as [added posterior] eqn:Hadd;
  destruct added; simpl in H; try discriminate; inversion H; subst; auto.
Qed.

(** A turn of the loop leaves fewer words than it found, and only a
    [--scan] or [--nuisance] turn touches the posterior. *)
Lemma parse_argument_turn (argument : string) (a : list string) (s : State)
    (a' : list string) (s' : State) :
  parse_argument argument a s = Return (a', s') ->
  (List.length a' <= List.length a)%nat /\
  (is_scan_flag argument = false -> log_posterior (self s') = log_posterior (self s)).
Proof.
  intros H. destruct (is_scan_flag argument) eqn:Hflag.
  - rewrite parse_argument_scan in H by assumption.
    apply scan_or_nuisance_Return in H. destruct H as (spec & handle & Hspec & _).
    apply scan_spec_shrinks in Hspec. split; [lia | discriminate].
  - unfold parse_argument in H. unfold is_scan_flag in Hflag. rewrite Hflag in H.
    unfold assign_unsigned, assign_double, observable_input, optional_point in H.
    invert_run;
      repeat match goal with
      | H : read_point _ _ = Return _ |- _ => apply read_point_shrinks in H
      end;
      (split; [simpl in *; lia | intros _; try destruct EOS_ENABLE_PMC;
        try (destruct (constraints (self s))); reflexivity]).
Qed.


Lemma parse_argument_keeps_declared (contract : LogPosterior_add_contract)
    (argument : string) (a : list string) (s : State) (a' : list string) (s' : State)
    (n : string) :
  parse_argument argument a s = Return (a', s') ->
  In n (declared_names (log_posterior (self s))) ->
  In n (declared_names (log_posterior (self s'))).
Proof.
  intros H Hn. destruct (is_scan_flag argument) eqn:Hflag.
  - rewrite parse_argument_scan in H by assumption.
    apply scan_or_nuisance_Return in H. destruct H as (spec & handle & _ & _ & Hadd).
    eapply add_declares; eauto.
  - apply parse_argument_turn in H. destruct H as [_ H]. rewrite (H Hflag). exact Hn.
Qed.

Lemma reaches_trans (x y z : list string * State) :
  reaches x y -> reaches y z -> reaches x z.
Proof.
  induction 1 as [x|argument a s a' s' y Hturn Hrest IH]; intros Hz; [exact Hz|].
  eapply reaches_turn; eauto.
Qed.

Lemma reaches_keeps_declared_pair (contract : LogPosterior_add_contract)
    (x y : list string * State) (n : string) :
  reaches x y ->
  In n (declared_names (log_posterior (self (snd x)))) ->
  In n (declared_names (log_posterior (self (snd y)))).
Proof.
  induction 1 as [x|argument a s a' s' y Hturn Hrest IH]; intros Hn; [exact Hn|].
  apply IH. simpl in *. eapply parse_argument_keeps_declared; eauto.
Qed.

(** A parameter with a prior keeps it for the rest of the loop. *)
Lemma reaches_keeps_declared (contract : LogPosterior_add_contract)
    (a : list string) (s : State) (b : list string) (t : State) (n : string) :
  reaches (a, s) (b, t) ->
  In n (declared_names (log_posterior (self s))) ->
  In n (declared_names (log_posterior (self t))).
Proof.
  intros Hreach. exact (reaches_keeps_declared_pair contract n Hreach).
Qed.

(** The loop agrees with [reaches], and its bound keeps up. *)
Lemma parse_loop_reaches (x y : list string * State) :
  reaches x y ->
  forall fuel, (List.length (fst x) <= fuel)%nat ->
  exists fuel', (List.length (fst y) <= fuel')%nat /\
    parse_loop fuel (fst x) (snd x) = parse_loop fuel' (fst y) (snd y).
Proof.
  induction 1 as [x|argument a s a' s' y Hturn Hrest IH]; intros fuel Hfuel.
  - exists fuel. split; [assumption | reflexivity].
  - simpl in Hfuel. destruct fuel as [|fuel]; [lia|].
    assert (Hlen := Hturn). apply parse_argument_turn in Hlen. destruct Hlen as [Hlen _].
    destruct (IH fuel) as (fuel' & Hfuel' & Heq); [simpl; lia|].
    exists fuel'. split; [assumption|].
    simpl. rewrite Hturn. simpl. exact Heq.
Qed.

Lemma parse_loop_throws (fuel : nat) (argument : string) (a : list string) (s : State)
    (what : string) :
  (List.length (argument :: a) <= fuel)%nat ->
  parse_argument argument a s = ThrowDoUsage what ->
  parse_loop fuel (argument :: a) s = ThrowDoUsage what.
Proof.
  intros Hfuel H. destruct fuel as [|fuel]; [simpl in Hfuel; lia|].
  simpl. rewrite H. reflexivity.
Qed.

(** A usage error in a turn the loop gets to ends [main] with the usage
    message, before any sampler is constructed. *)
Lemma main_usage_error (argv0 : string) (a b : list string) (argument : string)
    (s : State) (what : string) :
  reaches (a, parse_start argv0 a CommandLine_new) (argument :: b, s) ->
  parse_argument argument b s = ThrowDoUsage what ->
  main (argv0 :: a) = UsageError what.
Proof.
  intros Hreach Hthrow.
  apply parse_loop_reaches with (fuel := List.length a) in Hreach; [|simpl; lia].
  destruct Hreach as (fuel' & Hfuel' & Heq).
  unfold main, parse. simpl in Heq. rewrite Heq.
  erewrite parse_loop_throws by eassumption. reflexivity.
Qed.


(** None of the pieces of a turn touches the loop bound. *)
Lemma bind_fuel {A B : Type} (c : Outcome A) (k : A -> Outcome B) :
  c <> OutOfFuel -> (forall x, k x <> OutOfFuel) -> bind c k <> OutOfFuel.
Proof. destruct c; simpl; intros Hc Hk; auto; discriminate. Qed.

Lemma call_fuel {A : Type} (c : Throwing A) : call c <> OutOfFuel.
Proof. destruct c; discriminate. Qed.

Lemma next_fuel (a : list string) : next a <> OutOfFuel.
Proof. destruct a; discriminate. Qed.

Lemma read_point_fuel (a : list string) :
  forall point, read_point a point <> OutOfFuel.
Proof.
  induction a as [|w a IH]; simpl; intros point; [discriminate|].
  destruct (w =? "}"); [discriminate | apply IH].
Qed.

Ltac fuel_step :=
  match goal with
  | |- bind _ _ <> OutOfFuel => apply bind_fuel; [|intros ?]
  | |- call _ <> OutOfFuel => apply call_fuel
  | |- next _ <> OutOfFuel => apply next_fuel
  | |- read_point _ _ <> OutOfFuel => apply read_point_fuel
  | |- (if ?b then _ else _) <> OutOfFuel => destruct b
  | |- (let (_, _) := ?x in _) <> OutOfFuel => destruct x
  | |- match ?x with _ => _ end <> OutOfFuel => destruct x
  | |- _ <> OutOfFuel => discriminate
  end.

Lemma parse_argument_fuel (argument : string) (a : list string) (s : State) :
  parse_argument argument a s <> OutOfFuel.
Proof.
  unfold parse_argument, scan_or_nuisance, scan_spec, assign_unsigned, assign_double,
    observable_input, optional_point.
  repeat (cbv beta iota zeta; fuel_step).
Qed.

(** The loop bound of the embedding is never what ends [parse]. *)
Lemma parse_loop_total (fuel : nat) :
  forall a s, (List.length a <= fuel)%nat -> parse_loop fuel a s <> OutOfFuel.
Proof.
  induction fuel as [|fuel IH]; intros [|argument a] s Hfuel; simpl in *;
    try discriminate; try lia.
  destruct (parse_argument argument a s) as [[a' s']| | | | |] eqn:Hturn;
    simpl; try discriminate.
  - apply IH. apply parse_argument_turn in Hturn. lia.
  - exfalso. eapply parse_argument_fuel; eauto.
Qed.

Lemma main_never_diverges (argv : list string) : main argv <> Diverged.
Proof.
  unfold main, parse. destruct argv as [|argv0 a]; [discriminate|].
  destruct (parse_loop _ _ _) eqn:Hloop; try discriminate.
  - unfold dispatch.
    repeat match goal with
    | |- (if ?b then _ else _) <> _ => destruct b
    | |- match ?x with _ => _ end <> _ => destruct x
    end; discriminate.
  - exfalso. eapply parse_loop_total; [|eassumption]. lia.
Qed.

Lemma scan_spec_prior_name (a : list string) (spec : ScanSpec) (a' : list string) :
  scan_spec a = Return (spec, a') -> LogPrior_name (spec_prior spec) = spec_name spec.
Proof.
  unfold scan_spec. intros H. invert_run; reflexivity.
Qed.

(** A well-formed group whose prior [add] refuses is a usage error. *)
Lemma scan_or_nuisance_refused (argument : string) (a : list string) (s : State)
    (spec : ScanSpec) (a' : list string) (handle : ParameterHandle) :
  scan_spec a = Return (spec, a') ->
  Parameters_subscript (spec_name spec) = Returns handle ->
  fst (LogPosterior_add (log_posterior (self s)) (spec_prior spec)
         (if "--nuisance" =? argument then true else false)) = false ->
  scan_or_nuisance argument a s =
  ThrowDoUsage (assignment_error (spec_prior_type spec) (spec_name spec)).
Proof.
  intros Hspec Hhandle Hadd. unfold scan_or_nuisance.
  rewrite Hspec. cbn [bind]. cbv beta iota zeta. rewrite Hhandle. cbn [bind call].
  destruct ("--nuisance" =? argument);
    cbn [self on_self log_posterior set_nuisance_parameters set_scan_parameters];
    destruct (LogPosterior_add _ _ _) as [added posterior]; cbn [fst] in Hadd; subst;
    reflexivity.
Qed.

Lemma parse_argument_student_t (w : string) (a : list string) (s : State) :
  parse_argument "--proposal" ("MultivariateStudentT" :: w :: a) s =
  if (destringify_double w <=? 0)%float
  then ThrowDoUsage "No (or non-positive) degree of freedom for MultivariateStudentT specified"
  else Return (a, on_self (on_mcmc_config
                 (MarkovChainSampler.set_student_t_degrees_of_freedom (destringify_double w)))
               (on_self (on_mcmc_config
                  (MarkovChainSampler.set_proposal "MultivariateStudentT")) s)).
Proof. unfold parse_argument. destruct EOS_ENABLE_PMC; reflexivity. Qed.

(** Claim C2.  Let [LogPosterior::add] refuse a prior for a parameter that
    has one.  If the command line assigns a prior to one parameter twice
    (the loop accepts a [--scan] or [--nuisance] group for it and later
    gets to a second well-formed group for it), [main] ends with the usage
    error that names the prior type and the parameter; if it specifies a
    number of degrees of freedom that is at most zero for the
    MultivariateStudentT proposal, [main] ends with the usage error that
    says so.  Either way no sampler is started. *)
Theorem duplicate_prior_or_nonpositive_dof_is_usage_error
    (contract : LogPosterior_add_contract) (argv0 : string) (a : list string) :
  (forall name prior_type,
     assigns_prior_twice argv0 a CommandLine_new name prior_type ->
     main (argv0 :: a) = UsageError (assignment_error prior_type name) /\
     starts_sampling (main (argv0 :: a)) = false) /\
  (specifies_nonpositive_dof argv0 a CommandLine_new ->
     main (argv0 :: a) =
       UsageError "No (or non-positive) degree of freedom for MultivariateStudentT specified" /\
     starts_sampling (main (argv0 :: a)) = false).
Proof.
  split.
  - intros name prior_type
      (flag1 & g1 & s1 & spec1 & g1' & s1' & flag2 & g2 & s2 & spec2 & g2' &
       Hreach1 & Hflag1 & Hspec1 & Hturn1 & Hreach2 & Hflag2 & Hspec2 & Hname1 & Hname2 & Htype).
    assert (Hmain : main (argv0 :: a) = UsageError (assignment_error prior_type name)).
    { assert (Hfirst := Hturn1).
      rewrite parse_argument_scan in Hfirst by assumption.
      apply scan_or_nuisance_Return in Hfirst.
      destruct Hfirst as (spec & handle & Hspec & Hhandle & Hadd).
      rewrite Hspec1 in Hspec. inversion Hspec; subst spec. clear Hspec.
      assert (Hdeclared : In name (declared_names (log_posterior (self s1')))).
      { eapply add_declares; eauto. left.
        erewrite scan_spec_prior_name by eassumption. symmetry. assumption. }
      eapply reaches_keeps_declared in Hdeclared; [|exact contract|exact Hreach2].
      eapply main_usage_error.
      - eapply reaches_trans; [exact Hreach1|].
        eapply reaches_turn; [exact Hturn1 | exact Hreach2].
      - rewrite parse_argument_scan by assumption.
        rewrite <- Htype, <- Hname2.
        eapply scan_or_nuisance_refused; eauto.
        + rewrite Hname2, <- Hname1. exact Hhandle.
        + apply add_refuses_declared; [exact contract|].
          erewrite scan_spec_prior_name by eassumption. rewrite Hname2. exact Hdeclared. }
    rewrite Hmain. split; reflexivity.
  - intros (w & rest & s & Hreach & Hdof).
    assert (Hmain : main (argv0 :: a) =
      UsageError "No (or non-positive) degree of freedom for MultivariateStudentT specified").
    { eapply main_usage_error; [exact Hreach|].
      rewrite parse_argument_student_t, Hdof. reflexivity. }
    rewrite Hmain. split; reflexivity.
Qed.


(** Claim C10.  Given [--scan] or [--nuisance], then
    [NAME MIN MAX N_SIGMAS --prior gaussian LOWER CENTRAL UPPER], with
    [n_sigmas], the value [N_SIGMAS] reads as, above zero: when the
    parameter is known and [add] accepts the prior, the turn returns and
    has registered (in the prior and in the parameter data) the range
    whose lower end is [CENTRAL - n_sigmas * (CENTRAL - LOWER)] where that
    lies above [MIN] and [MIN] otherwise, and whose upper end is
    [CENTRAL + n_sigmas * (UPPER - CENTRAL)] where that lies below [MAX]
    and [MAX] otherwise: the greater of the two lower ends and the lesser
    of the two upper ends.  So the lower end is not below [MIN] and not
    below the lower end that the sigmas give, and the upper end is not
    above [MAX] and not above the upper end that the sigmas give. *)
Theorem gaussian_prior_range_within_hard_bounds
    (argument name MIN MAX N_SIGMAS LOWER CENTRAL UPPER : string) (rest : list string)
    (s : State) (z n_sigmas : float) (handle : ParameterHandle) (posterior : LogPosterior) :
  let min := destringify_double MIN in
  let max := destringify_double MAX in
  let lower := destringify_double LOWER in
  let central := destringify_double CENTRAL in
  let upper := destringify_double UPPER in
  let sigma_min := (central - n_sigmas * (central - lower))%float in
  let sigma_max := (central + n_sigmas * (upper - central))%float in
  let range :=
    {| range_min := if (min <? sigma_min)%float then sigma_min else min;
       range_max := if (sigma_max <? max)%float then sigma_max else max |} in
  let is_nuisance := if "--nuisance" =? argument then true else false in
  let data := {| parameter := handle; ScanMC.min := range_min range;
                 ScanMC.max := range_max range; prior := "gaussian" |} in
  is_scan_flag argument = true ->
  (MAX =? "--prior") = false ->
  (N_SIGMAS =? "--prior") = false ->
  VerifiedRange_double 0 10 0 = Returns z ->
  VerifiedRange_double 0 10 (destringify_double N_SIGMAS) = Returns n_sigmas ->
  (0 <? n_sigmas)%float = true ->
  Parameters_subscript name = Returns handle ->
  LogPosterior_add (log_posterior (self s)) (Gauss name range lower central upper)
    is_nuisance = (true, posterior) ->
  parse_argument argument
    (name :: MIN :: MAX :: N_SIGMAS :: "--prior" :: "gaussian" ::
     LOWER :: CENTRAL :: UPPER :: rest) s
  = Return (rest,
      on_self (set_log_posterior posterior)
        (if is_nuisance
         then on_self (fun c => set_nuisance_parameters
                                  (push_back (nuisance_parameters c) data) c) s
         else on_self (fun c => set_scan_parameters
                                  (push_back (scan_parameters c) data) c) s)) /\
  (range_min range <? min)%float = false /\
  (max <? range_max range)%float = false /\
  (range_min range <? sigma_min)%float = false /\
  (sigma_max <? range_max range)%float = false.
Proof.
  intros min max lower central upper sigma_min sigma_max range is_nuisance data
    Hflag HMAX HSIG Hzero Hsigmas Hpositive Hhandle Hadd.
  split; [|repeat split].
  - rewrite parse_argument_scan by assumption.
    unfold scan_or_nuisance, scan_spec.
    cbn [next bind]. cbv beta iota zeta.
    rewrite Hzero. cbn [call bind]. cbv beta iota zeta.
    rewrite HMAX. cbn [next bind]. cbv beta iota zeta.
    rewrite HSIG. cbn [negb]. rewrite Hsigmas. cbn [call bind]. cbv beta iota zeta.
    rewrite ltb_zero_not_eqb by assumption. cbn [next bind]. cbv beta iota zeta.
    change ("--prior" =? "--prior") with true. cbn [negb next bind]. cbv beta iota zeta.
    change ("gaussian" =? "gaussian") with true. cbn [next bind]. cbv beta iota zeta.
    rewrite Hpositive.
    cbn [bind spec_name spec_range spec_prior_type spec_prior range_min range_max].
    rewrite Hhandle. cbn [call bind].
    unfold Double.max, Double.min.
    fold min max lower central upper. fold sigma_min sigma_max. fold range.
    fold is_nuisance. fold data.
    destruct is_nuisance;
      cbn [self on_self log_posterior set_nuisance_parameters set_scan_parameters];
      rewrite Hadd; reflexivity.
  - cbn [range range_min]. destruct (min <? sigma_min)%float eqn:Hlt.
    + apply ltb_asym. exact Hlt.
    + apply ltb_irrefl.
  - cbn [range range_max]. destruct (sigma_max <? max)%float eqn:Hlt.
    + apply ltb_asym. exact Hlt.
    + apply ltb_irrefl.
  - cbn [range range_min]. destruct (min <? sigma_min)%float eqn:Hlt.
    + apply ltb_irrefl.
    + exact Hlt.
  - cbn [range range_max]. destruct (sigma_max <? max)%float eqn:Hlt.
    + apply ltb_irrefl.
    + exact Hlt.
Qed.

End ParseFacts.

(** ** The Markov chain *)

Section MarkovChainFacts.

Import MarkovChain.
Local Open Scope R_scope.

(** The correction of a symmetric proposal vanishes. *)
Lemma symmetric_hastings_correction (q : ProposalDensity) (x y : Point) :
  symmetric q -> hastings_correction q x y = 0.
Proof.
  intros Hq. unfold hastings_correction. rewrite (Hq y x). lra.
Qed.

(** A uniform draw never lies below the acceptance probability of a
    candidate whose log-posterior is minus infinity. *)
Lemma accept_or_reject_neg_infinity (h u : R) (candidate : Point) (chain : ChainState) :
  0 <= u ->
  accept_or_reject h u candidate NegInfinity chain = rejection chain.
Proof.
  intros Hu. unfold accept_or_reject, acceptance_probability.
  destruct (Rlt_dec u (Rmin 1 0)) as [Hlt|_]; [|reflexivity].
  exfalso. rewrite Rmin_right in Hlt by lra. lra.
Qed.

(** Claim C5.  For a symmetric proposal density the Hastings correction
    is zero and the acceptance probability of a candidate with
    log-posterior [c] against a current log-posterior [p] is exactly
    [min(1, exp(c - p))]; and that probability is what [accept_or_reject]
    decides with: the iteration accepts the candidate (the state moves to
    it, the acceptance counter advances) exactly when the uniform draw
    lies below [min(1, exp(c - p))], and is a rejection otherwise.  No
    other term enters the decision. *)
Theorem symmetric_proposal_acceptance (q : ProposalDensity)
    (log_posterior : Point -> Evaluation) (d : Draw) (chain : ChainState) (c p : R) :
  symmetric q ->
  log_posterior (proposed d) = Value c ->
  current_log_posterior chain = Finite p ->
  hastings_correction q (current chain) (proposed d) = 0 /\
  acceptance_probability (log_posterior_at log_posterior (proposed d))
    (current_log_posterior chain)
    (hastings_correction q (current chain) (proposed d))
  = Rmin 1 (exp (c - p)) /\
  iterate log_posterior q d chain =
    accept_or_reject 0 (uniform d) (proposed d) (Finite c) chain /\
  (uniform d < Rmin 1 (exp (c - p)) ->
   iterate log_posterior q d chain =
     {| current := proposed d;
        current_log_posterior := Finite c;
        accepted := S (accepted chain);
        rejected := rejected chain;
        iterations := S (iterations chain);
        history := history chain ++ [proposed d] |}) /\
  (Rmin 1 (exp (c - p)) <= uniform d ->
   iterate log_posterior q d chain = rejection chain).
Proof.
  intros Hq Hc Hp.
  pose proof (symmetric_hastings_correction (current chain) (proposed d) Hq) as Hzero.
  assert (Hprobability :
            acceptance_probability (Finite c) (current_log_posterior chain) 0
            = Rmin 1 (exp (c - p))).
  { rewrite Hp. unfold acceptance_probability. f_equal. f_equal. lra. }
  unfold iterate, log_posterior_at. rewrite Hzero, Hc.
  split; [reflexivity|]. split; [exact Hprobability|]. split; [reflexivity|].
  unfold accept_or_reject. rewrite Hprobability.
  split; intros Hu; destruct (Rlt_dec (uniform d) (Rmin 1 (exp (c - p)))) as [Hlt|Hge];
    try reflexivity; exfalso; lra.
Qed.

(** Claim C6.  If evaluating the log-posterior at the proposed point raises
    a domain error, the value is taken as minus infinity, the iteration is
    a rejection (the current point and its log-posterior stay, the point
    is recorded again, the rejection and iteration counters advance), and
    the run goes on with the remaining draws. *)
Theorem domain_error_is_a_rejection (log_posterior : Point -> Evaluation)
    (q : ProposalDensity) (d : Draw) (rest : list Draw) (chain : ChainState) :
  0 <= uniform d ->
  log_posterior (proposed d) = DomainError ->
  log_posterior_at log_posterior (proposed d) = NegInfinity /\
  iterate log_posterior q d chain = rejection chain /\
  run log_posterior q (d :: rest) chain = run log_posterior q rest (rejection chain).
Proof.
  intros Hu Herror.
  assert (Hat : log_posterior_at log_posterior (proposed d) = NegInfinity).
  { unfold log_posterior_at. rewrite Herror. reflexivity. }
  assert (Hiter : iterate log_posterior q d chain = rejection chain).
  { unfold iterate. rewrite Hat. apply accept_or_reject_neg_infinity. exact Hu. }
  repeat split; auto.
  unfold run. simpl. rewrite Hiter. reflexivity.
Qed.

End MarkovChainFacts.

(** ** The R-value *)

Section RValueFacts.

Import RValue.
Local Open Scope R_scope.

Lemma sum_repeat (x : R) (k : nat) : sum (repeat x k) = INR k * x.
Proof.
  induction k as [|k IH]; [simpl; lra|].
  rewrite S_INR. change (sum (repeat x (S k))) with (x + sum (repeat x k)).
  rewrite IH. lra.
Qed.

Lemma mean_repeat (x : R) (k : nat) : (1 <= k)%nat -> mean (repeat x k) = x.
Proof.
  intros Hk. unfold mean. rewrite sum_repeat, repeat_length.
  assert (0 < INR k) by (apply lt_0_INR; lia). field. lra.
Qed.

Lemma map_repeat {A B : Type} (f : A -> B) (x : A) (k : nat) :
  map f (repeat x k) = repeat (f x) k.
Proof. induction k as [|k IH]; simpl; [reflexivity | rewrite IH; reflexivity]. Qed.

Lemma identical_chains_repeat (c : list R) (chains : list (list R)) :
  (forall ch, In ch chains -> ch = c) -> chains = repeat c (List.length chains).
Proof.
  intros H. apply Forall_eq_repeat. apply Forall_forall. intros ch Hin.
  symmetry. apply H. exact Hin.
Qed.

Lemma variance_between_repeat (m : R) (k : nat) :
  (1 <= k)%nat -> variance_between (repeat m k) = 0.
Proof.
  intros Hk. unfold variance_between.
  rewrite (mean_repeat m Hk), map_repeat, sum_repeat. unfold Rdiv. ring.
Qed.

Lemma variance_nonzero_nonempty (c : list R) : variance c <> 0 -> (1 <= List.length c)%nat.
Proof.
  destruct c as [|x c]; [|simpl; lia].
  intros H. exfalso. apply H. unfold variance, mean, sum. simpl. unfold Rdiv. ring.
Qed.

(** The statistic of identical chains. *)
Lemma compute_r_value_identical (c : list R) (k : nat) :
  (2 <= k)%nat ->
  compute_r_value (repeat c k) = sqrt ((INR (List.length c) - 1) / INR (List.length c)).
Proof.
  intros Hk. unfold compute_r_value, gelman_rubin.
  rewrite map_repeat, variance_between_repeat by lia.
  destruct k as [|k]; [lia|]. cbn [repeat hd].
  f_equal. unfold Rdiv. ring.
Qed.

Lemma sqrt_ratio_below_one (n : R) : 1 <= n -> sqrt ((n - 1) / n) < 1.
Proof.
  intros Hn. rewrite <- sqrt_1 at 2.
  assert (0 < n) by lra.
  apply sqrt_lt_1_alt. split.
  - apply Rmult_le_pos; [lra|]. left. apply Rinv_0_lt_compat. assumption.
  - apply (Rmult_lt_reg_r n); [assumption|]. unfold Rdiv.
    rewrite Rmult_assoc, Rinv_l by lra. lra.
Qed.

(** Claim C4, as amended.  For [K >= 2] chains that recorded the same
    values [c], step for step, with a within-chain variance that is not
    zero, [compute_r_value] yields [sqrt((n - 1) / n)], [n] the block
    length: a value below 1, not 1. *)
Theorem identical_chains_r_value (c : list R) (chains : list (list R)) :
  (2 <= List.length chains)%nat ->
  (forall ch, In ch chains -> ch = c) ->
  variance c <> 0 ->
  let n := INR (List.length c) in
  compute_r_value chains = sqrt ((n - 1) / n) /\
  compute_r_value chains < 1.
Proof.
  intros HK Hsame HW n.
  rewrite (identical_chains_repeat _ Hsame).
  rewrite compute_r_value_identical by assumption.
  split; [reflexivity|].
  apply sqrt_ratio_below_one.
  apply variance_nonzero_nonempty in HW.
  change 1 with (INR 1). apply le_INR. exact HW.
Qed.

(** Claim C4 as stated fails: two chains that both recorded 0 and then 1
    are identical, have equal within-chain variance 1/4 and no
    between-chain variance, and their R-value lies below 3/4. *)
Lemma two_identical_chains_r_value_far_from_one :
  let chains := [[0; 1]; [0; 1]] in
  (2 <= List.length chains)%nat /\
  (forall ch, In ch chains -> ch = [0; 1]) /\
  variance [0; 1] <> 0 /\
  compute_r_value chains < 3 / 4.
Proof.
  cbv zeta. split; [simpl; lia|]. split.
  { intros ch [H|[H|[]]]; symmetry; exact H. }
  split.
  { unfold variance, mean, sum. simpl. lra. }
  change [[0; 1]; [0; 1]] with (repeat [0; 1] 2).
  rewrite compute_r_value_identical by lia.
  simpl.
  replace (3 / 4) with (sqrt ((3 / 4) * (3 / 4))) by (apply sqrt_square; lra).
  apply sqrt_lt_1_alt. lra.
Qed.

End RValueFacts.

(** ** The claims at concrete inputs *)

Section Witnesses.

Import ScanMC.
Local Open Scope string_scope.

(** The concrete [add] keeps the contract. *)
Lemma Concrete_add_contract : @LogPosterior_add_contract Concrete.eos.
Proof.
  split.
  - intros lp p is_nuisance Hin. cbn [LogPosterior_add Concrete.eos].
    unfold Concrete.LogPosterior_add.
    destruct (existsb (String.eqb (LogPrior_name p)) (declared_names lp)) eqn:Hexists;
      [reflexivity|].
    exfalso.
    assert (Htrue : existsb (String.eqb (LogPrior_name p)) (declared_names lp) = true).
    { apply existsb_exists. exists (LogPrior_name p). split; [exact Hin|].
      apply String.eqb_refl. }
    congruence.
  - intros lp p is_nuisance lp' n Hadd Hn. cbn [LogPosterior_add Concrete.eos] in Hadd.
    unfold Concrete.LogPosterior_add in Hadd.
    destruct (existsb (String.eqb (LogPrior_name p)) (declared_names lp));
      inversion Hadd; subst lp'.
    unfold declared_names, push_back. cbn [parameter_descriptions].
    rewrite map_app. apply in_or_app.
    destruct Hn as [Hn|Hn]; [right; left; symmetry; exact Hn | left; exact Hn].
Qed.

(** Claim C2 at work: [Abs{c9}] given as a scan and then as a nuisance
    parameter, and a Student-t proposal with 0 degrees of freedom. *)
Lemma duplicate_prior_or_nonpositive_dof_witness :
  @main Concrete.eos ("eos-scan-mc" :: Concrete.duplicate_scan) =
    UsageError (assignment_error "flat" "Abs{c9}") /\
  @main Concrete.eos ("eos-scan-mc" :: Concrete.student_t_zero) =
    UsageError "No (or non-positive) degree of freedom for MultivariateStudentT specified".
Proof.
  split.
  - apply (proj1 (@duplicate_prior_or_nonpositive_dof_is_usage_error Concrete.eos
                    Concrete_add_contract "eos-scan-mc" Concrete.duplicate_scan)
                 "Abs{c9}" "flat").
    unfold assigns_prior_twice, Concrete.duplicate_scan.
    do 11 eexists.
    split; [apply reaches_here|].
    split; [reflexivity|].
    split; [lazy; reflexivity|].
    split; [lazy; reflexivity|].
    split; [apply reaches_here|].
    split; [reflexivity|].
    split; [lazy; reflexivity|].
    repeat split.
  - apply (proj2 (@duplicate_prior_or_nonpositive_dof_is_usage_error Concrete.eos
                    Concrete_add_contract "eos-scan-mc" Concrete.student_t_zero)).
    unfold specifies_nonpositive_dof, Concrete.student_t_zero.
    do 3 eexists. split; [apply reaches_here | reflexivity].
Defined.

(** Claim C10 at work.  [--nuisance mass::b(MSbar) 3.8 5.0 2 --prior
    gaussian 4.14 4.27 4.37]: two sigmas give the range from
    [4.27 - 2 * (4.27 - 4.14)] to [4.27 + 2 * (4.37 - 4.27)], inside the
    hard bounds, and that range is registered.  With the hard bounds 4.1
    and 4.4 in place of 3.8 and 5.0 the same two sigmas reach beyond both,
    and the range registered is from 4.1 to 4.4. *)
Lemma gaussian_prior_range_witness :
  (exists s',
     @parse_argument Concrete.eos "--nuisance" Concrete.gaussian_group
       (parse_start "eos-scan-mc" [] (@CommandLine_new Concrete.eos)) = Return ([], s') /\
     exists data,
       nuisance_parameters (self s') = [data] /\
       min data = (4.27 - 2 * (4.27 - 4.14))%float /\
       max data = (4.27 + 2 * (4.37 - 4.27))%float) /\
  (exists s',
     @parse_argument Concrete.eos "--nuisance" Concrete.narrow_gaussian_group
       (parse_start "eos-scan-mc" [] (@CommandLine_new Concrete.eos)) = Return ([], s') /\
     exists data,
       nuisance_parameters (self s') = [data] /\
       min data = 4.1%float /\
       max data = 4.4%float).
Proof.
  split.
  - edestruct (@gaussian_prior_range_within_hard_bounds Concrete.eos
                 "--nuisance" "mass::b(MSbar)" "3.8" "5.0" "2" "4.14" "4.27" "4.37" []
                 (parse_start "eos-scan-mc" [] (@CommandLine_new Concrete.eos))
                 0%float 2%float "mass::b(MSbar)") as (Hparse & _);
      [reflexivity | reflexivity | reflexivity | reflexivity | reflexivity | reflexivity
      | reflexivity | reflexivity |].
    eexists. split; [exact Hparse|].
    eexists. split; [reflexivity|]. split; reflexivity.
  - edestruct (@gaussian_prior_range_within_hard_bounds Concrete.eos
                 "--nuisance" "mass::b(MSbar)" "4.1" "4.4" "2" "4.14" "4.27" "4.37" []
                 (parse_start "eos-scan-mc" [] (@CommandLine_new Concrete.eos))
                 0%float 2%float "mass::b(MSbar)") as (Hparse & _);
      [reflexivity | reflexivity | reflexivity | reflexivity | reflexivity | reflexivity
      | reflexivity | reflexivity |].
    eexists. split; [exact Hparse|].
    eexists. split; [reflexivity|]. split; reflexivity.
Defined.

End Witnesses.

Section SamplingWitnesses.

Local Open Scope R_scope.

(** Claim C5 at work: a proposal of constant density and the uniform draw
    1/2.  A candidate with log-posterior 2 against a current log-posterior
    of 1 is accepted, with probability [min(1, exp(1)) = 1]; a candidate
    with log-posterior 1 against a current log-posterior of 2 is rejected,
    since [min(1, exp(-1))] lies below 1/2. *)
Lemma symmetric_proposal_acceptance_witness :
  let q := {| MarkovChain.log_density := fun _ _ => 0 |} in
  let d := {| MarkovChain.proposed := [1]; MarkovChain.uniform := 1 / 2 |} in
  let chain (p : R) :=
    {| MarkovChain.current := [0];
       MarkovChain.current_log_posterior := MarkovChain.Finite p;
       MarkovChain.accepted := 3; MarkovChain.rejected := 4;
       MarkovChain.iterations := 7; MarkovChain.history := [] |} in
  MarkovChain.iterate (fun _ => MarkovChain.Value 2) q d (chain 1) =
    {| MarkovChain.current := [1];
       MarkovChain.current_log_posterior := MarkovChain.Finite 2;
       MarkovChain.accepted := 4; MarkovChain.rejected := 4;
       MarkovChain.iterations := 8; MarkovChain.history := [[1]] |} /\
  MarkovChain.iterate (fun _ => MarkovChain.Value 1) q d (chain 2) =
    {| MarkovChain.current := [0];
       MarkovChain.current_log_posterior := MarkovChain.Finite 2;
       MarkovChain.accepted := 3; MarkovChain.rejected := 5;
       MarkovChain.iterations := 8; MarkovChain.history := [[0]] |}.
Proof.
  intros q d chain.
  assert (Hexp : 2 < exp 1).
  { pose proof (exp_ineq1 1) as H. lra. }
  split.
  - apply (proj1 (proj2 (proj2 (proj2 (@symmetric_proposal_acceptance q
      (fun _ => MarkovChain.Value 2) d (chain 1) 2 1
      (fun _ _ => eq_refl) eq_refl eq_refl))))).
    replace (2 - 1) with 1 by lra.
    rewrite Rmin_left by lra. simpl. lra.
  - apply (proj2 (proj2 (proj2 (proj2 (@symmetric_proposal_acceptance q
      (fun _ => MarkovChain.Value 1) d (chain 2) 1 2
      (fun _ _ => eq_refl) eq_refl eq_refl))))).
    replace (1 - 2) with (Ropp 1) by lra.
    apply Rle_trans with (exp (Ropp 1)); [apply Rmin_r|].
    rewrite exp_Ropp. simpl.
    apply Rle_trans with (/ 2); [|lra].
    apply Rlt_le. apply Rinv_lt_contravar; [|exact Hexp].
    apply Rmult_lt_0_compat; [lra | apply exp_pos].
Defined.

(** Claim C6 at work: a posterior that is undefined everywhere, and the
    least uniform draw there is. *)
Lemma domain_error_is_a_rejection_witness :
  let q := {| MarkovChain.log_density := fun _ _ => 0 |} in
  let chain := {| MarkovChain.current := [0];
                  MarkovChain.current_log_posterior := MarkovChain.Finite 2;
                  MarkovChain.accepted := 3; MarkovChain.rejected := 4;
                  MarkovChain.iterations := 7; MarkovChain.history := [] |} in
  let d := {| MarkovChain.proposed := [1]; MarkovChain.uniform := 0 |} in
  MarkovChain.iterate (fun _ => MarkovChain.DomainError) q d chain =
  {| MarkovChain.current := [0];
     MarkovChain.current_log_posterior := MarkovChain.Finite 2;
     MarkovChain.accepted := 3; MarkovChain.rejected := 5;
     MarkovChain.iterations := 8; MarkovChain.history := [[0]] |}.
Proof.
  intros q chain d.
  exact (proj1 (proj2 (@domain_error_is_a_rejection (fun _ => MarkovChain.DomainError)
    q d [] chain (Rle_refl 0) eq_refl))).
Defined.

(** Claim C4, as amended, at work: two chains that both recorded 0, 1. *)
Lemma identical_chains_r_value_witness :
  RValue.compute_r_value [[0; 1]; [0; 1]] = sqrt ((2 - 1) / 2).
Proof.
  assert (Hvariance : RValue.variance [0; 1] <> 0).
  { unfold RValue.variance, RValue.mean, RValue.sum. simpl. lra. }
  assert (Hsame : forall ch, In ch [[0; 1]; [0; 1]] -> ch = [0; 1]).
  { intros ch [H|[H|[]]]; symmetry; exact H. }
  pose proof (@identical_chains_r_value [0; 1] [[0; 1]; [0; 1]] (le_n 2) Hsame Hvariance)
    as [H _].
  rewrite H. simpl. f_equal; lra.
Defined.

End SamplingWitnesses.

(** ** More of the front end, and the other programs *)

Section FrontEndFacts.

Import ScanMC.
Import Words.
Import Entries.
Import Frames.
Local Open Scope string_scope.

Context {E : Eos}.

Lemma is_suffix_refl (a : list string) : is_suffix a a.
Proof. exists []. reflexivity. Qed.

Lemma is_suffix_cons (w : string) (a' a : list string) :
  is_suffix a' a -> is_suffix a' (w :: a).
Proof. intros [c ->]. exists (w :: c). reflexivity. Qed.

Lemma is_suffix_trans (a b c : list string) :
  is_suffix a b -> is_suffix b c -> is_suffix a c.
Proof.
  intros [x ->] [y ->]. exists (y ++ x)%list. rewrite app_assoc. reflexivity.
Qed.

Lemma is_suffix_In (w : string) (a' a : list string) :
  is_suffix a' a -> In w a' -> In w a.
Proof. intros [c ->] H. apply in_or_app. right. exact H. Qed.

Lemma is_suffix_length (a' a : list string) :
  is_suffix a' a -> (List.length a' <= List.length a)%nat.
Proof. intros [c ->]. rewrite length_app. lia. Qed.

Lemma read_point_suffix (a : list string) :
  forall point point' a',
    read_point a point = Return (point', a') -> is_suffix a' a.
Proof.
  induction a as [|w a IH]; simpl; intros point point' a' H; [discriminate|].
  destruct (w =? "}").
  - inversion H; subst. apply is_suffix_cons, is_suffix_refl.
  - apply is_suffix_cons. eapply IH. exact H.
Qed.

Lemma length_push_back {A : Type} (v : list A) (x : A) :
  List.length (push_back v x) = S (List.length v).
Proof. unfold push_back. rewrite length_app. simpl. lia. Qed.

(** Takes apart a hypothesis saying that a piece of [parse] returned. *)
Ltac invert_turn :=
  repeat (cbv beta iota zeta in *;
  match goal with
  | H : bind _ _ = Return _ |- _ =>
      let x := fresh "x" in let Hx := fresh "Hx" in
      apply bind_Return_inv in H; destruct H as (x & Hx & H)
  | H : call _ = Return _ |- _ => apply call_Return_inv in H
  | H : next _ = Return (_, _) |- _ => apply next_Return_inv in H; subst
  | H : next _ = Return ?p |- _ => destruct p
  | H : @Return _ _ = Return _ |- _ => inversion H; subst; clear H
  | H : ThrowDoUsage _ = Return _ |- _ => discriminate H
  | H : ThrowException _ = Return _ |- _ => discriminate H
  | H : Aborted = Return _ |- _ => discriminate H
  | H : ArgvExhausted = Return _ |- _ => discriminate H
  | H : (if ?b then _ else _) = Return _ |- _ => destruct b eqn:?
  | H : (let (_, _) := ?x in _) = Return _ |- _ => destruct x eqn:?
  | H : match ?x with _ => _ end = Return _ |- _ => destruct x eqn:?
  end).

Ltac suffix_solve :=
  repeat match goal with
  | H : read_point _ _ = Return _ |- _ => apply read_point_suffix in H
  end;
  repeat first [ assumption | apply is_suffix_refl | apply is_suffix_cons ].

Lemma scan_spec_suffix (a : list string) (spec : ScanSpec) (a' : list string) :
  scan_spec a = Return (spec, a') -> is_suffix a' a.
Proof. unfold scan_spec. intros H. invert_turn; suffix_solve. Qed.

(** What a turn for [--scan] or [--nuisance] that returns has done. *)
Lemma scan_or_nuisance_state (argument : string) (a : list string) (s : State)
    (a' : list string) (s' : State) :
  scan_or_nuisance argument a s = Return (a', s') ->
  exists spec handle posterior,
    scan_spec a = Return (spec, a') /\
    let data := {| parameter := handle; min := range_min (spec_range spec);
                   max := range_max (spec_range spec); prior := spec_prior_type spec |} in
    s' = on_self (set_log_posterior posterior)
           (if "--nuisance" =? argument
            then on_self (fun c => set_nuisance_parameters
                                     (push_back (nuisance_parameters c) data) c) s
            else on_self (fun c => set_scan_parameters
                                     (push_back (scan_parameters c) data) c) s).
Proof.
  unfold scan_or_nuisance. intros H.
  apply bind_Return_inv in H. destruct H as ([spec a0] & Hspec & H).
  cbv beta iota zeta in H.
  apply bind_Return_inv in H. destruct H as (handle & Hh & H).
  destruct ("--nuisance" =? argument);
    cbn [self on_self log_posterior set_nuisance_parameters set_scan_parameters] in H;
    destruct (LogPosterior_add _ _ _) as [added posterior] eqn:Hadd;
    destruct added; cbn [negb] in H; try discriminate; inversion H; subst;
    exists spec, handle, posterior; split; auto.
Qed.


Lemma constraints_of_push_back (l : LogLikelihood) (e : LikelihoodEntry) :
  constraints_of (push_back l e) =
    (constraints_of l ++ match e with
                         | AddConstraint c => [c]
                         | AddObservable _ _ _ _ _ => []
                         end)%list.
Proof.
  unfold constraints_of, push_back. rewrite flat_map_app. simpl.
  rewrite app_nil_r. reflexivity.
Qed.

Lemma observables_of_push_back (l : LogLikelihood) (e : LikelihoodEntry) :
  observables_of (push_back l e) =
    (observables_of l ++ match e with
                         | AddConstraint _ => []
                         | AddObservable o min central max _ => [(o, min, central, max)]
                         end)%list.
Proof.
  unfold observables_of, push_back. rewrite flat_map_app. simpl.
  rewrite app_nil_r. reflexivity.
Qed.

Ltac flag_equalities :=
  repeat match goal with
  | H : (_ =? _) = true |- _ => apply String.eqb_eq in H
  | H : (_ && _)%bool = true |- _ => apply andb_true_iff in H; destruct H
  end; subst.

Ltac frame_solve :=
  first [ reflexivity
        | left; reflexivity
        | right; reflexivity
        | right; left; reflexivity
        | right; right; reflexivity
        | right; right; left; reflexivity
        | right; right; right; reflexivity
        | exact (fun H => H)
        | intros _; reflexivity
        | let Hc := fresh in let Ho := fresh in
          intros [Hc Ho]; split;
          cbn [self on_self likelihood inputs constraints set_inputs set_likelihood
               set_constraints set_local_kinematics];
          rewrite ?constraints_of_push_back, ?observables_of_push_back;
          unfold push_back; rewrite ?map_app, ?app_nil_r, ?Hc, ?Ho; reflexivity ].

Lemma parse_argument_frame (argument : string) (a : list string) (s : State)
    (a' : list string) (s' : State) :
  parse_argument argument a s = Return (a', s') -> turn_frame argument a s a' s'.
Proof.
  intros H. destruct (is_scan_flag argument) eqn:Hflag.
  - rewrite parse_argument_scan in H by assumption.
    apply scan_or_nuisance_state in H.
    destruct H as (spec & handle & posterior & Hspec & ->).
    apply scan_spec_suffix in Hspec.
    unfold is_scan_flag in Hflag. apply orb_true_iff in Hflag.
    destruct ("--nuisance" =? argument) eqn:Hn.
    + apply String.eqb_eq in Hn. subst argument.
      split; cbn; auto.
    + destruct Hflag as [Hs|Hs]; [|congruence].
      apply String.eqb_eq in Hs. subst argument.
      split; cbn; auto.
  - unfold parse_argument in H. unfold is_scan_flag in Hflag. rewrite Hflag in H.
    unfold assign_unsigned, assign_double, observable_input, optional_point in H.
    invert_turn; flag_equalities;
      try match goal with
      | |- context [match constraints (self ?t) with _ => _ end] =>
          destruct (constraints (self t)) eqn:?
      end;
      try match goal with
      | |- context [if EOS_ENABLE_PMC then _ else _] => destruct EOS_ENABLE_PMC
      end;
      (split; [ suffix_solve | frame_solve .. ]).
Qed.

Ltac run_field F R Hin :=
  destruct R as [?|?];
    [ destruct F as [?|?]; [left; congruence | right; subst; left; reflexivity]
    | right; apply Hin; assumption ].

Lemma reaches_frame (x y : list string * State) :
  reaches x y -> run_frame (fst x) (snd x) (fst y) (snd y).
Proof.
  induction 1 as [x|argument a s a' s' y Hturn Hrest IH].
  - split; auto using is_suffix_refl.
  - apply parse_argument_frame in Hturn. simpl fst in *. simpl snd in *.
    assert (Hin : forall w, In w a' -> In w (argument :: a)).
    { intros w Hw. right. eapply is_suffix_In; [apply (frame_words Hturn) | exact Hw]. }
    split.
    + eapply is_suffix_trans; [apply (run_words IH)|].
      apply is_suffix_cons. apply (frame_words Hturn).
    + rewrite (run_creator IH). apply (frame_creator Hturn).
    + destruct (run_inputs IH) as [e|[i|i]];
        [ destruct (frame_inputs Hturn) as [e'|[e'|e']];
            [ left; congruence
            | right; left; subst; left; reflexivity
            | right; right; subst; left; reflexivity ]
        | right; left; apply Hin; exact i
        | right; right; apply Hin; exact i ].
    + run_field (frame_constraints Hturn) (run_constraints IH) Hin.
    + run_field (frame_scan Hturn) (run_scan IH) Hin.
    + run_field (frame_nuisance Hturn) (run_nuisance IH) Hin.
    + run_field (frame_use_pmc Hturn) (run_use_pmc IH) Hin.
    + intros H. apply (run_optimize IH), (frame_optimize Hturn), H.
    + intros H. apply (run_goodness_of_fit IH), (frame_goodness_of_fit Hturn), H.
    + intros H. apply (run_likelihood IH), (frame_likelihood Hturn), H.
Qed.

Lemma parse_loop_Return_reaches (fuel : nat) :
  forall a s t, parse_loop fuel a s = Return t -> reaches (a, s) ([], t).
Proof.
  induction fuel as [|fuel IH]; intros [|argument a] s t H; simpl in H;
    try discriminate; try (inversion H; constructor).
  apply bind_Return_inv in H. destruct H as ([a' s'] & Hturn & H).
  eapply reaches_turn; eauto.
Qed.

Lemma parse_Return_frame (argv0 : string) (a : list string) (this : CommandLine)
    (t : State) :
  parse (argv0 :: a) this = Return t -> run_frame a (parse_start argv0 a this) [] t.
Proof.
  unfold parse. intros H. apply parse_loop_Return_reaches in H.
  apply reaches_frame in H. exact H.
Qed.



(** *** How the loop leaves *)

Lemma parse_loop_exhausted (fuel : nat) (argument : string) (a : list string) (s : State) :
  (List.length (argument :: a) <= fuel)%nat ->
  parse_argument argument a s = ArgvExhausted ->
  parse_loop fuel (argument :: a) s = ArgvExhausted.
Proof.
  intros Hfuel H. destruct fuel as [|fuel]; [simpl in Hfuel; lia|].
  simpl. rewrite H. reflexivity.
Qed.

Lemma parse_loop_aborted (fuel : nat) (argument : string) (a : list string) (s : State) :
  (List.length (argument :: a) <= fuel)%nat ->
  parse_argument argument a s = Aborted ->
  parse_loop fuel (argument :: a) s = Aborted.
Proof.
  intros Hfuel H. destruct fuel as [|fuel]; [simpl in Hfuel; lia|].
  simpl. rewrite H. reflexivity.
Qed.

(** What [main] does with the words [a] is what the loop does from any
    turn it gets to. *)
Lemma main_from_turn (argv0 : string) (a b : list string) (s : State) :
  reaches (a, parse_start argv0 a CommandLine_new) (b, s) ->
  exists fuel, (List.length b <= fuel)%nat /\
    parse (argv0 :: a) CommandLine_new = parse_loop fuel b s.
Proof.
  intros Hreach.
  apply parse_loop_reaches with (fuel := List.length a) in Hreach; [|simpl; lia].
  exact Hreach.
Qed.

(** With enough turns allowed, how many are allowed does not matter. *)
Lemma parse_loop_budget (n : nat) :
  forall a s fuel fuel',
    (List.length a <= n)%nat -> (List.length a <= fuel)%nat ->
    (List.length a <= fuel')%nat ->
    parse_loop fuel a s = parse_loop fuel' a s.
Proof.
  induction n as [|n IH]; intros [|argument a] s fuel fuel' Hn Hfuel Hfuel';
    simpl in Hn, Hfuel, Hfuel'.
  - destruct fuel, fuel'; reflexivity.
  - lia.
  - destruct fuel, fuel'; reflexivity.
  - destruct fuel as [|fuel]; [lia|]. destruct fuel' as [|fuel']; [lia|].
    simpl. destruct (parse_argument argument a s) as [[a' s']| | | | |] eqn:Hturn;
      try reflexivity.
    simpl. apply parse_argument_frame in Hturn.
    pose proof (is_suffix_length (frame_words Hturn)).
    apply IH; lia.
Qed.

(** Property X1. The loop of [parse] ends within its words: no turn leaves
    the cursor before the flag it handled, so the words left are always a
    suffix of the words the loop started on, one turn per word is enough on
    every command line and from every state, and allowing more turns changes
    nothing. *)
Theorem parse_ends_within_its_words (fuel : nat) (a : list string) (s : State) :
  (List.length a <= fuel)%nat ->
  parse_loop fuel a s = parse_loop (List.length a) a s /\
  parse_loop fuel a s <> OutOfFuel /\
  forall b t, reaches (a, s) (b, t) -> is_suffix b a.
Proof.
  intros Hfuel. split; [|split].
  - apply parse_loop_budget with (n := List.length a); lia.
  - apply parse_loop_total. exact Hfuel.
  - intros b t Hreach. apply reaches_frame in Hreach. apply (run_words Hreach).
Qed.

(** *** Unknown words *)

Lemma not_In_eqb {x : string} {l : list string} (Hnot : ~ In x l) (y : string) :
  In y l -> (y =? x) = false.
Proof.
  intros Hy. apply String.eqb_neq. intros ->. contradiction.
Qed.

Ltac in_list :=
  unfold common_flags, pmc_flags, common_flags_with_value, pmc_flags_with_value; simpl;
  solve [repeat first [left; reflexivity | right]].

Lemma parse_argument_unknown (argument : string) (a : list string) (s : State) :
  ~ In argument common_flags ->
  (EOS_ENABLE_PMC = true -> ~ In argument pmc_flags) ->
  parse_argument argument a s = ThrowDoUsage ("Unknown command line argument: " ++ argument).
Proof.
  intros Hc Hp. unfold parse_argument.
  destruct EOS_ENABLE_PMC; [specialize (Hp eq_refl) | clear Hp]; cbn [andb];
    repeat lazymatch goal with
    | |- context [?l =? argument] =>
        first [ rewrite (not_In_eqb Hc l) by in_list
              | rewrite (not_In_eqb Hp l) by in_list ]
    end; reflexivity.
Qed.

(** Property X2. A word in the place of a flag that is none of the flags
    ends the program with the usage message that names it. *)
Theorem unknown_flag_is_usage_error (argv0 : string) (a b : list string)
    (argument : string) (s : State) :
  reaches (a, parse_start argv0 a CommandLine_new) (argument :: b, s) ->
  ~ In argument common_flags ->
  (EOS_ENABLE_PMC = true -> ~ In argument pmc_flags) ->
  main (argv0 :: a) = UsageError ("Unknown command line argument: " ++ argument).
Proof.
  intros Hreach Hc Hp. eapply main_usage_error; [exact Hreach|].
  apply parse_argument_unknown; assumption.
Qed.


Lemma usage_flags_printed :
  usage_flags =
    ["--kinematics"; "--observable"; "--constraint"; "--scan"; "--nuisance"; "--prior";
     "--chains"; "--chunks"; "--chunksize"; "--debug"; "--fix"; "--goodness_of_fit";
     "--no-prerun"; "--optimize"; "--output"; "--scale"; "--seed"; "--store-prerun";
     "--kinematics"; "--kinematics"; "--observable"; "--constraint"; "--scan"; "--prior";
     "--scan"; "--prior"; "--nuisance"; "--prior"].
Proof. vm_compute. reflexivity. Qed.

Ltac not_in_list H :=
  unfold common_flags, pmc_flags in H; simpl in H;
  repeat (destruct H as [H|H]; [discriminate H|]); exact H.

(** Property X3. Of the words of the usage text of [main] that look like
    flags, exactly four are no flags of [parse]: [--prior], which is a
    keyword inside a [--scan] or [--nuisance] group, and [--chunksize],
    [--goodness_of_fit] and [--scale], for which [parse] has
    [--chunk-size], [--goodness-of-fit] and [--scale-reduction]; met in
    the place of a flag, each of the four is refused as unknown, in every
    build. *)
Theorem usage_lists_flags_that_parse_refuses (argument : string) (a : list string)
    (s : State) :
  (In argument usage_flags /\ ~ In argument common_flags <->
   In argument ["--prior"; "--chunksize"; "--goodness_of_fit"; "--scale"]) /\
  (In argument ["--prior"; "--chunksize"; "--goodness_of_fit"; "--scale"] ->
   parse_argument argument a s =
     ThrowDoUsage ("Unknown command line argument: " ++ argument)).
Proof.
  assert (Hfour : In argument ["--prior"; "--chunksize"; "--goodness_of_fit"; "--scale"] ->
                  In argument usage_flags /\ ~ In argument common_flags /\
                  ~ In argument pmc_flags).
  { rewrite usage_flags_printed. simpl.
    intros [<-|[<-|[<-|[<-|[]]]]];
      (split; [solve [repeat first [left; reflexivity | right]]|]);
      split; intros H; not_in_list H. }
  split; [split|].
  - intros [Husage Hc]. rewrite usage_flags_printed in Husage. simpl in Husage.
    repeat (destruct Husage as [Husage|Husage];
            [first [ exfalso; apply Hc; rewrite <- Husage; in_list
                   | rewrite <- Husage; simpl;
                     solve [repeat first [left; reflexivity | right]] ]|]).
    contradiction.
  - intros H. destruct (Hfour H) as (Husage & Hc & _). split; assumption.
  - intros H. destruct (Hfour H) as (_ & Hc & Hp).
    apply parse_argument_unknown; [exact Hc | intros _; exact Hp].
Qed.

(** *** Flags without their values *)

Lemma parse_argument_without_value (argument : string) (s : State) :
  In argument common_flags_with_value \/
    (EOS_ENABLE_PMC = true /\ In argument pmc_flags_with_value) ->
  parse_argument argument [] s = ArgvExhausted.
Proof.
  unfold common_flags_with_value, pmc_flags_with_value. simpl In.
  intros [H|[Hpmc H]];
    repeat (destruct H as [H|H]; [subst argument|]); try contradiction;
    unfold parse_argument; try rewrite Hpmc; try destruct EOS_ENABLE_PMC; reflexivity.
Qed.

(** Property X4. A flag that takes a value, given as the last word, makes
    the program read past the end of [argv]. *)
Theorem value_flag_as_last_word_reads_past_argv (argv0 : string) (a : list string)
    (argument : string) (s : State) :
  reaches (a, parse_start argv0 a CommandLine_new) ([argument], s) ->
  In argument common_flags_with_value \/
    (EOS_ENABLE_PMC = true /\ In argument pmc_flags_with_value) ->
  main (argv0 :: a) = Undefined.
Proof.
  intros Hreach Hflag.
  apply main_from_turn in Hreach. destruct Hreach as (fuel & Hfuel & Heq).
  unfold main. rewrite Heq.
  rewrite parse_loop_exhausted; [reflexivity | exact Hfuel |].
  apply parse_argument_without_value. exact Hflag.
Qed.

(** *** What [main] needs in order to run *)

(** Property X5. [main] goes on to run something only if the command line
    holds one of the words [--constraint], [--observable],
    [--observable-prior] and one of [--scan], [--nuisance]. *)
Theorem main_runs_only_with_input_and_parameter (argv0 : string) (a : list string)
    (r : Run) :
  main (argv0 :: a) = Runs r ->
  (In "--constraint" a \/ In "--observable" a \/ In "--observable-prior" a) /\
  (In "--scan" a \/ In "--nuisance" a).
Proof.
  intros H. unfold main in H.
  destruct (parse (argv0 :: a) CommandLine_new) as [t| | | | |] eqn:Hp; try discriminate.
  apply parse_Return_frame in Hp. unfold dispatch in H.
  split.
  - destruct (run_constraints Hp) as [Hc|Hc]; [|left; exact Hc].
    destruct (run_inputs Hp) as [Hi|Hi]; [|right; exact Hi].
    rewrite Hi, Hc in H. discriminate.
  - destruct (run_scan Hp) as [Hs|Hs]; [|left; exact Hs].
    destruct (run_nuisance Hp) as [Hn|Hn]; [|right; exact Hn].
    rewrite Hs, Hn in H.
    destruct (inputs (self t)), (constraints (self t)); discriminate.
Qed.

(** Property X6. The Population Monte Carlo sampler runs only in a build
    with PMC, on a command line that holds [--use-pmc], and when neither the
    optimisation nor the goodness of fit was asked for. *)
Theorem population_monte_carlo_only_on_request (argv0 : string) (a : list string)
    (this : CommandLine) :
  main (argv0 :: a) = Runs (PopulationMonteCarlo this) ->
  EOS_ENABLE_PMC = true /\ In "--use-pmc" a /\
  optimize this = false /\ goodness_of_fit this = false.
Proof.
  intros H. unfold main in H.
  destruct (parse (argv0 :: a) CommandLine_new) as [t| | | | |] eqn:Hp; try discriminate.
  apply parse_Return_frame in Hp. unfold dispatch in H.
  destruct (inputs (self t)), (constraints (self t)); try discriminate;
    destruct (nuisance_parameters (self t)), (scan_parameters (self t)); try discriminate;
    destruct (optimize (self t)) eqn:Ho;
    try (destruct (starting_point (self t)); try discriminate;
         destruct (negb _); discriminate);
    destruct (goodness_of_fit (self t)) eqn:Hg; try discriminate;
    destruct EOS_ENABLE_PMC; cbn [andb] in H; try discriminate;
    destruct (use_pmc (self t)) eqn:Hu; try discriminate;
    inversion H; subst this;
    (destruct (run_use_pmc Hp) as [Hsame|Hin];
      [rewrite Hu in Hsame; discriminate | auto]).
Qed.

(** *** What [parse] leaves behind *)

(** Property X7. When [parse] returns, the vectors [constraints] and
    [inputs] list, in order, the constraints and the observables with their
    values that the likelihood has received. *)
Theorem parse_records_the_likelihood (argv0 : string) (a : list string) (s : State) :
  parse (argv0 :: a) CommandLine_new = Return s -> records_likelihood (self s).
Proof.
  intros H. apply parse_Return_frame in H. apply (run_likelihood H).
  split; reflexivity.
Qed.

Lemma append_assoc (x y z : string) : (x ++ y) ++ z = x ++ (y ++ z).
Proof. induction x as [|c x IH]; simpl; [reflexivity | rewrite IH; reflexivity]. Qed.

Lemma creator_fold (a : list string) :
  forall argv0,
    fold_left (fun creator w => creator ++ " " ++ w) a argv0 = String.concat " " (argv0 :: a).
Proof.
  induction a as [|w a IH]; intros argv0; [reflexivity|].
  simpl fold_left. rewrite IH. destruct a as [|w' a]; [reflexivity|].
  transitivity ((argv0 ++ " " ++ w) ++ " " ++ String.concat " " (w' :: a));
    [reflexivity|].
  rewrite append_assoc. reflexivity.
Qed.

(** Property X8. When [parse] returns, [creator] is the command line, its
    words joined by single blanks: no flag changes it. *)
Theorem creator_is_the_command_line (argv0 : string) (a : list string)
    (this : CommandLine) (s : State) :
  parse (argv0 :: a) this = Return s ->
  creator (self s) = String.concat " " (argv0 :: a).
Proof.
  intros H. apply parse_Return_frame in H. rewrite (run_creator H).
  apply creator_fold.
Qed.


(** *** The optional point of [--optimize] and [--goodness-of-fit] *)

Lemma parse_argument_optimize (a : list string) (s : State) :
  parse_argument "--optimize" a s =
    optional_point set_starting_point starting_point a (on_self (set_optimize true) s).
Proof. unfold parse_argument. destruct EOS_ENABLE_PMC; reflexivity. Qed.

Lemma parse_argument_goodness_of_fit (a : list string) (s : State) :
  parse_argument "--goodness-of-fit" a s =
    optional_point set_best_fit_point best_fit_point a (on_self (set_goodness_of_fit true) s).
Proof. reflexivity. Qed.

Lemma read_point_braced (words : list string) :
  forall rest point,
    Forall (fun w => w <> "}") words ->
    read_point (words ++ "}" :: rest) point =
      Return ((point ++ map destringify_double words)%list, rest).
Proof.
  induction words as [|w words IH]; intros rest point Hwords; simpl.
  - rewrite app_nil_r. reflexivity.
  - inversion Hwords as [|w0 words0 Hw Hrest]; subst.
    apply String.eqb_neq in Hw. rewrite Hw. rewrite IH by assumption.
    unfold push_back. rewrite <- app_assoc. reflexivity.
Qed.

Lemma read_point_unclosed (words : list string) :
  forall point,
    Forall (fun w => w <> "}") words -> read_point words point = ArgvExhausted.
Proof.
  induction words as [|w words IH]; intros point Hwords; simpl; [reflexivity|].
  inversion Hwords as [|w0 words0 Hw Hrest]; subst.
  apply String.eqb_neq in Hw. rewrite Hw. apply IH. assumption.
Qed.

(** Property X9. [--optimize { x1 ... xn }] and [--goodness-of-fit { x1 ...
    xn }] consume the words up to the first closing brace and append the
    numbers they read to the starting point, or to the best-fit point, that
    is already there. *)
Theorem braced_point_is_appended (words rest : list string) (s : State) :
  Forall (fun w => w <> "}") words ->
  (exists s',
     parse_argument "--optimize" ("{" :: words ++ "}" :: rest) s = Return (rest, s') /\
     optimize (self s') = true /\
     starting_point (self s') =
       (starting_point (self s) ++ map destringify_double words)%list /\
     best_fit_point (self s') = best_fit_point (self s)) /\
  (exists s',
     parse_argument "--goodness-of-fit" ("{" :: words ++ "}" :: rest) s =
       Return (rest, s') /\
     goodness_of_fit (self s') = true /\
     best_fit_point (self s') =
       (best_fit_point (self s) ++ map destringify_double words)%list /\
     starting_point (self s') = starting_point (self s)).
Proof.
  intros Hwords. split.
  - rewrite parse_argument_optimize. unfold optional_point.
    cbn [next bind]. cbv beta iota zeta. change ("{" =? "{") with true. cbn [negb].
    rewrite read_point_braced by assumption. cbn [bind]. cbv beta iota zeta.
    eexists. split; [reflexivity|]. repeat split.
  - rewrite parse_argument_goodness_of_fit. unfold optional_point.
    cbn [next bind]. cbv beta iota zeta. change ("{" =? "{") with true. cbn [negb].
    rewrite read_point_braced by assumption. cbn [bind]. cbv beta iota zeta.
    eexists. split; [reflexivity|]. repeat split.
Qed.

(** Property X10. Without an opening brace the word after [--optimize] or
    [--goodness-of-fit] is left to the next turn of the loop; with an
    opening brace that is never closed, the program reads past the end of
    [argv]. *)
Theorem optional_point_edges (w : string) (words rest : list string) (s : State) :
  w <> "{" ->
  Forall (fun w => w <> "}") words ->
  parse_argument "--optimize" (w :: rest) s =
    Return (w :: rest, on_self (set_optimize true) s) /\
  parse_argument "--goodness-of-fit" (w :: rest) s =
    Return (w :: rest, on_self (set_goodness_of_fit true) s) /\
  parse_argument "--optimize" ("{" :: words) s = ArgvExhausted /\
  parse_argument "--goodness-of-fit" ("{" :: words) s = ArgvExhausted.
Proof.
  intros Hw Hwords.
  assert (Hneq : ("{" =? w) = false).
  { apply String.eqb_neq. intros Heq. apply Hw. symmetry. exact Heq. }
  rewrite !parse_argument_optimize, !parse_argument_goodness_of_fit.
  unfold optional_point. cbn [next bind]. cbv beta iota zeta.
  rewrite Hneq. change ("{" =? "{") with true. cbn [negb].
  rewrite !read_point_unclosed by assumption.
  repeat split.
Qed.

(** *** Which runs sample *)

Lemma dispatch_without_sampling (this : CommandLine) :
  optimize this = true \/ goodness_of_fit this = true ->
  starts_sampling (dispatch this) = false.
Proof.
  intros H. unfold dispatch.
  destruct (inputs this), (constraints this); try reflexivity;
    destruct (nuisance_parameters this), (scan_parameters this); try reflexivity;
    destruct (optimize this);
    try (destruct (starting_point this); [reflexivity | destruct (negb _); reflexivity]);
    destruct H as [H|H]; try discriminate; rewrite H; reflexivity.
Qed.

Lemma optional_point_keeps (store : list float -> CommandLine -> CommandLine)
    (current : CommandLine -> list float) (a : list string) (s : State)
    (a' : list string) (s' : State) :
  optional_point store current a s = Return (a', s') ->
  s' = s \/ exists point, s' = on_self (store point) s.
Proof.
  unfold optional_point. intros H. invert_turn; [left; reflexivity | right; eauto].
Qed.

Lemma optimize_or_goodness_of_fit_turn (argument : string) (a : list string) (s : State)
    (a' : list string) (s' : State) :
  argument = "--optimize" \/ argument = "--goodness-of-fit" ->
  parse_argument argument a s = Return (a', s') ->
  optimize (self s') = true \/ goodness_of_fit (self s') = true.
Proof.
  intros [->| ->] H.
  - rewrite parse_argument_optimize in H. apply optional_point_keeps in H.
    destruct H as [->|[point ->]]; left; reflexivity.
  - rewrite parse_argument_goodness_of_fit in H. apply optional_point_keeps in H.
    destruct H as [->|[point ->]]; right; reflexivity.
Qed.

(** Property X11. Once the loop gets to [--optimize] or [--goodness-of-fit],
    the program starts neither sampler, whatever else the command line
    holds. *)
Theorem optimize_or_goodness_of_fit_never_samples (argv0 : string) (a b : list string)
    (argument : string) (s : State) :
  reaches (a, parse_start argv0 a CommandLine_new) (argument :: b, s) ->
  argument = "--optimize" \/ argument = "--goodness-of-fit" ->
  starts_sampling (main (argv0 :: a)) = false.
Proof.
  intros Hreach Hflag.
  apply main_from_turn in Hreach. destruct Hreach as (fuel & Hfuel & Heq).
  unfold main. rewrite Heq.
  destruct fuel as [|fuel]; [simpl in Hfuel; lia|].
  simpl parse_loop.
  destruct (parse_argument argument b s) as [[b' s']| | | | |] eqn:Hturn;
    try reflexivity.
  cbn [bind].
  destruct (parse_loop fuel b' s') as [t| | | | |] eqn:Hrest; try reflexivity.
  apply dispatch_without_sampling.
  apply parse_loop_Return_reaches in Hrest. apply reaches_frame in Hrest.
  destruct (optimize_or_goodness_of_fit_turn _ _ Hflag Hturn) as [H|H].
  - left. apply (run_optimize Hrest H).
  - right. apply (run_goodness_of_fit Hrest H).
Qed.

(** *** [--print-args] *)

(** Property X12. Once the loop gets to [--print-args], the program aborts:
    the words after it are not looked at. *)
Theorem print_args_aborts (argv0 : string) (a b : list string) (s : State) :
  reaches (a, parse_start argv0 a CommandLine_new) ("--print-args" :: b, s) ->
  main (argv0 :: a) = ProcessAborted.
Proof.
  intros Hreach.
  apply main_from_turn in Hreach. destruct Hreach as (fuel & Hfuel & Heq).
  unfold main. rewrite Heq.
  rewrite parse_loop_aborted; [reflexivity | exact Hfuel |].
  unfold parse_argument. destruct EOS_ENABLE_PMC; reflexivity.
Qed.

(** *** Kinematics *)

Lemma parse_argument_observable (argument : string) (a : list string) (s : State) :
  argument = "--observable" \/ argument = "--observable-prior" ->
  parse_argument argument a s =
    observable_input (if argument =? "--observable" then None else Some 0%N) a s.
Proof.
  intros [->| ->]; unfold parse_argument; destruct EOS_ENABLE_PMC; reflexivity.
Qed.

Lemma parse_argument_kinematics (name value : string) (a : list string) (s : State) :
  parse_argument "--kinematics" (name :: value :: a) s =
    Return (a, set_local_kinematics
                 ((name, destringify_double value) :: local_kinematics s) s).
Proof. reflexivity. Qed.

(** Property X13. The kinematic variables that a run of [--kinematics NAME
    VALUE] flags sets go to the observable that follows them.  From any
    state, when the loop meets such a run and then [--observable] or
    [--observable-prior] with a known observable, it gets past them and
    has appended one input, whose kinematics are the variables of the run
    with the values their words read as (the latest first) on top of the
    variables that were pending before; the observable was made from those
    same kinematics, and none are left pending for the next observable. *)
Theorem observable_takes_the_pending_kinematics (argument : string)
    (variables : list (string * string)) (name MIN CENTRAL MAX : string)
    (rest : list string) (s : State) (o : ObservablePtr) :
  let pending :=
    fold_left (fun (k : Kinematics) v => (fst v, destringify_double (snd v)) :: k)
      variables (local_kinematics s) in
  argument = "--observable" \/ argument = "--observable-prior" ->
  Observable_make name (parameters (self s)) pending (global_options (self s)) =
    Returns (Some o) ->
  exists s',
    reaches ((kinematics_flags variables ++
              argument :: name :: MIN :: CENTRAL :: MAX :: rest)%list, s)
            (rest, s') /\
    inputs (self s') =
      push_back (inputs (self s))
        {| observable := o; kinematics := pending;
           input_min := destringify_double MIN;
           input_central := destringify_double CENTRAL;
           input_max := destringify_double MAX |} /\
    local_kinematics s' = [].
Proof.
  intros pending Hflag. subst pending. revert s.
  induction variables as [|[n v] variables IH]; intros s Hmake.
  - simpl in Hmake. simpl kinematics_flags. simpl fold_left. cbn [app].
    eexists. split; [|split].
    + eapply reaches_turn; [|apply reaches_here].
      rewrite (parse_argument_observable _ _ Hflag). unfold observable_input.
      cbn [next bind]. cbv beta iota zeta. rewrite Hmake. cbn [call bind].
      reflexivity.
    + reflexivity.
    + reflexivity.
  - simpl fold_left in Hmake |- *.
    destruct (IH (set_local_kinematics ((n, destringify_double v) :: local_kinematics s) s)
                 Hmake) as (s' & Hreach & Hinputs & Hnone).
    exists s'. split; [|split].
    + simpl kinematics_flags. cbn [app].
      eapply reaches_turn; [apply parse_argument_kinematics | exact Hreach].
    + exact Hinputs.
    + exact Hnone.
Qed.

(** *** Flat priors *)

(** Property X14. A flat prior cannot be given in the form [PAR N_SIGMAS
    --prior flat]: a number of sigmas that is zero is refused as no number,
    and a positive one as not allowed for a flat prior. *)
Theorem flat_prior_needs_an_explicit_range (name w : string) (rest : list string)
    (n0 n : float) :
  VerifiedRange_double 0 10 0 = Returns n0 ->
  VerifiedRange_double 0 10 (destringify_double w) = Returns n ->
  ((n =? 0) || (0 <? n))%float = true ->
  scan_spec (name :: w :: "--prior" :: "flat" :: rest) =
    ThrowDoUsage (if (n =? 0)%float
                  then "number of sigmas: number expected"
                  else "Can't specify number of sigmas for flat prior").
Proof.
  intros H0 Hn Hsign. unfold scan_spec.
  cbn [next bind]. cbv beta iota zeta. rewrite H0. cbn [call bind]. cbv beta iota zeta.
  change ("--prior" =? "--prior") with true. cbv beta iota zeta.
  rewrite Hn. cbn [call bind]. cbv beta iota zeta.
  destruct (n =? 0)%float; [reflexivity|].
  cbn [bind negb]. cbv beta iota zeta. cbn [next bind]. cbv beta iota zeta.
  change ("flat" =? "gaussian") with false. change ("flat" =? "flat") with true.
  cbv beta iota zeta. simpl in Hsign. rewrite Hsign. reflexivity.
Qed.

End FrontEndFacts.

Section LCDAParameterFacts.

Import LCDAParameters.
Local Open Scope string_scope.

(** Property X15. For each of the flavours that the option [q] is declared
    with, [parameter] returns: the name is kept, the prefix is [B] for the
    light flavours [u] and [d] alike and for no other, and for [c] the name
    is the one [Implementation<BcMesonLCDAs>::parameter] gives. *)
Theorem BMesonLCDAs_parameter_of_declared_flavour (q _name : string) :
  In q opt_q_values ->
  exists qn,
    BMesonLCDAs_parameter q _name = ScanMC.Returns qn /\
    name qn = _name /\
    (prefix qn = "B" <-> q = "u" \/ q = "d") /\
    (q = "c" -> qn = BcMesonLCDAs_parameter _name).
Proof.
  unfold opt_q_values. simpl In.
  intros [<-|[<-|[<-|[<-|[]]]]]; eexists; (split; [reflexivity|]);
    (split; [reflexivity|]); split; try discriminate; try reflexivity;
    cbn [prefix]; split; auto; try discriminate; intros [H|H]; discriminate.
Qed.

End LCDAParameterFacts.

Section EosAnalysisFacts.

Import EosAnalysis.
Local Open Scope string_scope.

(** Property X16. The lookup [levels[args.verbose]] never fails: whatever
    count [args.verbose] holds when [parse_args] has returned, [main] finds
    a level for it, [ERROR] for 0, [WARNING] for 1, [INFO] for 2 and
    [DEBUG] for 3 and for every greater count, which the clamp brings down
    to 3. *)
Theorem log_level_is_always_found (verbose : nat) :
  log_level verbose =
    Some match verbose with
         | 0 => ERROR
         | 1 => WARNING
         | 2 => INFO
         | _ => DEBUG
         end.
Proof. destruct verbose as [|[|[|[|verbose]]]]; reflexivity. Qed.

Lemma zeros_read_back (count : nat) (s : string) (d : Decimal.uint) :
  NilEmpty.uint_of_string s = Some d ->
  exists d', NilEmpty.uint_of_string (zeros count s) = Some d' /\
    Nat.of_uint d' = Nat.of_uint d.
Proof.
  intros Hs. induction count as [|count (d' & Hd' & Heq)]; simpl.
  - exists d. split; [exact Hs | reflexivity].
  - rewrite Hd'. exists (Decimal.D0 d'). split; [reflexivity | exact Heq].
Qed.

Lemma zero_padded_read_back (width n : nat) :
  exists d, NilEmpty.uint_of_string (zero_padded width (digits n)) = Some d /\
    Nat.of_uint d = n.
Proof.
  unfold zero_padded, digits.
  destruct (zeros_read_back (width - String.length (NilEmpty.string_of_uint (Nat.to_uint n)))
              (NilEmpty.string_of_uint (Nat.to_uint n)) (NilEmpty.usu (Nat.to_uint n)))
    as (d & Hd & Heq).
  exists d. split; [exact Hd|]. rewrite Heq. apply Unsigned.of_to.
Qed.

Lemma zero_padded_injective (width width' n m : nat) :
  zero_padded width (digits n) = zero_padded width' (digits m) -> n = m.
Proof.
  intros H.
  destruct (zero_padded_read_back width n) as (d & Hd & Hn).
  destruct (zero_padded_read_back width' m) as (d' & Hd' & Hm).
  rewrite H in Hd. congruence.
Qed.

Lemma minus_sign_reads_as_no_number (s : string) (d : Decimal.uint) :
  NilEmpty.uint_of_string ("-" ++ s) = Some d -> False.
Proof.
  simpl. destruct (NilEmpty.uint_of_string s); discriminate.
Qed.

Lemma format_04_injective (n m : Z) : format_04 n = format_04 m -> n = m.
Proof.
  unfold format_04. intros H.
  destruct (n <? 0)%Z eqn:Hn, (m <? 0)%Z eqn:Hm.
  - simpl in H. inversion H as [H']. apply zero_padded_injective in H'. lia.
  - exfalso. destruct (zero_padded_read_back 4 (Z.abs_nat m)) as (d & Hd & _).
    rewrite <- H in Hd. apply minus_sign_reads_as_no_number in Hd. exact Hd.
  - exfalso. destruct (zero_padded_read_back 4 (Z.abs_nat n)) as (d & Hd & _).
    rewrite H in Hd. apply minus_sign_reads_as_no_number in Hd. exact Hd.
  - apply zero_padded_injective in H. lia.
Qed.

(** Property X17. Two runs of [cmd_sample_mcmc] with different chain indices
    write to different directories and seed their generators differently. *)
Theorem mcmc_chains_do_not_collide (chain chain' : Z) :
  chain <> chain' ->
  mcmc_directory chain <> mcmc_directory chain' /\
  mcmc_seed chain <> mcmc_seed chain'.
Proof.
  intros Hneq. split.
  - unfold mcmc_directory. intros H. simpl in H. inversion H as [H'].
    apply format_04_injective in H'. contradiction.
  - unfold mcmc_seed. lia.
Qed.

End EosAnalysisFacts.

(** ** The properties at work *)

Section FrontEndWitnesses.

Import ScanMC.
Import Words.
Import Entries.
Import CommandLines.
Local Open Scope string_scope.

(** Property X1 at work: a budget of five turns for two words. *)
Lemma parse_ends_within_its_words_witness :
  @parse_loop Concrete.eos 5 ["--debug"; "--no-prerun"] (start []) =
    @parse_loop Concrete.eos 2 ["--debug"; "--no-prerun"] (start []) /\
  @parse_loop Concrete.eos 5 ["--debug"; "--no-prerun"] (start []) <> OutOfFuel /\
  forall b t,
    @reaches Concrete.eos (["--debug"; "--no-prerun"], start []) (b, t) ->
    is_suffix b ["--debug"; "--no-prerun"].
Proof.
  apply (@parse_ends_within_its_words Concrete.eos 5 ["--debug"; "--no-prerun"] (start [])).
  simpl. lia.
Defined.

(** Property X2 at work: [--verbose] is no flag of the program. *)
Lemma unknown_flag_is_usage_error_witness :
  @main Concrete.eos ["eos-scan-mc"; "--debug"; "--verbose"] =
    UsageError "Unknown command line argument: --verbose".
Proof.
  eapply (@unknown_flag_is_usage_error Concrete.eos "eos-scan-mc"
            ["--debug"; "--verbose"] [] "--verbose").
  - eapply reaches_turn; [reflexivity | apply reaches_here].
  - unfold common_flags. simpl. intros H.
    repeat (destruct H as [H|H]; [discriminate H|]). exact H.
  - intros _. unfold pmc_flags. simpl. intros H.
    repeat (destruct H as [H|H]; [discriminate H|]). exact H.
Defined.

(** Property X3 at work: [--chunksize], which the usage text prints. *)
Lemma usage_lists_flags_that_parse_refuses_witness :
  In "--chunksize" usage_flags /\
  @parse_argument Concrete.eos "--chunksize" ["1000"] (start []) =
    ThrowDoUsage "Unknown command line argument: --chunksize".
Proof.
  destruct (@usage_lists_flags_that_parse_refuses Concrete.eos "--chunksize" ["1000"]
              (start [])) as [Hiff Hrefused].
  split.
  - apply (proj2 Hiff). simpl. right. left. reflexivity.
  - apply Hrefused. simpl. right. left. reflexivity.
Defined.

(** Property X4 at work: [--chains] without its number. *)
Lemma value_flag_as_last_word_reads_past_argv_witness :
  @main Concrete.eos ["eos-scan-mc"; "--debug"; "--chains"] = Undefined.
Proof.
  eapply (@value_flag_as_last_word_reads_past_argv Concrete.eos "eos-scan-mc"
            ["--debug"; "--chains"] "--chains").
  - eapply reaches_turn; [reflexivity | apply reaches_here].
  - left. unfold common_flags_with_value. simpl. right. right. left. reflexivity.
Defined.

(** Property X5 at work: a command line that runs the Markov chains. *)
Lemma main_runs_only_with_input_and_parameter_witness :
  (In "--constraint" scan_with_constraint \/ In "--observable" scan_with_constraint \/
   In "--observable-prior" scan_with_constraint) /\
  (In "--scan" scan_with_constraint \/ In "--nuisance" scan_with_constraint).
Proof.
  eapply (@main_runs_only_with_input_and_parameter Concrete.eos "eos-scan-mc"
            scan_with_constraint).
  lazy. reflexivity.
Defined.

(** Property X6 at work: a command line that runs the Population Monte Carlo
    sampler. *)
Lemma population_monte_carlo_only_on_request_witness :
  exists this,
    @main Concrete.eos ("eos-scan-mc" :: scan_with_pmc) = Runs (PopulationMonteCarlo this) /\
    @EOS_ENABLE_PMC Concrete.eos = true /\
    In "--use-pmc" scan_with_pmc /\ optimize this = false /\ goodness_of_fit this = false.
Proof.
  eexists. split; [lazy; reflexivity|].
  eapply (@population_monte_carlo_only_on_request Concrete.eos "eos-scan-mc" scan_with_pmc).
  lazy. reflexivity.
Defined.

(** Property X7 at work: a command line with a constraint and an observable.
    *)
Lemma parse_records_the_likelihood_witness :
  exists s,
    @parse Concrete.eos ("eos-scan-mc" :: observable_at_a_point)
      (@CommandLine_new Concrete.eos) = Return s /\
    records_likelihood (self s).
Proof.
  eexists. split; [lazy; reflexivity|].
  apply (@parse_records_the_likelihood Concrete.eos "eos-scan-mc" observable_at_a_point).
  lazy. reflexivity.
Defined.

(** Property X8 at work: a command line of three words. *)
Lemma creator_is_the_command_line_witness :
  exists s,
    @parse Concrete.eos ["eos-scan-mc"; "--debug"; "--no-prerun"]
      (@CommandLine_new Concrete.eos) = Return s /\
    creator (self s) = "eos-scan-mc --debug --no-prerun".
Proof.
  eexists. split; [lazy; reflexivity|].
  apply (@creator_is_the_command_line Concrete.eos "eos-scan-mc" ["--debug"; "--no-prerun"]
           (@CommandLine_new Concrete.eos)).
  lazy. reflexivity.
Defined.

(** Property X9 at work: a starting point of two coordinates. *)
Lemma braced_point_is_appended_witness :
  exists s',
    @parse_argument Concrete.eos "--optimize" ["{"; "1.5"; "2.5"; "}"; "--debug"] (start []) =
      Return (["--debug"], s') /\
    optimize (self s') = true /\
    starting_point (self s') = [1.5%float; 2.5%float].
Proof.
  destruct (proj1 (@braced_point_is_appended Concrete.eos ["1.5"; "2.5"] ["--debug"]
                     (start []) ltac:(repeat constructor; discriminate)))
    as (s' & Hparse & Hoptimize & Hpoint & _).
  exists s'. split; [exact Hparse|]. split; [exact Hoptimize|].
  rewrite Hpoint. reflexivity.
Defined.

(** Property X10 at work: [--optimize] followed by a flag, and by a brace
    that is not closed. *)
Lemma optional_point_edges_witness :
  @parse_argument Concrete.eos "--optimize" ["--debug"] (start []) =
    Return (["--debug"], on_self (set_optimize true) (start [])) /\
  @parse_argument Concrete.eos "--optimize" ["{"; "1.5"] (start []) = ArgvExhausted.
Proof.
  destruct (@optional_point_edges Concrete.eos "--debug" ["1.5"] [] (start []))
    as (Habsent & _ & Hunclosed & _).
  - discriminate.
  - repeat constructor; discriminate.
  - split; [exact Habsent | exact Hunclosed].
Defined.

(** Property X11 at work: the scan of one parameter after [--use-pmc
    --optimize]. *)
Lemma optimize_or_goodness_of_fit_never_samples_witness :
  starts_sampling
    (@main Concrete.eos ("eos-scan-mc" :: "--use-pmc" :: "--optimize" :: scan_with_constraint))
  = false.
Proof.
  eapply (@optimize_or_goodness_of_fit_never_samples Concrete.eos "eos-scan-mc"
            ("--use-pmc" :: "--optimize" :: scan_with_constraint) scan_with_constraint
            "--optimize").
  - eapply reaches_turn; [reflexivity | apply reaches_here].
  - left. reflexivity.
Defined.

(** Property X12 at work: [--print-args] before a word that is no flag. *)
Lemma print_args_aborts_witness :
  @main Concrete.eos ["eos-scan-mc"; "--debug"; "--print-args"; "--verbose"] = ProcessAborted.
Proof.
  eapply (@print_args_aborts Concrete.eos "eos-scan-mc"
            ["--debug"; "--print-args"; "--verbose"] ["--verbose"]).
  eapply reaches_turn; [reflexivity | apply reaches_here].
Defined.

(** Property X13 at work: [--kinematics s_min 1.0 --kinematics s_max 6.0
    --observable B->K^*ll::BR@LargeRecoil 1.0 1.5 2.0]. *)
Lemma observable_takes_the_pending_kinematics_witness :
  exists s',
    @reaches Concrete.eos
      (["--kinematics"; "s_min"; "1.0"; "--kinematics"; "s_max"; "6.0";
        "--observable"; "B->K^*ll::BR@LargeRecoil"; "1.0"; "1.5"; "2.0"], start [])
      ([], s') /\
    inputs (self s') =
      [{| observable := "B->K^*ll::BR@LargeRecoil";
          kinematics := [("s_max", 6%float); ("s_min", 1%float)];
          input_min := 1%float; input_central := 1.5%float; input_max := 2%float |}] /\
    local_kinematics s' = [].
Proof.
  exact (@observable_takes_the_pending_kinematics Concrete.eos "--observable"
           [("s_min", "1.0"); ("s_max", "6.0")] "B->K^*ll::BR@LargeRecoil" "1.0" "1.5" "2.0"
           [] (start []) "B->K^*ll::BR@LargeRecoil" (or_introl eq_refl) eq_refl).
Defined.

(** Property X14 at work: a flat prior with two sigmas and no range. *)
Lemma flat_prior_needs_an_explicit_range_witness :
  @scan_spec Concrete.eos ["Abs{c9}"; "2"; "--prior"; "flat"] =
    ThrowDoUsage "Can't specify number of sigmas for flat prior".
Proof.
  apply (@flat_prior_needs_an_explicit_range Concrete.eos "Abs{c9}" "2" [] 0%float 2%float);
    reflexivity.
Defined.

End FrontEndWitnesses.

Section OtherWitnesses.

Import LCDAParameters.
Import EosAnalysis.
Local Open Scope string_scope.

(** Property X15 at work: the strange spectator quark. *)
Lemma BMesonLCDAs_parameter_of_declared_flavour_witness :
  exists qn,
    BMesonLCDAs_parameter "s" "1/lambda_B_p" = ScanMC.Returns qn /\
    name qn = "1/lambda_B_p" /\
    (prefix qn = "B" <-> "s" = "u" \/ "s" = "d") /\
    ("s" = "c" -> qn = BcMesonLCDAs_parameter "1/lambda_B_p").
Proof.
  apply (@BMesonLCDAs_parameter_of_declared_flavour "s" "1/lambda_B_p").
  unfold opt_q_values. simpl. right. right. left. reflexivity.
Defined.

(** Property X17 at work: the chains 0 and 1. *)
Lemma mcmc_chains_do_not_collide_witness :
  mcmc_directory 0 <> mcmc_directory 1 /\ mcmc_seed 0 <> mcmc_seed 1.
Proof.
  apply (@mcmc_chains_do_not_collide 0%Z 1%Z). discriminate.
Defined.

End OtherWitnesses.
